(** * YM studio application: the persistence and mutation layer

    A shallow embedding of the data layer of the two variants of the
    React application (the workouts variant with its workout log and
    exercise library, and the studio variant with sessions, groups
    and products): [loadData], the authentication handlers and the
    enrolment, purchase and workout handlers, followed by the
    properties of that layer.

    Conventions of the model.
    - A JavaScript string is represented by the bytes of its UTF-8
      encoding (a Rocq [string]); [TextEncoder.encode] is then the
      list of these bytes, [===] on strings is equality, and
      [.length], which counts UTF-16 code units, is [js_length].
    - React state is a record; a handler reads the snapshot it closed
      over and each [setX] call replaces one field of the next state.
      The two [async] handlers await the digest only, so one call is
      a function of the snapshot as well.
    - [generateId()] and [new Date()] are sources of fresh values:
      handlers take the value drawn as an argument, [loadData] draws
      from a numbered sequence.
    - [crypto.subtle] and [localStorage] are there.  [loadData] is
      given on a storage that has room for what is written, and
      again, in the modules [Bounded], on a storage that can refuse
      a write.
    - A stored text either fails to parse or parses to a collection,
      an array of records of the expected shape, which is what the
      application writes.  Other JSON texts ([null], an object, a
      number) are outside the model, and every statement about
      [loadData] is about stores without them. *)

From Stdlib Require Import ZArith List String Ascii Bool Lia QArith.
From stdpp Require Import base option list strings gmap.
Import ListNotations.

Local Open Scope string_scope.
Local Open Scope list_scope.
Local Open Scope Z_scope.

(** ** JavaScript strings *)

(** The bytes [TextEncoder.encode] produces. *)
Definition utf8_bytes (s : string) : list Z :=
  List.map (fun c => Z.of_N (N_of_ascii c)) (list_ascii_of_string s).

(** The UTF-16 code units contributed by one byte of a UTF-8 text: a
    continuation byte contributes none, the lead byte of a four-byte
    sequence two (a surrogate pair), any other byte one. *)
Definition utf16_units (b : Z) : nat :=
  if Z.land b 192 =? 128 then 0%nat
  else if 240 <=? b then 2%nat
  else 1%nat.

(** [s.length] *)
Definition js_length (s : string) : nat :=
  list_sum (List.map utf16_units (utf8_bytes s)).

(** [!s] for a string [s]: only the empty string is falsy. *)
Definition falsy (s : string) : bool :=
  match s with
  | EmptyString => true
  | String _ _ => false
  end.

(** [arr.includes(x)] on an array of strings. *)
Definition includes (x : string) (arr : list string) : bool :=
  existsb (String.eqb x) arr.

(** ** SHA-256 (FIPS 180-4), the digest behind [crypto.subtle.digest] *)

Module SHA256.

Definition w32 (x : Z) : Z := x mod 4294967296.

Definition add32 (x y : Z) : Z := w32 (x + y).

Definition rotr (n x : Z) : Z :=
  Z.lor (Z.shiftr x n) (w32 (Z.shiftl x (32 - n))).

Definition shr (n x : Z) : Z := Z.shiftr x n.

Definition not32 (x : Z) : Z := Z.lxor x 4294967295.

Definition Ch (x y z : Z) : Z :=
  Z.lxor (Z.land x y) (Z.land (not32 x) z).

Definition Maj (x y z : Z) : Z :=
  Z.lxor (Z.lxor (Z.land x y) (Z.land x z)) (Z.land y z).

Definition bsig0 (x : Z) : Z :=
  Z.lxor (Z.lxor (rotr 2 x) (rotr 13 x)) (rotr 22 x).

Definition bsig1 (x : Z) : Z :=
  Z.lxor (Z.lxor (rotr 6 x) (rotr 11 x)) (rotr 25 x).

Definition ssig0 (x : Z) : Z :=
  Z.lxor (Z.lxor (rotr 7 x) (rotr 18 x)) (shr 3 x).

Definition ssig1 (x : Z) : Z :=
  Z.lxor (Z.lxor (rotr 17 x) (rotr 19 x)) (shr 10 x).

(** The sixty-four round constants, in decimal. *)
Definition round_constants : list Z :=
  [1116352408; 1899447441; 3049323471; 3921009573;
   961987163; 1508970993; 2453635748; 2870763221;
   3624381080; 310598401; 607225278; 1426881987;
   1925078388; 2162078206; 2614888103; 3248222580;
   3835390401; 4022224774; 264347078; 604807628;
   770255983; 1249150122; 1555081692; 1996064986;
   2554220882; 2821834349; 2952996808; 3210313671;
   3336571891; 3584528711; 113926993; 338241895;
   666307205; 773529912; 1294757372; 1396182291;
   1695183700; 1986661051; 2177026350; 2456956037;
   2730485921; 2820302411; 3259730800; 3345764771;
   3516065817; 3600352804; 4094571909; 275423344;
   430227734; 506948616; 659060556; 883997877;
   958139571; 1322822218; 1537002063; 1747873779;
   1955562222; 2024104815; 2227730452; 2361852424;
   2428436474; 2756734187; 3204031479; 3329325298].

(** The eight working words. *)
Record regs := Regs { ra : Z; rb : Z; rc : Z; rd : Z;
                      re : Z; rf : Z; rg : Z; rh : Z }.

Definition initial_hash : regs :=
  Regs 1779033703 3144134277 1013904242 2773480762
       1359893119 2600822924 528734635 1541459225.

(** Padding: the byte 0x80, zero bytes up to 56 modulo 64, then the
    bit length as a 64-bit big-endian integer. *)
Definition be_bytes (n : nat) (x : Z) : list Z :=
  List.map (fun i => Z.land (Z.shiftr x (8 * Z.of_nat i)) 255) (rev (seq 0 n)).

Definition pad (msg : list Z) : list Z :=
  let len := Z.of_nat (length msg) in
  msg ++ [128]
      ++ repeat 0 (Z.to_nat ((55 - len) mod 64))
      ++ be_bytes 8 (8 * len).

Fixpoint be_word (bs : list Z) (acc : Z) : Z :=
  match bs with
  | [] => acc
  | b :: bs' => be_word bs' (Z.lor (Z.shiftl acc 8) b)
  end.

(** The sixteen words of one 64-byte block. *)
Fixpoint block_words (n : nat) (bs : list Z) : list Z :=
  match n with
  | O => []
  | S n' => be_word (firstn 4 bs) 0 :: block_words n' (skipn 4 bs)
  end.

(** The message schedule: the list grows from 16 to 64 words. *)
Definition schedule_step (ws : list Z) : list Z :=
  let t := length ws in
  let at_back k := nth (t - k) ws 0 in
  ws ++ [add32 (add32 (ssig1 (at_back 2%nat)) (at_back 7%nat))
               (add32 (ssig0 (at_back 15%nat)) (at_back 16%nat))].

Definition schedule (block : list Z) : list Z :=
  Nat.iter 48 schedule_step (block_words 16 block).

Definition round (r : regs) (kw : Z * Z) : regs :=
  let t1 := add32 (add32 (add32 (rh r) (bsig1 (re r)))
                         (add32 (Ch (re r) (rf r) (rg r)) (fst kw)))
                  (snd kw) in
  let t2 := add32 (bsig0 (ra r)) (Maj (ra r) (rb r) (rc r)) in
  Regs (add32 t1 t2) (ra r) (rb r) (rc r) (add32 (rd r) t1) (re r) (rf r) (rg r).

Definition compress (h : regs) (block : list Z) : regs :=
  let r := fold_left round (combine round_constants (schedule block)) h in
  Regs (add32 (ra h) (ra r)) (add32 (rb h) (rb r))
       (add32 (rc h) (rc r)) (add32 (rd h) (rd r))
       (add32 (re h) (re r)) (add32 (rf h) (rf r))
       (add32 (rg h) (rg r)) (add32 (rh h) (rh r)).

Fixpoint process (nblocks : nat) (bs : list Z) (h : regs) : regs :=
  match nblocks with
  | O => h
  | S n' => process n' (skipn 64 bs) (compress h (firstn 64 bs))
  end.

Definition regs_words (r : regs) : list Z :=
  [ra r; rb r; rc r; rd r; re r; rf r; rg r; rh r].

(** The 32 bytes of the digest. *)
Definition digest (msg : list Z) : list Z :=
  let padded := pad msg in
  let h := process (length padded / 64) padded initial_hash in
  flat_map (be_bytes 4) (regs_words h).

End SHA256.

(** ** [hashPassword] *)

(** The characters of a lowercase hexadecimal text. *)
Definition is_lower_hex (c : ascii) : bool :=
  existsb (Ascii.eqb c) (list_ascii_of_string "0123456789abcdef").

Definition hex_digit (d : Z) : ascii :=
  match String.get (Z.to_nat d) "0123456789abcdef" with
  | Some c => c
  | None => "0"%char
  end.

(** [b.toString(16)] for a byte [b]. *)
Definition toString16 (b : Z) : string :=
  if b <? 16 then String (hex_digit b) EmptyString
  else String (hex_digit (b / 16)) (String (hex_digit (b mod 16)) EmptyString).

(** [s.padStart(n, '0')] *)
Definition padStart0 (n : nat) (s : string) : string :=
  string_of_list_ascii (repeat "0"%char (n - String.length s)) ++ s.

(** [hashArray.map(b => b.toString(16).padStart(2, '0')).join('')] over
    the SHA-256 digest of the encoded password. *)
Definition hashPassword (password : string) : string :=
  String.concat "" (List.map (fun b => padStart0 2 (toString16 b))
                             (SHA256.digest (utf8_bytes password))).

(** ** Numbers

    The numbers the application stores come from [parseInt],
    [parseFloat] and numeric literals: a finite value, [NaN],
    [Infinity] or [-Infinity]; [-0] is not told from [0].  The
    handlers never compute with them; the only operation is the
    capacity test [len >= capacity] of the enrolment handlers. *)

Inductive number :=
| Num (q : Q)
| NaN
| Infinity
| MinusInfinity.

Definition num_of_Z (z : Z) : number := Num (inject_Z z).

(** [len >= n] for an array length [len]: every comparison with
    [NaN] is false. *)
Definition length_ge (len : nat) (n : number) : bool :=
  match n with
  | Num q => Qle_bool q (inject_Z (Z.of_nat len))
  | NaN => false
  | Infinity => false
  | MinusInfinity => true
  end.

(** *** [parseInt(s, 10)]

    Leading white space is skipped, an optional sign is read, then
    the longest prefix of decimal digits; the result is [NaN] when
    there is no digit, and otherwise the double nearest to the
    integer read. *)

(** White space of one byte: TAB, LF, VT, FF, CR and the space. *)
Definition is_space (c : ascii) : bool :=
  let n := N_of_ascii c in
  ((n =? 32) || ((9 <=? n) && (n <=? 13)))%N.

(** The no-break space U+00A0, two bytes in UTF-8. *)
Definition is_space2 (c1 c2 : ascii) : bool :=
  ((N_of_ascii c1 =? 194) && (N_of_ascii c2 =? 160))%N.

(** White space of three bytes: U+1680, U+2000 to U+200A, the line
    and paragraph separators U+2028 and U+2029, U+202F, U+205F,
    U+3000 and the byte order mark U+FEFF. *)
Definition is_space3 (c1 c2 c3 : ascii) : bool :=
  let a := N_of_ascii c1 in
  let b := N_of_ascii c2 in
  let c := N_of_ascii c3 in
  (((a =? 225) && (b =? 154) && (c =? 128))
   || ((a =? 226) && (b =? 128)
       && (((128 <=? c) && (c <=? 138)) || (c =? 168) || (c =? 169) || (c =? 175)))
   || ((a =? 226) && (b =? 129) && (c =? 159))
   || ((a =? 227) && (b =? 128) && (c =? 128))
   || ((a =? 239) && (b =? 187) && (c =? 191)))%N.

Definition digit_of (c : ascii) : option Z :=
  let n := Z.of_N (N_of_ascii c) in
  if (48 <=? n) && (n <=? 57) then Some (n - 48) else None.

Fixpoint skip_spaces (s : string) : string :=
  match s with
  | String c1 s1 =>
      if is_space c1 then skip_spaces s1
      else
        match s1 with
        | String c2 s2 =>
            if is_space2 c1 c2 then skip_spaces s2
            else
              match s2 with
              | String c3 s3 => if is_space3 c1 c2 c3 then skip_spaces s3 else s
              | EmptyString => s
              end
        | EmptyString => s
        end
  | EmptyString => s
  end.

Fixpoint read_digits (s : string) (acc : option Z) : option Z :=
  match s with
  | String c s' =>
      match digit_of c with
      | Some d => read_digits s' (Some (10 * default 0 acc + d))
      | None => acc
      end
  | EmptyString => acc
  end.

(** The double nearest to a natural number [n], ties to the even
    significand: [n] itself below [2^53]; above, [n] rounded to its
    53 leading bits; nothing when that is [2^1024] or more, beyond
    the largest double. *)
Definition nearest_double (n : Z) : option Z :=
  if n <? 2 ^ 53 then Some n
  else
    let e := Z.log2 n - 52 in
    let m := Z.shiftr n e in
    let r := n - Z.shiftl m e in
    let half := Z.shiftl 1 (e - 1) in
    let m' := if (half <? r) || ((r =? half) && Z.odd m) then m + 1 else m in
    let v := Z.shiftl m' e in
    if v <? 2 ^ 1024 then Some v else None.

(** (The standard lets an implementation replace the digits after
    the twentieth by zeros before it rounds; here the integer read
    is rounded as it is.) *)
Definition parseInt10 (s : string) : number :=
  let magnitude negative rest :=
    match read_digits rest None with
    | Some n =>
        match nearest_double n with
        | Some v => num_of_Z (if negative : bool then - v else v)
        | None => if negative then MinusInfinity else Infinity
        end
    | None => NaN
    end in
  match skip_spaces s with
  | String "-" rest => magnitude true rest
  | String "+" rest => magnitude false rest
  | rest => magnitude false rest
  end.

(** ** Values, exceptions, reply objects *)

(** The values the handlers put in the objects they return. *)
Inductive value :=
| VBool (b : bool)
| VStr (s : string).

(** An object literal such as [{ success: false, message: '...' }]:
    a finite map from property names to values; a property that is
    not in the map reads as [undefined]. *)
Abbreviation object := (gmap string value).

(** A call either returns or throws: [TypeError] for a property read
    on [null] or [undefined], [QuotaExceededError] for a write that
    [localStorage] refuses. *)
Inductive exn : Set :=
| TypeError
| QuotaExceededError.

Inductive outcome (A : Type) :=
| Returned (a : A)
| Threw (e : exn).

Arguments Returned {A} a.
Arguments Threw {A} e.

(** ** The browser: [localStorage], [JSON] and the identifier source *)

(** [JSON.parse] and [JSON.stringify] on a collection, an array of
    records of type [A].  [JSON_parse s = None] stands for the
    [SyntaxError] thrown on a text that is not JSON; the empty array
    literal parses to the empty collection.  A text that is JSON but
    no array of such records ([null], an object, a number) has no
    image here: the model is about stores that hold collections or
    texts that do not parse. *)
Class Codec (A : Type) := {
  JSON_parse : string -> option (list A);
  JSON_stringify : list A -> string;
  JSON_parse_empty : JSON_parse "[]" = Some []
}.

(** The world [loadData] runs in: the stored blobs and the number of
    identifiers drawn so far from the sequence [ids]. *)
Record World := mkWorld {
  localStorage : gmap string string;
  drawn : nat
}.

Definition IO (A : Type) : Type := World -> A * World.

Definition ret {A : Type} (a : A) : IO A := fun w => (a, w).

Definition bind {A B : Type} (m : IO A) (k : A -> IO B) : IO B :=
  fun w => let (a, w') := m w in k a w'.

Notation "'let!' x ':=' m 'in' k" := (bind m (fun x => k))
  (at level 10, x binder, k at level 200).

(** [localStorage.getItem(key)]: [None] is [null]. *)
Definition getItem (key : string) : IO (option string) :=
  fun w => (localStorage w !! key, w).

(** [localStorage.setItem(key, text)] on a storage that has room for
    the value; [setItem_bounded] below is the call on a storage that
    can refuse it. *)
Definition setItem (key text : string) : IO unit :=
  fun w => (tt, mkWorld (<[key := text]> (localStorage w)) (drawn w)).

(** [generateId()]: the next identifier of the sequence. *)
Definition generateId (ids : nat -> string) : IO string :=
  fun w => (ids (drawn w), mkWorld (localStorage w) (S (drawn w))).

(** [try { v = JSON.parse(text) } catch (e) { v = [] }] *)
Definition parse_or_empty {A : Type} `{Codec A} (text : string) : list A :=
  match JSON_parse text with
  | Some v => v
  | None => []
  end.

(** [item || '[]']: [null] and the empty string are falsy. *)
Definition or_empty_array (item : option string) : string :=
  match item with
  | Some text => if falsy text then "[]" else text
  | None => "[]"
  end.

(** The collection read from the text of a key. *)
Definition stored {A : Type} `{Codec A} (w : World) (key : string) : list A :=
  parse_or_empty (or_empty_array (localStorage w !! key)).

(** The block shared by the collections that have no defaults:
    [try { v = JSON.parse(localStorage.getItem(KEY) || '[]') }
     catch (e) { v = [] }]. *)
Definition load_collection {A : Type} `{Codec A} (key : string) : IO (list A) :=
  let! item := getItem key in
  ret (parse_or_empty (or_empty_array item)).


(** ** A storage that can refuse a write

    [localStorage.setItem] throws [QuotaExceededError] when the
    browser has no room for the value: the store is full, or the
    browser gives the page no quota at all.  The computations of
    [IO] are those of a storage that has room for every write; the
    computations below can throw, and what follows a throw does not
    run. *)

Definition Throwing (A : Type) : Type := World -> outcome A * World.

Definition returns {A : Type} (a : A) : Throwing A := fun w => (Returned a, w).

Definition and_then {A B : Type} (m : Throwing A) (k : A -> Throwing B) : Throwing B :=
  fun w =>
    match m w with
    | (Returned a, w') => k a w'
    | (Threw e, w') => (Threw e, w')
    end.

Notation "'let?' x ':=' m 'in' k" := (and_then m (fun x => k))
  (at level 10, x binder, k at level 200).

(** A computation that never throws: [getItem], [generateId] and
    what is built from them. *)
Definition run {A : Type} (m : IO A) : Throwing A :=
  fun w => let (a, w') := m w in (Returned a, w').

(** The browser's answer to [setItem(key, text)] on a store with the
    given contents: [true] when the value is accepted. *)
Definition Room : Type := gmap string string -> string -> string -> bool.

(** [localStorage.setItem(key, text)] on a storage with the room
    [room]: the write, or [QuotaExceededError] and the store as it
    was. *)
Definition setItem_bounded (room : Room) (key text : string) : Throwing unit :=
  fun w =>
    if room (localStorage w) key text then run (setItem key text) w
    else (Threw QuotaExceededError, w).

(** ** Profile data shared by the two variants *)

(** [goals]: [{}] at creation, four optional numbers once the
    profile form has been saved. *)
Record Goals := mkGoals {
  goal_weight : option number;
  goal_bodyFat : option number;
  goal_chest : option number;
  goal_waist : option number
}.

Definition no_goals : Goals := mkGoals None None None None.

(** One entry of [metrics]. *)
Record Metric := mkMetric {
  metric_date : string;
  metric_weight : number;
  metric_bodyFat : number;
  metric_chest : number;
  metric_waist : number
}.

(** * The studio variant: sessions, groups and products *)

Module Studio.

(** ** Records *)

Module User.
Record t := mk {
  id : string;
  username : string;
  password : string;
  role : string;
  fullName : string;
  email : string;
  phone : string;
  goals : Goals;
  waterGoal : number;
  assignedProgramId : option string;
  joinedSessions : list string;
  joinedGroups : list string;
  purchasedProducts : list string;
  metrics : list Metric
}.

(** [{ ...u, joinedSessions: l }] and its siblings. *)
Definition with_joinedSessions (u : t) (l : list string) : t :=
  mk (id u) (username u) (password u) (role u) (fullName u) (email u)
     (phone u) (goals u) (waterGoal u) (assignedProgramId u)
     l (joinedGroups u) (purchasedProducts u) (metrics u).

Definition with_joinedGroups (u : t) (l : list string) : t :=
  mk (id u) (username u) (password u) (role u) (fullName u) (email u)
     (phone u) (goals u) (waterGoal u) (assignedProgramId u)
     (joinedSessions u) l (purchasedProducts u) (metrics u).

Definition with_purchasedProducts (u : t) (l : list string) : t :=
  mk (id u) (username u) (password u) (role u) (fullName u) (email u)
     (phone u) (goals u) (waterGoal u) (assignedProgramId u)
     (joinedSessions u) (joinedGroups u) l (metrics u).
End User.

Module ProgramExercise.
Record t := mk {
  name : string;
  sets : number;
  reps : number;
  rest : string;
  notes : string;
  video : string
}.
End ProgramExercise.

Module Program.
Record t := mk {
  id : string;
  name : string;
  description : string;
  exercises : list ProgramExercise.t
}.
End Program.

Module Session.
Record t := mk {
  id : string;
  title : string;
  date : string;
  time : string;
  capacity : number;
  description : string;
  participants : list string
}.

Definition with_participants (s : t) (l : list string) : t :=
  mk (id s) (title s) (date s) (time s) (capacity s) (description s) l.
End Session.

Module Group.
Record t := mk {
  id : string;
  title : string;
  date : string;
  time : string;
  capacity : number;
  description : string;
  members : list string
}.

Definition with_members (g : t) (l : list string) : t :=
  mk (id g) (title g) (date g) (time g) (capacity g) (description g) l.
End Group.

Module Product.
Record t := mk {
  id : string;
  name : string;
  price : number;
  description : string
}.
End Product.

(** ** Storage keys *)

Definition USERS_KEY : string := "studio_users".
Definition PROGRAMS_KEY : string := "studio_programs".
Definition SESSIONS_KEY : string := "studio_sessions".
Definition GROUPS_KEY : string := "studio_groups".
Definition PRODUCTS_KEY : string := "studio_products".

(** ** Seed records *)

Definition default_user (uid name pass rol full : string) : User.t :=
  User.mk uid name pass rol full "" "" no_goals (num_of_Z 2) None [] [] [] [].

Definition default_users (id1 id2 : string) : list User.t :=
  [ default_user id1 "admin" "admin" "trainer" "מנהל סטודיו";
    default_user id2 "demo" "demo" "client" "מתאמן דמו" ].

Definition default_program (pid : string) : Program.t :=
  Program.mk pid "תוכנית בסיסית" "תוכנית כללית לשיפור הכושר"
    [ ProgramExercise.mk "סקוואט" (num_of_Z 3) (num_of_Z 12) "60"
        "שמור על גב ישר" "";
      ProgramExercise.mk "לחיצת חזה" (num_of_Z 3) (num_of_Z 10) "60" "" "" ].

(** What [loadData] returns. *)
Module Data.
Record t := mk {
  users : list User.t;
  programs : list Program.t;
  sessions : list Session.t;
  groups : list Group.t;
  products : list Product.t
}.
End Data.

Section LoadData.

Context {SU : Codec User.t} {SP : Codec Program.t} {SS : Codec Session.t}
        {SG : Codec Group.t} {SR : Codec Product.t}.
Variable ids : nat -> string.

(** Lines 33-41: the stored users; the empty array when the key is
    missing, when its text is empty and when the text does not parse. *)
Definition read_users : IO (list User.t) :=
  let! usersJson := getItem USERS_KEY in
  ret (match usersJson with
       | Some text => if falsy text then [] else parse_or_empty text
       | None => []
       end).

(** Lines 42-79: the defaults replace an empty users array. *)
Definition load_users : IO (list User.t) :=
  let! users := read_users in
  if (length users =? 0)%nat then
    let! id1 := generateId ids in
    let! id2 := generateId ids in
    let users := default_users id1 id2 in
    let! _ := setItem USERS_KEY (JSON_stringify users) in
    ret users
  else ret users.

(** Lines 82-100: the programs block; the default is pushed on
    the empty array. *)
Definition load_programs : IO (list Program.t) :=
  let! programs := load_collection PROGRAMS_KEY in
  if (length programs =? 0)%nat then
    let! pid := generateId ids in
    let programs := programs ++ [default_program pid] in
    let! _ := setItem PROGRAMS_KEY (JSON_stringify programs) in
    ret programs
  else ret programs.

Definition loadData : IO Data.t :=
  let! users := load_users in
  let! programs := load_programs in
  let! sessions := load_collection SESSIONS_KEY in
  let! groups := load_collection GROUPS_KEY in
  let! products := load_collection PRODUCTS_KEY in
  ret (Data.mk users programs sessions groups products).

End LoadData.

(** [loadData] on a storage that can refuse a write.  The two calls
    of [localStorage.setItem] (lines 78 and 99) are outside every
    [try], so what they throw leaves [loadData]. *)
Module Bounded.
Section LoadData.

Context {SU : Codec User.t} {SP : Codec Program.t} {SS : Codec Session.t}
        {SG : Codec Group.t} {SR : Codec Product.t}.
Variable room : Room.
Variable ids : nat -> string.

(** Lines 33-79. *)
Definition load_users : Throwing (list User.t) :=
  let? users := run read_users in
  if (length users =? 0)%nat then
    let? id1 := run (generateId ids) in
    let? id2 := run (generateId ids) in
    let users := default_users id1 id2 in
    let? _ := setItem_bounded room USERS_KEY (JSON_stringify users) in
    returns users
  else returns users.

(** Lines 82-100. *)
Definition load_programs : Throwing (list Program.t) :=
  let? programs := run (load_collection PROGRAMS_KEY) in
  if (length programs =? 0)%nat then
    let? pid := run (generateId ids) in
    let programs := programs ++ [default_program pid] in
    let? _ := setItem_bounded room PROGRAMS_KEY (JSON_stringify programs) in
    returns programs
  else returns programs.

Definition loadData : Throwing Data.t :=
  let? users := load_users in
  let? programs := load_programs in
  let? sessions := run (load_collection SESSIONS_KEY) in
  let? groups := run (load_collection GROUPS_KEY) in
  let? products := run (load_collection PRODUCTS_KEY) in
  returns (Data.mk users programs sessions groups products).

End LoadData.
End Bounded.

(** ** The state of [App] *)

Record State := mkState {
  users : list User.t;
  programs : list Program.t;
  sessions : list Session.t;
  groups : list Group.t;
  products : list Product.t;
  currentUser : option User.t;
  activePage : string;
  loading : bool
}.

(** The initial render: every [useState] default. *)
Definition initial_state : State :=
  mkState [] [] [] [] [] None "dashboard" true.

Definition setUsers (v : list User.t) (st : State) : State :=
  mkState v (programs st) (sessions st) (groups st) (products st)
          (currentUser st) (activePage st) (loading st).

Definition setSessions (v : list Session.t) (st : State) : State :=
  mkState (users st) (programs st) v (groups st) (products st)
          (currentUser st) (activePage st) (loading st).

Definition setGroups (v : list Group.t) (st : State) : State :=
  mkState (users st) (programs st) (sessions st) v (products st)
          (currentUser st) (activePage st) (loading st).

Definition setProducts (v : list Product.t) (st : State) : State :=
  mkState (users st) (programs st) (sessions st) (groups st) v
          (currentUser st) (activePage st) (loading st).

Definition setCurrentUser (v : option User.t) (st : State) : State :=
  mkState (users st) (programs st) (sessions st) (groups st) (products st)
          v (activePage st) (loading st).

Definition setActivePage (v : string) (st : State) : State :=
  mkState (users st) (programs st) (sessions st) (groups st) (products st)
          (currentUser st) v (loading st).

(** The mount effect: the five collections are set from [loadData]
    and [loading] is cleared. *)
Definition mount (d : Data.t) (st : State) : State :=
  mkState (Data.users d) (Data.programs d) (Data.sessions d)
          (Data.groups d) (Data.products d)
          (currentUser st) (activePage st) false.

(** ** Authentication handlers *)

Definition MSG_USER_NOT_FOUND : string := "משתמש לא נמצא".
Definition MSG_WRONG_PASSWORD : string := "סיסמה שגויה".
Definition MSG_FILL_BOTH : string := "נא למלא שם משתמש וסיסמה".
Definition MSG_USERNAME_TAKEN : string := "שם משתמש כבר קיים".
Definition MSG_REGISTERED : string := "נרשמת בהצלחה".

(** [users.find((u) => u.username === username)] *)
Definition find_by_username (username : string) (us : list User.t) : option User.t :=
  List.find (fun u => String.eqb (User.username u) username) us.

(** [users.find((u) => u.id === id)] *)
Definition find_by_id (uid : string) (us : list User.t) : option User.t :=
  List.find (fun u => String.eqb (User.id u) uid) us.

(** [inputPass] of [handleLogin]: the password typed, hashed when
    the stored credential has the length of a digest. *)
Definition inputPass (user : User.t) (password : string) : string :=
  if (js_length (User.password user) =? 64)%nat
  then hashPassword password
  else password.

(** [handleLogin]: the object returned and the next state. *)
Definition handleLogin (st : State) (username password : string) : object * State :=
  match find_by_username username (users st) with
  | None =>
      ({[ "success" := VBool false; "message" := VStr MSG_USER_NOT_FOUND ]}, st)
  | Some user =>
      if negb (String.eqb (inputPass user password) (User.password user)) then
        ({[ "success" := VBool false; "message" := VStr MSG_WRONG_PASSWORD ]}, st)
      else
        ({[ "success" := VBool true ]},
         setActivePage "dashboard" (setCurrentUser (Some user) st))
  end.

(** [handleRegister]; [newId] is the identifier [generateId()] gives. *)
Definition handleRegister (st : State) (username password role newId : string)
  : object * State :=
  if falsy username || falsy password then
    ({[ "success" := VBool false; "message" := VStr MSG_FILL_BOTH ]}, st)
  else
    match find_by_username username (users st) with
    | Some _ =>
        ({[ "success" := VBool false; "message" := VStr MSG_USERNAME_TAKEN ]}, st)
    | None =>
        let hashed := hashPassword password in
        let newUser :=
          User.mk newId username hashed role "" "" "" no_goals (num_of_Z 2)
                  None [] [] [] [] in
        ({[ "success" := VBool true; "message" := VStr MSG_REGISTERED ]},
         setUsers (users st ++ [newUser]) st)
    end.

Definition logout (st : State) : State :=
  setActivePage "dashboard" (setCurrentUser None st).

(** ** Sessions *)

Definition createSession (st : State) (title date time capacity description newId : string)
  : State :=
  let newSession :=
    Session.mk newId title date time (parseInt10 capacity) description [] in
  setSessions (sessions st ++ [newSession]) st.

Definition bookSession (st : State) (sessionId : string) : State :=
  match currentUser st with
  | None => st
  | Some cu =>
      let sessions' :=
        List.map
          (fun s =>
             if String.eqb (Session.id s) sessionId then
               if includes (User.id cu) (Session.participants s) then s
               else if length_ge (length (Session.participants s)) (Session.capacity s)
                    then s
                    else Session.with_participants s
                           (Session.participants s ++ [User.id cu])
             else s)
          (sessions st) in
      let users' :=
        List.map
          (fun u =>
             if String.eqb (User.id u) (User.id cu)
             then User.with_joinedSessions u (User.joinedSessions u ++ [sessionId])
             else u)
          (users st) in
      setUsers users' (setSessions sessions' st)
  end.

(** ** Groups *)

Definition createGroup (st : State) (title date time capacity description newId : string)
  : State :=
  let newGroup :=
    Group.mk newId title date time (parseInt10 capacity) description [] in
  setGroups (groups st ++ [newGroup]) st.

Definition joinGroup (st : State) (groupId : string) : State :=
  match currentUser st with
  | None => st
  | Some cu =>
      let groups' :=
        List.map
          (fun g =>
             if String.eqb (Group.id g) groupId then
               if includes (User.id cu) (Group.members g)
                  || length_ge (length (Group.members g)) (Group.capacity g)
               then g
               else Group.with_members g (Group.members g ++ [User.id cu])
             else g)
          (groups st) in
      let users' :=
        List.map
          (fun u =>
             if String.eqb (User.id u) (User.id cu)
             then User.with_joinedGroups u (User.joinedGroups u ++ [groupId])
             else u)
          (users st) in
      setUsers users' (setGroups groups' st)
  end.

(** ** Products *)

(** [purchaseProduct]: reading [purchasedProducts] of the result of
    [find] throws when no user has the current user's id. *)
Definition purchaseProduct (st : State) (productId : string) : outcome State :=
  match currentUser st with
  | None => Returned st
  | Some cu =>
      match find_by_id (User.id cu) (users st) with
      | None => Threw TypeError
      | Some user =>
          if includes productId (User.purchasedProducts user) then Returned st
          else
            Returned
              (setUsers
                 (List.map
                    (fun u =>
                       if String.eqb (User.id u) (User.id cu)
                       then User.with_purchasedProducts u
                              (User.purchasedProducts u ++ [productId])
                       else u)
                    (users st))
                 st)
      end
  end.

(** ** Programs and metrics *)

Definition setPrograms (v : list Program.t) (st : State) : State :=
  mkState (users st) v (sessions st) (groups st) (products st)
          (currentUser st) (activePage st) (loading st).

Definition addProgram (st : State) (name description newId : string) : State :=
  setPrograms (programs st ++ [Program.mk newId name description []]) st.

(** [{ ...u, assignedProgramId: programId }] *)
Definition user_with_assignedProgramId (u : User.t) (pid : option string) : User.t :=
  User.mk (User.id u) (User.username u) (User.password u) (User.role u)
          (User.fullName u) (User.email u) (User.phone u) (User.goals u)
          (User.waterGoal u) pid (User.joinedSessions u) (User.joinedGroups u)
          (User.purchasedProducts u) (User.metrics u).

(** [{ ...u, metrics: l }] *)
Definition user_with_metrics (u : User.t) (l : list Metric) : User.t :=
  User.mk (User.id u) (User.username u) (User.password u) (User.role u)
          (User.fullName u) (User.email u) (User.phone u) (User.goals u)
          (User.waterGoal u) (User.assignedProgramId u) (User.joinedSessions u)
          (User.joinedGroups u) (User.purchasedProducts u) l.

Definition assignProgramToUser (st : State) (username programId : string) : State :=
  setUsers
    (List.map
       (fun u =>
          if String.eqb (User.username u) username
          then user_with_assignedProgramId u (Some programId)
          else u)
       (users st))
    st.

Definition addMetric (st : State) (userId : string) (entry : Metric) : State :=
  setUsers
    (List.map
       (fun u =>
          if String.eqb (User.id u) userId
          then user_with_metrics u (User.metrics u ++ [entry])
          else u)
       (users st))
    st.

(** ** The dashboard's two lookups *)

(** [programs.find((p) => p.id === user.assignedProgramId)]; no
    program id is [null]. *)
Definition assignedProgram (user : User.t) (ps : list Program.t) : option Program.t :=
  List.find
    (fun p =>
       match User.assignedProgramId user with
       | Some pid => String.eqb (Program.id p) pid
       | None => false
       end)
    ps.

(** [user.metrics.length ? user.metrics[user.metrics.length - 1] : null] *)
Definition lastMetric (user : User.t) : option Metric :=
  if (length (User.metrics user) =? 0)%nat then None
  else nth_error (User.metrics user) (length (User.metrics user) - 1).

(** ** The profile *)

(** The object [ProfilePage] passes to [saveProfile]. *)
Module ProfileData.
Record t := mk {
  fullName : string;
  email : string;
  phone : string;
  goals : Goals;
  waterGoal : number
}.
End ProfileData.

(** [{ ...u, ...data }] *)
Definition merge_profile (u : User.t) (data : ProfileData.t) : User.t :=
  User.mk (User.id u) (User.username u) (User.password u) (User.role u)
          (ProfileData.fullName data) (ProfileData.email data)
          (ProfileData.phone data) (ProfileData.goals data)
          (ProfileData.waterGoal data) (User.assignedProgramId u)
          (User.joinedSessions u) (User.joinedGroups u)
          (User.purchasedProducts u) (User.metrics u).

(** What a call of [saveProfile] does.  With nobody logged in, the
    callback of [users.map] reads [currentUser.id] and throws as soon
    as there is a stored user; with no stored user nothing throws and
    [{ ...null, ...data }] becomes the current user, an object that
    holds the profile fields only and is not a user record. *)
Inductive profile_outcome :=
| ProfileSaved (st : State)
| ProfileThrew (e : exn)
| ProfileDetached (data : ProfileData.t).

Definition saveProfile (st : State) (data : ProfileData.t) : profile_outcome :=
  match currentUser st with
  | Some cu =>
      ProfileSaved
        (setCurrentUser (Some (merge_profile cu data))
           (setUsers
              (List.map
                 (fun u =>
                    if String.eqb (User.id u) (User.id cu)
                    then merge_profile u data
                    else u)
                 (users st))
              st))
  | None =>
      match users st with
      | [] => ProfileDetached data
      | _ :: _ => ProfileThrew TypeError
      end
  end.

(** ** Saving *)

Section Save.

Context {SU : Codec User.t} {SP : Codec Program.t} {SS : Codec Session.t}
        {SG : Codec Group.t} {SR : Codec Product.t}.

Definition saveUsers (v : list User.t) : IO unit :=
  setItem USERS_KEY (JSON_stringify v).

Definition savePrograms (v : list Program.t) : IO unit :=
  setItem PROGRAMS_KEY (JSON_stringify v).

Definition saveSessions (v : list Session.t) : IO unit :=
  setItem SESSIONS_KEY (JSON_stringify v).

Definition saveGroups (v : list Group.t) : IO unit :=
  setItem GROUPS_KEY (JSON_stringify v).

Definition saveProducts (v : list Product.t) : IO unit :=
  setItem PRODUCTS_KEY (JSON_stringify v).

End Save.

(** ** The handlers as transitions *)

Section Transitions.

(** [parseFloat], the built-in, with its results in [number]: the
    price it gives is stored and never looked at by a handler. *)
Variable parseFloat : string -> number.

Definition createProduct (st : State) (name price description newId : string) : State :=
  setProducts (products st ++ [Product.mk newId name (parseFloat price) description]) st.

(** One call of a handler of [App], or of [setActivePage] from the
    navigation bar, that returns and leaves a state the record can
    hold.  One returning call is not a transition: [saveProfile] with
    nobody logged in and no stored user, after which the current user
    is the bare profile data ([ProfileDetached]).  It needs an empty
    users array, and no transition empties the users array. *)
Inductive step : State -> State -> Prop :=
| step_login st username password :
    step st (snd (handleLogin st username password))
| step_register st username password role newId :
    step st (snd (handleRegister st username password role newId))
| step_logout st :
    step st (logout st)
| step_navigate st page :
    step st (setActivePage page st)
| step_addProgram st name description newId :
    step st (addProgram st name description newId)
| step_assignProgram st username programId :
    step st (assignProgramToUser st username programId)
| step_addMetric st userId entry :
    step st (addMetric st userId entry)
| step_createSession st title date time capacity description newId :
    step st (createSession st title date time capacity description newId)
| step_bookSession st sessionId :
    step st (bookSession st sessionId)
| step_createGroup st title date time capacity description newId :
    step st (createGroup st title date time capacity description newId)
| step_joinGroup st groupId :
    step st (joinGroup st groupId)
| step_createProduct st name price description newId :
    step st (createProduct st name price description newId)
| step_purchaseProduct st productId st' :
    purchaseProduct st productId = Returned st' -> step st st'
| step_saveProfile st data st' :
    saveProfile st data = ProfileSaved st' -> step st st'.

End Transitions.

(** ** Invariants *)

(** A capacity that is an integer bounds the number of enrolled ids,
    and no id is enrolled twice. *)
Definition enrolment_ok (capacity : number) (enrolled : list string) : Prop :=
  NoDup enrolled
  /\ forall c : Z, capacity = num_of_Z c -> Z.of_nat (length enrolled) <= Z.max 0 c.

Definition capacities_kept (st : State) : Prop :=
  (forall s, In s (sessions st) ->
     enrolment_ok (Session.capacity s) (Session.participants s))
  /\ (forall g, In g (groups st) ->
        enrolment_ok (Group.capacity g) (Group.members g)).

(** [u'] is the account [u] later on: same identity and credential,
    and histories that have only grown. *)
Definition account_grown (u u' : User.t) : Prop :=
  User.id u' = User.id u
  /\ User.username u' = User.username u
  /\ User.password u' = User.password u
  /\ User.role u' = User.role u
  /\ prefix (User.metrics u) (User.metrics u')
  /\ prefix (User.joinedSessions u) (User.joinedSessions u')
  /\ prefix (User.joinedGroups u) (User.joinedGroups u')
  /\ prefix (User.purchasedProducts u) (User.purchasedProducts u').

(** The accounts of [us] are, in the same order, the first accounts
    of [us']. *)
Definition accounts_grown (us us' : list User.t) : Prop :=
  exists later added, us' = later ++ added /\ Forall2 account_grown us later.

(** The current user, when there is one, has the id and the username
    of a stored user. *)
Definition current_user_stored (st : State) : Prop :=
  forall cu, currentUser st = Some cu ->
    exists u, In u (users st)
              /\ User.id u = User.id cu /\ User.username u = User.username cu.

End Studio.

(** * The workouts variant: workout log and exercise library *)

Module Workouts.

(** ** Records *)

Module User.
Record t := mk {
  id : string;
  username : string;
  password : string;
  role : string;
  fullName : string;
  email : string;
  phone : string;
  goals : Goals;
  waterGoal : number;
  assignedProgramId : option string;
  completedWorkouts : list string;
  metrics : list Metric
}.

(** [{ ...u, completedWorkouts: l }] *)
Definition with_completedWorkouts (u : t) (l : list string) : t :=
  mk (id u) (username u) (password u) (role u) (fullName u) (email u)
     (phone u) (goals u) (waterGoal u) (assignedProgramId u) l (metrics u).
End User.

Module ProgramExercise.
Record t := mk {
  id : string;
  name : string;
  sets : number;
  reps : number;
  weight : number;
  rest : number;
  notes : string;
  muscleGroup : string;
  video : string;
  completed : bool
}.
End ProgramExercise.

Module Program.
Record t := mk {
  id : string;
  name : string;
  description : string;
  difficulty : string;
  duration : string;
  targetMuscles : list string;
  exercises : list ProgramExercise.t
}.
End Program.

(** One recorded set; a hole of the [completedSets] array is [None]. *)
Module SetResult.
Record t := mk {
  reps : number;
  weight : number
}.
End SetResult.

Module ExerciseResult.
Record t := mk {
  exerciseId : string;
  name : string;
  sets : number;
  completedSets : list (option SetResult.t);
  notes : string
}.
End ExerciseResult.

Module Workout.
Record t := mk {
  id : string;
  userId : string;
  programId : string;
  date : string;
  exercises : list ExerciseResult.t;
  notes : string;
  duration : number
}.
End Workout.

Module Exercise.
Record t := mk {
  id : string;
  name : string;
  muscleGroup : string;
  equipment : string
}.
End Exercise.

(** ** Storage keys *)

Definition USERS_KEY : string := "studio_users".
Definition PROGRAMS_KEY : string := "studio_programs".
Definition WORKOUTS_KEY : string := "studio_workouts".
Definition EXERCISES_KEY : string := "studio_exercises".

(** ** Seed records *)

Definition default_user (uid name pass rol full : string) : User.t :=
  User.mk uid name pass rol full "" "" no_goals (num_of_Z 2) None [] [].

Definition default_users (id1 id2 : string) : list User.t :=
  [ default_user id1 "admin" "admin" "trainer" "מנהל סטודיו";
    default_user id2 "demo" "demo" "client" "מתאמן דמו" ].

Definition default_program (pid e1 e2 : string) : Program.t :=
  Program.mk pid "תוכנית בסיסית" "תוכנית כללית לשיפור הכושר" "בינוני" "45 דקות"
    [ "רגליים"; "חזה"; "גב" ]
    [ ProgramExercise.mk e1 "סקוואט" (num_of_Z 3) (num_of_Z 12) (num_of_Z 0)
        (num_of_Z 60) "שמור על גב ישר" "רגליים" "" false;
      ProgramExercise.mk e2 "לחיצת חזה" (num_of_Z 3) (num_of_Z 10) (num_of_Z 0)
        (num_of_Z 60) "נשימה נכונה" "חזה" "" false ].

(** The default exercise library, given the six identifiers drawn. *)
Definition default_exercises (i1 i2 i3 i4 i5 i6 : string) : list Exercise.t :=
  [ Exercise.mk i1 "סקוואט" "רגליים" "משקל גוף";
    Exercise.mk i2 "לחיצת חזה" "חזה" "משקולות";
    Exercise.mk i3 "משיכת גב" "גב" "כבל";
    Exercise.mk i4 "לחיצת כתפיים" "כתפיים" "משקולות";
    Exercise.mk i5 "סיבובי בטן" "בטן" "משקל גוף";
    Exercise.mk i6 "דדליפט" "רגליים" "משקולות" ].

(** What [loadData] returns. *)
Module Data.
Record t := mk {
  users : list User.t;
  programs : list Program.t;
  workouts : list Workout.t;
  exercises : list Exercise.t
}.
End Data.

Section LoadData.

Context {WU : Codec User.t} {WP : Codec Program.t}
        {WW : Codec Workout.t} {WE : Codec Exercise.t}.
Variable ids : nat -> string.

(** Lines 24-32: the stored users; the empty array when the key is
    missing, when its text is empty and when the text does not parse. *)
Definition read_users : IO (list User.t) :=
  let! usersJson := getItem USERS_KEY in
  ret (match usersJson with
       | Some text => if falsy text then [] else parse_or_empty text
       | None => []
       end).

(** Lines 33-66: the defaults replace an empty users array. *)
Definition load_users : IO (list User.t) :=
  let! users := read_users in
  if (length users =? 0)%nat then
    let! id1 := generateId ids in
    let! id2 := generateId ids in
    let users := default_users id1 id2 in
    let! _ := setItem USERS_KEY (JSON_stringify users) in
    ret users
  else ret users.

(** Lines 69-112: the programs block. *)
Definition load_programs : IO (list Program.t) :=
  let! programs := load_collection PROGRAMS_KEY in
  if (length programs =? 0)%nat then
    let! pid := generateId ids in
    let! e1 := generateId ids in
    let! e2 := generateId ids in
    let programs := programs ++ [default_program pid e1 e2] in
    let! _ := setItem PROGRAMS_KEY (JSON_stringify programs) in
    ret programs
  else ret programs.

(** Lines 123-140: the exercise library block. *)
Definition load_exercises : IO (list Exercise.t) :=
  let! exercises := load_collection EXERCISES_KEY in
  if (length exercises =? 0)%nat then
    let! i1 := generateId ids in
    let! i2 := generateId ids in
    let! i3 := generateId ids in
    let! i4 := generateId ids in
    let! i5 := generateId ids in
    let! i6 := generateId ids in
    let exercises := default_exercises i1 i2 i3 i4 i5 i6 in
    let! _ := setItem EXERCISES_KEY (JSON_stringify exercises) in
    ret exercises
  else ret exercises.

Definition loadData : IO Data.t :=
  let! users := load_users in
  let! programs := load_programs in
  let! workouts := load_collection WORKOUTS_KEY in
  let! exercises := load_exercises in
  ret (Data.mk users programs workouts exercises).

End LoadData.

(** [loadData] on a storage that can refuse a write.  The three
    calls of [localStorage.setItem] (lines 65, 111 and 139) are
    outside every [try]. *)
Module Bounded.
Section LoadData.

Context {WU : Codec User.t} {WP : Codec Program.t}
        {WW : Codec Workout.t} {WE : Codec Exercise.t}.
Variable room : Room.
Variable ids : nat -> string.

(** Lines 24-66. *)
Definition load_users : Throwing (list User.t) :=
  let? users := run read_users in
  if (length users =? 0)%nat then
    let? id1 := run (generateId ids) in
    let? id2 := run (generateId ids) in
    let users := default_users id1 id2 in
    let? _ := setItem_bounded room USERS_KEY (JSON_stringify users) in
    returns users
  else returns users.

(** Lines 69-112. *)
Definition load_programs : Throwing (list Program.t) :=
  let? programs := run (load_collection PROGRAMS_KEY) in
  if (length programs =? 0)%nat then
    let? pid := run (generateId ids) in
    let? e1 := run (generateId ids) in
    let? e2 := run (generateId ids) in
    let programs := programs ++ [default_program pid e1 e2] in
    let? _ := setItem_bounded room PROGRAMS_KEY (JSON_stringify programs) in
    returns programs
  else returns programs.

(** Lines 123-140. *)
Definition load_exercises : Throwing (list Exercise.t) :=
  let? exercises := run (load_collection EXERCISES_KEY) in
  if (length exercises =? 0)%nat then
    let? i1 := run (generateId ids) in
    let? i2 := run (generateId ids) in
    let? i3 := run (generateId ids) in
    let? i4 := run (generateId ids) in
    let? i5 := run (generateId ids) in
    let? i6 := run (generateId ids) in
    let exercises := default_exercises i1 i2 i3 i4 i5 i6 in
    let? _ := setItem_bounded room EXERCISES_KEY (JSON_stringify exercises) in
    returns exercises
  else returns exercises.

Definition loadData : Throwing Data.t :=
  let? users := load_users in
  let? programs := load_programs in
  let? workouts := run (load_collection WORKOUTS_KEY) in
  let? exercises := load_exercises in
  returns (Data.mk users programs workouts exercises).

End LoadData.
End Bounded.

(** ** The state of [App] *)

Record State := mkState {
  users : list User.t;
  programs : list Program.t;
  workouts : list Workout.t;
  exercises : list Exercise.t;
  currentUser : option User.t;
  activePage : string;
  loading : bool
}.

Definition setUsers (v : list User.t) (st : State) : State :=
  mkState v (programs st) (workouts st) (exercises st)
          (currentUser st) (activePage st) (loading st).

Definition setWorkouts (v : list Workout.t) (st : State) : State :=
  mkState (users st) (programs st) v (exercises st)
          (currentUser st) (activePage st) (loading st).

(** ** Workout completion *)

(** [completeWorkout]; [newId] is the identifier [generateId()] gives
    and [now] the text of [new Date().toISOString()].  Building the
    log entry reads [currentUser.id], which throws when [currentUser]
    is [null]. *)
Definition completeWorkout (st : State) (programId : string)
    (exerciseResults : list ExerciseResult.t) (notes newId now : string)
  : outcome State :=
  match currentUser st with
  | None => Threw TypeError
  | Some cu =>
      let workout :=
        Workout.mk newId (User.id cu) programId now exerciseResults notes
                   (num_of_Z 0) in
      Returned
        (setUsers
           (List.map
              (fun u =>
                 if String.eqb (User.id u) (User.id cu)
                 then User.with_completedWorkouts u
                        (User.completedWorkouts u ++ [Workout.id workout])
                 else u)
              (users st))
           (setWorkouts (workouts st ++ [workout]) st))
  end.

(** ** Programs *)

Definition setPrograms (v : list Program.t) (st : State) : State :=
  mkState (users st) v (workouts st) (exercises st)
          (currentUser st) (activePage st) (loading st).

Definition setExercises (v : list Exercise.t) (st : State) : State :=
  mkState (users st) (programs st) (workouts st) v
          (currentUser st) (activePage st) (loading st).

Definition addProgram (st : State) (name description newId : string) : State :=
  setPrograms
    (programs st ++ [Program.mk newId name description "בינוני" "45 דקות" [] []])
    st.

(** [programs.map(p => p.id === programId ? updatedProgram : p)] *)
Definition updateProgram (st : State) (programId : string) (updatedProgram : Program.t)
  : State :=
  setPrograms
    (List.map
       (fun p => if String.eqb (Program.id p) programId then updatedProgram else p)
       (programs st))
    st.

Definition addExercise (st : State) (name muscleGroup equipment newId : string) : State :=
  setExercises (exercises st ++ [Exercise.mk newId name muscleGroup equipment]) st.

(** ** The program editor

    [program] is the editor's property: the program as it was when
    the editor was opened. *)

(** [{ ...program, exercises: l }] *)
Definition program_with_exercises (p : Program.t) (l : list ProgramExercise.t)
  : Program.t :=
  Program.mk (Program.id p) (Program.name p) (Program.description p)
             (Program.difficulty p) (Program.duration p) (Program.targetMuscles p) l.

Definition removeExerciseFromProgram (st : State) (program : Program.t)
    (exerciseId : string) : State :=
  updateProgram st (Program.id program)
    (program_with_exercises program
       (List.filter
          (fun e => negb (String.eqb (ProgramExercise.id e) exerciseId))
          (Program.exercises program))).

(** The field and value of a call [updateExerciseInProgram(id, field,
    value)] of the editor. *)
Inductive exercise_patch :=
| PatchSets (v : number)
| PatchReps (v : number)
| PatchWeight (v : number)
| PatchRest (v : number)
| PatchNotes (v : string).

(** [{ ...e, [field]: value }] *)
Definition patch_exercise (e : ProgramExercise.t) (patch : exercise_patch)
  : ProgramExercise.t :=
  let mk := ProgramExercise.mk (ProgramExercise.id e) (ProgramExercise.name e) in
  let tail := fun sets reps weight rest notes =>
    mk sets reps weight rest notes (ProgramExercise.muscleGroup e)
       (ProgramExercise.video e) (ProgramExercise.completed e) in
  match patch with
  | PatchSets v =>
      tail v (ProgramExercise.reps e) (ProgramExercise.weight e)
           (ProgramExercise.rest e) (ProgramExercise.notes e)
  | PatchReps v =>
      tail (ProgramExercise.sets e) v (ProgramExercise.weight e)
           (ProgramExercise.rest e) (ProgramExercise.notes e)
  | PatchWeight v =>
      tail (ProgramExercise.sets e) (ProgramExercise.reps e) v
           (ProgramExercise.rest e) (ProgramExercise.notes e)
  | PatchRest v =>
      tail (ProgramExercise.sets e) (ProgramExercise.reps e)
           (ProgramExercise.weight e) v (ProgramExercise.notes e)
  | PatchNotes v =>
      tail (ProgramExercise.sets e) (ProgramExercise.reps e)
           (ProgramExercise.weight e) (ProgramExercise.rest e) v
  end.

Definition updateExerciseInProgram (st : State) (program : Program.t)
    (exerciseId : string) (patch : exercise_patch) : State :=
  updateProgram st (Program.id program)
    (program_with_exercises program
       (List.map
          (fun e =>
             if String.eqb (ProgramExercise.id e) exerciseId
             then patch_exercise e patch
             else e)
          (Program.exercises program))).

(** ** The workouts of a user *)

(** [workouts.filter(w => w.userId === user.id)] *)
Definition userWorkouts (ws : list Workout.t) (user : User.t) : list Workout.t :=
  List.filter (fun w => String.eqb (Workout.userId w) (User.id user)) ws.

(** ** Authentication, assignment, metrics and profile

    These handlers are, line for line, those of the studio variant,
    on the user record of this variant. *)

Definition setCurrentUser (v : option User.t) (st : State) : State :=
  mkState (users st) (programs st) (workouts st) (exercises st)
          v (activePage st) (loading st).

Definition setActivePage (v : string) (st : State) : State :=
  mkState (users st) (programs st) (workouts st) (exercises st)
          (currentUser st) v (loading st).

Definition MSG_USER_NOT_FOUND : string := "משתמש לא נמצא".
Definition MSG_WRONG_PASSWORD : string := "סיסמה שגויה".
Definition MSG_FILL_BOTH : string := "נא למלא שם משתמש וסיסמה".
Definition MSG_USERNAME_TAKEN : string := "שם משתמש כבר קיים".
Definition MSG_REGISTERED : string := "נרשמת בהצלחה".

Definition find_by_username (username : string) (us : list User.t) : option User.t :=
  List.find (fun u => String.eqb (User.username u) username) us.

Definition inputPass (user : User.t) (password : string) : string :=
  if (js_length (User.password user) =? 64)%nat
  then hashPassword password
  else password.

Definition handleLogin (st : State) (username password : string) : object * State :=
  match find_by_username username (users st) with
  | None =>
      ({[ "success" := VBool false; "message" := VStr MSG_USER_NOT_FOUND ]}, st)
  | Some user =>
      if negb (String.eqb (inputPass user password) (User.password user)) then
        ({[ "success" := VBool false; "message" := VStr MSG_WRONG_PASSWORD ]}, st)
      else
        ({[ "success" := VBool true ]},
         setActivePage "dashboard" (setCurrentUser (Some user) st))
  end.

Definition handleRegister (st : State) (username password role newId : string)
  : object * State :=
  if falsy username || falsy password then
    ({[ "success" := VBool false; "message" := VStr MSG_FILL_BOTH ]}, st)
  else
    match find_by_username username (users st) with
    | Some _ =>
        ({[ "success" := VBool false; "message" := VStr MSG_USERNAME_TAKEN ]}, st)
    | None =>
        let hashed := hashPassword password in
        let newUser :=
          User.mk newId username hashed role "" "" "" no_goals (num_of_Z 2)
                  None [] [] in
        ({[ "success" := VBool true; "message" := VStr MSG_REGISTERED ]},
         setUsers (users st ++ [newUser]) st)
    end.

Definition logout (st : State) : State :=
  setActivePage "dashboard" (setCurrentUser None st).

Definition assignProgramToUser (st : State) (username programId : string) : State :=
  setUsers
    (List.map
       (fun u =>
          if String.eqb (User.username u) username
          then User.mk (User.id u) (User.username u) (User.password u) (User.role u)
                       (User.fullName u) (User.email u) (User.phone u) (User.goals u)
                       (User.waterGoal u) (Some programId)
                       (User.completedWorkouts u) (User.metrics u)
          else u)
       (users st))
    st.

Definition addMetric (st : State) (userId : string) (entry : Metric) : State :=
  setUsers
    (List.map
       (fun u =>
          if String.eqb (User.id u) userId
          then User.mk (User.id u) (User.username u) (User.password u) (User.role u)
                       (User.fullName u) (User.email u) (User.phone u) (User.goals u)
                       (User.waterGoal u) (User.assignedProgramId u)
                       (User.completedWorkouts u) (User.metrics u ++ [entry])
          else u)
       (users st))
    st.

(** The object [ProfilePage] passes to [saveProfile]. *)
Module ProfileData.
Record t := mk {
  fullName : string;
  email : string;
  phone : string;
  goals : Goals;
  waterGoal : number
}.
End ProfileData.

(** [{ ...u, ...data }] *)
Definition merge_profile (u : User.t) (data : ProfileData.t) : User.t :=
  User.mk (User.id u) (User.username u) (User.password u) (User.role u)
          (ProfileData.fullName data) (ProfileData.email data)
          (ProfileData.phone data) (ProfileData.goals data)
          (ProfileData.waterGoal data) (User.assignedProgramId u)
          (User.completedWorkouts u) (User.metrics u).

(** The outcomes of [saveProfile], as in the studio variant: saved,
    thrown (nobody logged in, some user stored), or the current user
    replaced by the bare profile data (nobody logged in, no user
    stored). *)
Inductive profile_outcome :=
| ProfileSaved (st : State)
| ProfileThrew (e : exn)
| ProfileDetached (data : ProfileData.t).

Definition saveProfile (st : State) (data : ProfileData.t) : profile_outcome :=
  match currentUser st with
  | Some cu =>
      ProfileSaved
        (setCurrentUser (Some (merge_profile cu data))
           (setUsers
              (List.map
                 (fun u =>
                    if String.eqb (User.id u) (User.id cu)
                    then merge_profile u data
                    else u)
                 (users st))
              st))
  | None =>
      match users st with
      | [] => ProfileDetached data
      | _ :: _ => ProfileThrew TypeError
      end
  end.

(** ** The handlers as transitions *)

(** One call that returns of a handler of [App], of [setActivePage]
    from the navigation bar, or of one of the two editing functions
    of the program editor.  Two returning calls are not transitions,
    because the records cannot hold what they leave:
    [addExerciseToProgram] of the programs page, whose new exercise
    has no [video] field, and [saveProfile] with nobody logged in and
    no stored user, after which the current user is the bare profile
    data ([ProfileDetached]). *)
Inductive step : State -> State -> Prop :=
| step_login st username password :
    step st (snd (handleLogin st username password))
| step_register st username password role newId :
    step st (snd (handleRegister st username password role newId))
| step_logout st :
    step st (logout st)
| step_navigate st page :
    step st (setActivePage page st)
| step_addProgram st name description newId :
    step st (addProgram st name description newId)
| step_updateProgram st programId updatedProgram :
    step st (updateProgram st programId updatedProgram)
| step_removeExercise st program exerciseId :
    step st (removeExerciseFromProgram st program exerciseId)
| step_updateExercise st program exerciseId patch :
    step st (updateExerciseInProgram st program exerciseId patch)
| step_assignProgram st username programId :
    step st (assignProgramToUser st username programId)
| step_addMetric st userId entry :
    step st (addMetric st userId entry)
| step_completeWorkout st programId results notes newId now st' :
    completeWorkout st programId results notes newId now = Returned st' ->
    step st st'
| step_addExercise st name muscleGroup equipment newId :
    step st (addExercise st name muscleGroup equipment newId)
| step_saveProfile st data st' :
    saveProfile st data = ProfileSaved st' -> step st st'.

(** Every workout id in the completed list of a stored user is the
    id of a log entry made for that user's id. *)
Definition log_consistent (st : State) : Prop :=
  forall u wid,
    In u (users st) -> In wid (User.completedWorkouts u) ->
    exists w, In w (workouts st)
              /\ Workout.id w = wid /\ Workout.userId w = User.id u.

End Workouts.

(** * A codec to run the model on concrete stores

    The texts it reads are the empty array literal and the texts of a
    table, each with the collection it stands for; every other text
    is rejected.  What it writes is the empty array literal for the
    empty collection and an opaque marker otherwise. *)

Definition table_parse {A : Type} (table : list (string * list A)) (text : string)
  : option (list A) :=
  if String.eqb text "[]" then Some []
  else option_map snd (List.find (fun entry => String.eqb (fst entry) text) table).

Definition stringify_marker {A : Type} (v : list A) : string :=
  match v with
  | [] => "[]"
  | _ :: _ => "[...]"
  end.

Definition table_codec {A : Type} (table : list (string * list A)) : Codec A :=
  {| JSON_parse := table_parse table;
     JSON_stringify := stringify_marker;
     JSON_parse_empty := eq_refl |}.

#[local] Instance sample_codec (A : Type) : Codec A := table_codec [].

(** An identifier sequence for the examples: [_id0], [_id1], ... up
    to nine, [_idn] afterwards. *)
Definition sample_ids (n : nat) : string :=
  "_id" ++ String (nth n (list_ascii_of_string "0123456789") "n"%char) EmptyString.

Definition empty_world : World := mkWorld ∅ 0.

(** Two storages: one that accepts every write, and one that accepts
    none (a browser that gives the page no quota). *)
Definition roomy : Room := fun _ _ _ => true.


(** * Sample stores and states *)

Module Sample.

(** The studio variant started on an empty store. *)
Definition data : Studio.Data.t :=
  fst (Studio.loadData sample_ids empty_world).

Definition seeded : Studio.State :=
  Studio.mount data Studio.initial_state.

(** A studio with a coach and three clients, nobody logged in. *)
Definition coach : Studio.User.t :=
  Studio.default_user "_t1" "coach" "secret" "trainer" "".
Definition dana : Studio.User.t :=
  Studio.default_user "_u1" "dana" "pw1" "client" "".
Definition erez : Studio.User.t :=
  Studio.default_user "_u2" "erez" "pw2" "client" "".
Definition gil : Studio.User.t :=
  Studio.default_user "_u3" "gil" "pw3" "client" "".

Definition studio : Studio.State :=
  Studio.mkState [coach; dana; erez; gil] [] [] [] [] None "dashboard" false.

Definition login_as (st : Studio.State) (username password : string) : Studio.State :=
  snd (Studio.handleLogin st username password).

(** The coach creates a session of capacity 2 and a group of
    capacity 2. *)
Definition with_session : Studio.State :=
  Studio.createGroup
    (Studio.createSession (login_as studio "coach" "secret")
       "Yoga" "2026-01-05" "18:00" "2" "" "_s1")
    "Runners" "2026-01-06" "07:00" "2" "" "_g1".

(** Dana, then Erez, then Gil log in and book the session. *)
Definition booked_once : Studio.State :=
  Studio.bookSession (login_as with_session "dana" "pw1") "_s1".
Definition booked_twice : Studio.State :=
  Studio.bookSession (login_as booked_once "erez" "pw2") "_s1".
Definition booked_thrice : Studio.State :=
  Studio.bookSession (login_as booked_twice "gil" "pw3") "_s1".

(** Dana books the session she has booked already, and joins twice
    the group. *)
Definition rebooked : Studio.State :=
  Studio.bookSession (login_as booked_once "dana" "pw1") "_s1".
Definition joined_once : Studio.State :=
  Studio.joinGroup (login_as with_session "dana" "pw1") "_g1".
Definition joined_again : Studio.State :=
  Studio.joinGroup (login_as joined_once "dana" "pw1") "_g1".

(** Dana buys a product. *)
Definition returned (o : outcome Studio.State) (otherwise : Studio.State) : Studio.State :=
  match o with
  | Returned st => st
  | Threw _ => otherwise
  end.

Definition purchased_once : Studio.State :=
  returned (Studio.purchaseProduct (login_as studio "dana" "pw1") "_p1") studio.

(** The workouts variant: the same four users, Dana logged in or not. *)
Definition gym_user (uid name pass rol : string) : Workouts.User.t :=
  Workouts.default_user uid name pass rol "".

Definition gym_users : list Workouts.User.t :=
  [ gym_user "_t1" "coach" "secret" "trainer";
    gym_user "_u1" "dana" "pw1" "client";
    gym_user "_u2" "erez" "pw2" "client" ].

Definition gym (current : option Workouts.User.t) : Workouts.State :=
  Workouts.mkState gym_users [] [] [] current "workouts" false.

Definition squats : Workouts.ExerciseResult.t :=
  Workouts.ExerciseResult.mk "_e1" "סקוואט" (num_of_Z 3)
    [ Some (Workouts.SetResult.mk (num_of_Z 12) (num_of_Z 40)); None ] "".

(** A store whose users and sessions texts are not JSON, and which
    has no other key. *)
Definition broken_world : World :=
  mkWorld (<[Studio.USERS_KEY := "{oops"]>
             (<[Studio.SESSIONS_KEY := "not json"]> ∅)) 0.

(** A store that holds one user, one program and one exercise, under
    texts that the table codecs below read. *)
Definition one_exercise : Workouts.Exercise.t :=
  Workouts.Exercise.mk "_x1" "מתח" "גב" "מוט".

Definition studio_program : Studio.Program.t :=
  Studio.Program.mk "_p9" "Strength" "" [].

Definition gym_program : Workouts.Program.t :=
  Workouts.Program.mk "_p9" "Strength" "" "" "" [] [].

Definition kept_world : World :=
  mkWorld (<[Studio.USERS_KEY := "[dana]"]>
             (<[Studio.PROGRAMS_KEY := "[strength]"]>
                (<[Workouts.EXERCISES_KEY := "[pullup]"]> ∅))) 0.

Definition studio_users_codec : Codec Studio.User.t :=
  table_codec [("[dana]", [dana])].

Definition studio_programs_codec : Codec Studio.Program.t :=
  table_codec [("[strength]", [studio_program])].

Definition gym_users_codec : Codec Workouts.User.t :=
  table_codec [("[dana]", [gym_user "_u1" "dana" "pw1" "client"])].

Definition gym_programs_codec : Codec Workouts.Program.t :=
  table_codec [("[strength]", [gym_program])].

Definition exercises_codec : Codec Workouts.Exercise.t :=
  table_codec [("[pullup]", [one_exercise])].

(** Dana, logged in, completes a workout. *)
Definition gym_dana : Workouts.State :=
  gym (Some (gym_user "_u1" "dana" "pw1" "client")).

Definition gym_completed : Workouts.State :=
  match Workouts.completeWorkout gym_dana "_p1" [squats] "" "_w1"
          "2026-01-05T18:00:00.000Z" with
  | Returned st => st
  | Threw _ => gym_dana
  end.

(** Dana logs in, then completes a workout. *)
Definition gym_logged_in : Workouts.State :=
  snd (Workouts.handleLogin (gym None) "dana" "pw1").

Definition gym_logged_completed : Workouts.State :=
  match Workouts.completeWorkout gym_logged_in "_p1" [squats] "" "_w1"
          "2026-01-05T18:00:00.000Z" with
  | Returned st => st
  | Threw _ => gym_logged_in
  end.

(** The workouts variant with the seeded program, opened in the
    program editor. *)
Definition edited_program : Workouts.Program.t :=
  Workouts.default_program "_p1" "_e1" "_e2".

Definition gym_with_program : Workouts.State :=
  Workouts.mkState gym_users [edited_program] [] [] None "programs" false.

(** Codecs that read back the marker as the seeded users and the
    seeded program of a first run, and as the collections saved
    below. *)
Definition seeds_users_codec : Codec Studio.User.t :=
  table_codec [("[...]", Studio.default_users "_id0" "_id1")].

Definition seeds_programs_codec : Codec Studio.Program.t :=
  table_codec [("[...]", [Studio.default_program "_id2"])].

Definition yoga : Studio.Session.t :=
  Studio.Session.mk "_s1" "Yoga" "2026-01-05" "18:00" (num_of_Z 2) "" ["_u1"].

Definition runners : Studio.Group.t :=
  Studio.Group.mk "_g1" "Runners" "2026-01-06" "07:00" (num_of_Z 2) "" [].

Definition bottle : Studio.Product.t :=
  Studio.Product.mk "_p1" "Bottle" (num_of_Z 25) "".

Definition saved_users_codec : Codec Studio.User.t :=
  table_codec [("[...]", [dana; erez])].

Definition saved_sessions_codec : Codec Studio.Session.t :=
  table_codec [("[...]", [yoga])].

Definition saved_groups_codec : Codec Studio.Group.t :=
  table_codec [("[...]", [runners])].

Definition saved_products_codec : Codec Studio.Product.t :=
  table_codec [("[...]", [bottle])].

(** The coach creates a session whose capacity text is not a number
    and one of capacity 0; Dana and Erez book the first. *)
Definition odd_sessions : Studio.State :=
  Studio.createSession
    (Studio.createSession (login_as studio "coach" "secret")
       "Open gym" "2026-01-07" "09:00" "many" "" "_s2")
    "Closed" "2026-01-08" "09:00" "0" "" "_s3".

Definition open_booked_twice : Studio.State :=
  Studio.bookSession
    (login_as (Studio.bookSession (login_as odd_sessions "dana" "pw1") "_s2")
       "erez" "pw2")
    "_s2".

(** Two measurements. *)
Definition first_metric : Metric :=
  mkMetric "5.1.2026" (num_of_Z 80) (num_of_Z 22) (num_of_Z 0) (num_of_Z 0).

Definition second_metric : Metric :=
  mkMetric "12.1.2026" (num_of_Z 78) (num_of_Z 21) (num_of_Z 0) (num_of_Z 0).

End Sample.

(** * Properties *)

(** ** The digest and its hexadecimal text *)

Arguments hashPassword : simpl never.

(** The standard test vector of FIPS 180-4. *)
Example sha_abc :
  hashPassword "abc"
  = "ba7816bf8f01cfea414140de5dae2223b00361a396177a9cb410ff61f20015ad".
Proof. vm_compute. reflexivity. Qed.

(** The empty message, and messages of 56 and 119 bytes, which fill
    one and two blocks up to the length field. *)
Example sha_empty :
  hashPassword ""
  = "e3b0c44298fc1c149afbf4c8996fb92427ae41e4649b934ca495991b7852b855".
Proof. vm_compute. reflexivity. Qed.

Example sha_block_edges :
  hashPassword (string_of_list_ascii (repeat "a"%char 56))
  = "b35439a4ac6f0948b6d6f9e3c6af0f5f590ce20f1bde7090ef7970686ec6738a"
  /\ hashPassword (string_of_list_ascii (repeat "a"%char 119))
     = "31eba51c313a5c08226adf18d4a359cfdfd8d2e816b13f4af952f7ea6584dcfb".
Proof. split; vm_compute; reflexivity. Qed.

(** A password outside ASCII: its UTF-8 bytes are hashed, and its
    length is counted in UTF-16 code units. *)
Example sha_hebrew :
  hashPassword "סיסמה"
  = "344614aa34a6546df575388d956491102a610a6d251c374b17a0bc12d3aae9fb"
  /\ js_length "סיסמה" = 5%nat.
Proof. split; vm_compute; reflexivity. Qed.

Example parseInt10_samples :
  parseInt10 "2" = num_of_Z 2
  /\ parseInt10 "  -17px" = num_of_Z (-17)
  /\ parseInt10 "abc" = NaN
  /\ parseInt10 "" = NaN
  /\ parseInt10 "-0" = num_of_Z 0
  /\ parseInt10 "0x1f" = num_of_Z 0
  /\ parseInt10 "1e3" = num_of_Z 1
  /\ parseInt10 "- 5" = NaN.
Proof. repeat split. Qed.

(** White space of more than one byte, the rounding to a double and
    its overflow. *)
Example parseInt10_white_space :
  let nbsp := String (ascii_of_N 194) (String (ascii_of_N 160) EmptyString) in
  let bom := String (ascii_of_N 239) (String (ascii_of_N 187)
               (String (ascii_of_N 191) EmptyString)) in
  let line_separator := String (ascii_of_N 226) (String (ascii_of_N 128)
                          (String (ascii_of_N 168) EmptyString)) in
  parseInt10 (nbsp ++ "5") = num_of_Z 5
  /\ parseInt10 (bom ++ " " ++ line_separator ++ nbsp ++ "-12 ") = num_of_Z (-12)
  /\ parseInt10 (String (ascii_of_N 226) (String (ascii_of_N 128)
                   (String (ascii_of_N 144) "5"))) = NaN.
Proof. repeat split. Qed.

Example parseInt10_rounding :
  parseInt10 "9007199254740992" = num_of_Z 9007199254740992
  /\ parseInt10 "9007199254740993" = num_of_Z 9007199254740992
  /\ parseInt10 "9007199254740995" = num_of_Z 9007199254740996
  /\ parseInt10 "-9007199254740995" = num_of_Z (-9007199254740996)
  /\ parseInt10 "123456789012345678901234567890"
     = num_of_Z 123456789012345677877719597056
  /\ parseInt10 "179769313486231570814527423731704356798070567525844996598917476803157260780028538760589558632766878171540458953514382464234321326889464182768467546703537516986049910576551282076245490090389328944075868508455133942304583236903222948165808559332123348274797826204144723168738177180919299881250404026184124858368"
     = num_of_Z (2 ^ 1024 - 2 ^ 971)
  /\ parseInt10 "1000000000000000000000000000000000000000000000000000000000000000000000000000000000000000000000000000000000000000000000000000000000000000000000000000000000000000000000000000000000000000000000000000000000000000000000000000000000000000000000000000000000000000000000000000000000000000000000000000000000000000000000"
     = Infinity
  /\ parseInt10 "-1000000000000000000000000000000000000000000000000000000000000000000000000000000000000000000000000000000000000000000000000000000000000000000000000000000000000000000000000000000000000000000000000000000000000000000000000000000000000000000000000000000000000000000000000000000000000000000000000000000000000000000000"
     = MinusInfinity.
Proof. vm_compute. repeat split. Qed.

Lemma be_bytes_length n x : length (SHA256.be_bytes n x) = n.
Proof.
  unfold SHA256.be_bytes.
  rewrite length_map, length_rev. apply length_seq.
Qed.

Lemma be_bytes_range n x b : In b (SHA256.be_bytes n x) -> 0 <= b < 256.
Proof.
  unfold SHA256.be_bytes. rewrite in_map_iff. intros [i [<- _]].
  change 255 with (Z.ones 8). rewrite Z.land_ones by lia.
  apply Z.mod_pos_bound. lia.
Qed.

Lemma digest_length msg : length (SHA256.digest msg) = 32%nat.
Proof.
  unfold SHA256.digest. cbv zeta.
  rewrite (flat_map_constant_length (c := 4)).
  - reflexivity.
  - intros x _. apply be_bytes_length.
Qed.

Lemma digest_range msg b : In b (SHA256.digest msg) -> 0 <= b < 256.
Proof.
  unfold SHA256.digest. cbv zeta. rewrite in_flat_map.
  intros [x [_ Hb]]. eapply be_bytes_range, Hb.
Qed.

Lemma utf8_bytes_app a b : utf8_bytes (a ++ b) = utf8_bytes a ++ utf8_bytes b.
Proof.
  unfold utf8_bytes. induction a as [|c a IH]; simpl.
  - reflexivity.
  - f_equal. exact IH.
Qed.

Lemma list_sum_app_nat (l1 l2 : list nat) :
  list_sum (l1 ++ l2) = (list_sum l1 + list_sum l2)%nat.
Proof. induction l1 as [|x l1 IH]; simpl; [reflexivity | lia]. Qed.

Lemma js_length_app a b : js_length (a ++ b) = (js_length a + js_length b)%nat.
Proof.
  unfold js_length. rewrite utf8_bytes_app, List.map_app. apply list_sum_app_nat.
Qed.

Lemma js_length_concat (l : list string) (k : nat) :
  (forall s, In s l -> js_length s = k) ->
  js_length (String.concat "" l) = (length l * k)%nat.
Proof.
  induction l as [|s l IH]; intros Hk.
  - reflexivity.
  - assert (Hs : js_length s = k) by (apply Hk; left; reflexivity).
    assert (Hl : js_length (String.concat "" l) = (length l * k)%nat)
      by (apply IH; intros s' Hs'; apply Hk; right; exact Hs').
    destruct l as [|s' l'].
    + simpl. lia.
    + change (String.concat "" (s :: s' :: l'))
        with (s ++ "" ++ String.concat "" (s' :: l'))%string.
      rewrite !js_length_app, Hs, Hl. simpl. lia.
Qed.

(** Every byte is written as two characters of one code unit each. *)
Lemma hex_pair_table :
  forallb (fun n => (js_length (padStart0 2 (toString16 (Z.of_nat n))) =? 2)%nat)
          (seq 0 256) = true.
Proof. vm_compute. reflexivity. Qed.

Lemma hex_pair_length b :
  0 <= b < 256 -> js_length (padStart0 2 (toString16 b)) = 2%nat.
Proof.
  intros Hb.
  pose proof (proj1 (forallb_forall _ _) hex_pair_table (Z.to_nat b)) as Ht.
  cbv beta in Ht. rewrite Z2Nat.id in Ht by lia.
  apply Nat.eqb_eq, Ht, in_seq. lia.
Qed.

(** The text [hashPassword] returns has length 64, whatever the
    password. *)
Lemma hashPassword_length password : js_length (hashPassword password) = 64%nat.
Proof.
  unfold hashPassword.
  rewrite (js_length_concat _ 2).
  - rewrite length_map, digest_length. reflexivity.
  - intros s. rewrite in_map_iff. intros [b [<- Hb]].
    apply hex_pair_length. eapply digest_range, Hb.
Qed.

(** ** Looking users up *)

Lemma find_by_username_none username us :
  (forall u, In u us -> Studio.User.username u <> username) ->
  Studio.find_by_username username us = None.
Proof.
  unfold Studio.find_by_username. induction us as [|u us IH]; intros Hno.
  - reflexivity.
  - simpl. destruct (String.eqb_spec (Studio.User.username u) username) as [Heq|_].
    + exfalso. apply (Hno u); [left; reflexivity | exact Heq].
    + apply IH. intros u' Hu'. apply Hno. right. exact Hu'.
Qed.

Lemma find_by_username_some username us u :
  In u us -> Studio.User.username u = username ->
  exists u', Studio.find_by_username username us = Some u'
             /\ In u' us /\ Studio.User.username u' = username.
Proof.
  unfold Studio.find_by_username. intros Hin Hname.
  destruct (find _ us) as [u'|] eqn:Hfind.
  - exists u'. apply find_some in Hfind as [Hin' Heq].
    apply String.eqb_eq in Heq. auto.
  - exfalso. apply (find_none _ _ Hfind) in Hin.
    apply String.eqb_neq in Hin. contradiction.
Qed.

Lemma find_by_username_last username us u :
  Studio.find_by_username username us = None ->
  Studio.User.username u = username ->
  Studio.find_by_username username (us ++ [u]) = Some u.
Proof.
  unfold Studio.find_by_username. intros Hnone Hname.
  induction us as [|v us IH]; simpl in *.
  - rewrite Hname, String.eqb_refl. reflexivity.
  - destruct (String.eqb (Studio.User.username v) username); [discriminate |].
    apply IH, Hnone.
Qed.

Lemma falsy_empty s : falsy s = true <-> s = "".
Proof. destruct s; simpl; split; intros; congruence. Qed.

(** ** Registration *)

(** C2. A registration whose username is the username of a stored
    user, or whose username or password is empty, returns an object
    with [success: false] and leaves the state, so the users
    collection with its length and records, as it was. *)
Theorem C2_register_rejected
    (st : Studio.State) (username password role newId : string) :
  (exists u, In u (Studio.users st) /\ Studio.User.username u = username)
  \/ username = "" \/ password = "" ->
  let r := Studio.handleRegister st username password role newId in
  fst r !! "success" = Some (VBool false)
  /\ Studio.users (snd r) = Studio.users st
  /\ length (Studio.users (snd r)) = length (Studio.users st)
  /\ snd r = st.
Proof.
  intros Hcase r. subst r. unfold Studio.handleRegister.
  destruct (falsy username || falsy password) eqn:Hempty.
  - simpl. repeat split; reflexivity.
  - apply orb_false_elim in Hempty as [Hu Hp].
    destruct Hcase as [[u [Hin Hname]] | [-> | ->]]; [| discriminate ..].
    destruct (find_by_username_some username _ u Hin Hname) as [u' [-> _]].
    simpl. repeat split; reflexivity.
Qed.

Lemma C2_register_rejected_witness :
  let r := Studio.handleRegister Sample.seeded "admin" "hunter2" "client" "_n1" in
  fst r !! "success" = Some (VBool false)
  /\ Studio.users (snd r) = Studio.users Sample.seeded
  /\ length (Studio.users (snd r)) = length (Studio.users Sample.seeded)
  /\ snd r = Sample.seeded.
Proof.
  apply (C2_register_rejected Sample.seeded "admin" "hunter2" "client" "_n1").
  left. exists (Studio.default_user "_id0" "admin" "admin" "trainer" "מנהל סטודיו").
  split; [left; reflexivity | reflexivity].
Defined.

(** The digest of the scenario's password, as [sha256sum] prints it. *)
Lemma hash_pw123 :
  hashPassword "pw123"
  = "23d47445adfb8991789b459b6ba1b974d727d310aa9d80b7c2875b9430c0ba25".
Proof. vm_compute. reflexivity. Qed.

(** The users block on a store that has no users key. *)
Lemma studio_load_users_missing {SU : Codec Studio.User.t} ids w :
  localStorage w !! Studio.USERS_KEY = None ->
  Studio.load_users ids w
  = (Studio.default_users (ids (drawn w)) (ids (S (drawn w))),
     mkWorld (<[Studio.USERS_KEY :=
                  JSON_stringify
                    (Studio.default_users (ids (drawn w)) (ids (S (drawn w))))]>
                (localStorage w))
             (S (S (drawn w)))).
Proof.
  intros Hnone.
  unfold Studio.load_users, Studio.read_users, bind, getItem, ret.
  rewrite Hnone. reflexivity.
Qed.

(** The users [loadData] returns are those of its first block. *)
Lemma studio_loadData_users
    {SU : Codec Studio.User.t} {SP : Codec Studio.Program.t}
    {SS : Codec Studio.Session.t} {SG : Codec Studio.Group.t}
    {SR : Codec Studio.Product.t} ids w :
  Studio.Data.users (fst (Studio.loadData ids w)) = fst (Studio.load_users ids w).
Proof.
  unfold Studio.loadData, bind.
  destruct (Studio.load_users ids w) as [us w1].
  destruct (Studio.load_programs ids w1) as [ps w2].
  destruct (load_collection Studio.SESSIONS_KEY w2) as [ss w3].
  destruct (load_collection Studio.GROUPS_KEY w3) as [gs w4].
  destruct (load_collection Studio.PRODUCTS_KEY w4) as [prs w5].
  reflexivity.
Qed.

(** A registration that is accepted, then a login with the same
    password: the credential stored is the digest, of length 64, and
    the login succeeds with the new user as the current user. *)
Lemma register_then_login (st : Studio.State) (username password role newId : string) :
  username <> "" -> password <> "" ->
  Studio.find_by_username username (Studio.users st) = None ->
  let newUser :=
    Studio.User.mk newId username (hashPassword password) role "" "" ""
                   no_goals (num_of_Z 2) None [] [] [] [] in
  let st1 := Studio.setUsers (Studio.users st ++ [newUser]) st in
  Studio.handleRegister st username password role newId
  = ({[ "success" := VBool true; "message" := VStr Studio.MSG_REGISTERED ]}, st1)
  /\ js_length (Studio.User.password newUser) = 64%nat
  /\ Studio.handleLogin st1 username password
     = ({[ "success" := VBool true ]},
        Studio.setActivePage "dashboard" (Studio.setCurrentUser (Some newUser) st1)).
Proof.
  intros Hu Hp Hfree newUser st1. split; [| split].
  - unfold Studio.handleRegister.
    destruct username; [congruence |]. destruct password; [congruence |].
    simpl falsy. simpl orb. cbv iota. rewrite Hfree. reflexivity.
  - apply hashPassword_length.
  - unfold Studio.handleLogin. subst st1. simpl Studio.users.
    rewrite (find_by_username_last username _ newUser Hfree eq_refl).
    unfold Studio.inputPass. simpl Studio.User.password.
    rewrite hashPassword_length, Nat.eqb_refl, String.eqb_refl. reflexivity.
Qed.

(** What [handleLogin] compares with a stored credential of length
    64: the digest of the password typed, never the password typed
    itself and never the stored credential. *)
Lemma login_compares_digest (st : Studio.State) (user : Studio.User.t) (username typed : string) :
  Studio.find_by_username username (Studio.users st) = Some user ->
  js_length (Studio.User.password user) = 64%nat ->
  Studio.inputPass user typed = hashPassword typed
  /\ (hashPassword typed = Studio.User.password user ->
      Studio.handleLogin st username typed
      = ({[ "success" := VBool true ]},
         Studio.setActivePage "dashboard" (Studio.setCurrentUser (Some user) st)))
  /\ (hashPassword typed <> Studio.User.password user ->
      Studio.handleLogin st username typed
      = ({[ "success" := VBool false; "message" := VStr Studio.MSG_WRONG_PASSWORD ]},
         st)).
Proof.
  intros Hfind Hlen.
  assert (Hin : Studio.inputPass user typed = hashPassword typed).
  { unfold Studio.inputPass. rewrite Hlen. reflexivity. }
  split; [exact Hin |].
  unfold Studio.handleLogin. rewrite Hfind, Hin. split.
  - intros Heq. apply String.eqb_eq in Heq. rewrite Heq. reflexivity.
  - intros Hne. apply String.eqb_neq in Hne. rewrite Hne. reflexivity.
Qed.

(** C4. On a fresh store, so on the seeded users, registering
    ["alice"] with the password ["pw123"] succeeds and appends a user
    whose stored credential is the SHA-256 digest of the password in
    lowercase hexadecimal, 64 characters long and different from the
    password; the login that follows succeeds with that user as the
    current user.  It succeeds because login hashes what is typed
    before comparing: for every stored user whose credential has
    length 64 and every text typed, the text compared with the
    credential is the digest of the text typed, the login succeeds
    when that digest is the credential and fails with the
    wrong-password message when it is not.  So after the registration
    a login of alice with another password fails, and so does a login
    with the stored credential itself typed as the password. *)
Theorem C4_register_then_login_alice
    {SU : Codec Studio.User.t} {SP : Codec Studio.Program.t}
    {SS : Codec Studio.Session.t} {SG : Codec Studio.Group.t}
    {SR : Codec Studio.Product.t}
    (ids : nat -> string) (n : nat) (newId : string) :
  let fresh := Studio.mount (fst (Studio.loadData ids (mkWorld ∅ n)))
                            Studio.initial_state in
  let alice :=
    Studio.User.mk newId "alice"
      "23d47445adfb8991789b459b6ba1b974d727d310aa9d80b7c2875b9430c0ba25"
      "client" "" "" "" no_goals (num_of_Z 2) None [] [] [] [] in
  let registered := Studio.setUsers (Studio.users fresh ++ [alice]) fresh in
  let wrong_password :=
    ({[ "success" := VBool false; "message" := VStr Studio.MSG_WRONG_PASSWORD ]},
     registered) in
  Studio.users fresh = Studio.default_users (ids n) (ids (S n))
  /\ Studio.handleRegister fresh "alice" "pw123" "client" newId
     = ({[ "success" := VBool true; "message" := VStr Studio.MSG_REGISTERED ]},
        registered)
  /\ Studio.User.password alice = hashPassword "pw123"
  /\ js_length (Studio.User.password alice) = 64%nat
  /\ forallb is_lower_hex (list_ascii_of_string (Studio.User.password alice)) = true
  /\ Studio.User.password alice <> "pw123"
  /\ Studio.inputPass alice "pw123" = hashPassword "pw123"
  /\ Studio.handleLogin registered "alice" "pw123"
     = ({[ "success" := VBool true ]},
        Studio.setActivePage "dashboard"
          (Studio.setCurrentUser (Some alice) registered))
  /\ (forall (st : Studio.State) (user : Studio.User.t) (username typed : string),
        Studio.find_by_username username (Studio.users st) = Some user ->
        js_length (Studio.User.password user) = 64%nat ->
        Studio.inputPass user typed = hashPassword typed
        /\ (hashPassword typed = Studio.User.password user ->
            Studio.handleLogin st username typed
            = ({[ "success" := VBool true ]},
               Studio.setActivePage "dashboard"
                 (Studio.setCurrentUser (Some user) st)))
        /\ (hashPassword typed <> Studio.User.password user ->
            Studio.handleLogin st username typed
            = ({[ "success" := VBool false;
                  "message" := VStr Studio.MSG_WRONG_PASSWORD ]}, st)))
  /\ Studio.handleLogin registered "alice" "pw124" = wrong_password
  /\ Studio.handleLogin registered "alice" (Studio.User.password alice)
     = wrong_password.
Proof.
  intros fresh alice registered wrong_password.
  assert (Husers : Studio.users fresh = Studio.default_users (ids n) (ids (S n))).
  { subst fresh. unfold Studio.mount. simpl Studio.users.
    rewrite studio_loadData_users, studio_load_users_missing by apply lookup_empty.
    reflexivity. }
  assert (Hfree : Studio.find_by_username "alice" (Studio.users fresh) = None).
  { rewrite Husers. reflexivity. }
  pose proof (register_then_login fresh "alice" "pw123" "client" newId
                ltac:(discriminate) ltac:(discriminate) Hfree) as Hreg.
  cbv zeta in Hreg. rewrite hash_pw123 in Hreg.
  destruct Hreg as [Hregister [Hlen Hlogin]].
  assert (Hfound : Studio.find_by_username "alice" (Studio.users registered)
                   = Some alice).
  { subst registered. simpl Studio.users.
    apply find_by_username_last; [exact Hfree | reflexivity]. }
  split; [exact Husers |].
  split; [exact Hregister |].
  split; [symmetry; exact hash_pw123 |].
  split; [exact Hlen |].
  split; [reflexivity |].
  split; [discriminate |].
  split.
  { unfold Studio.inputPass.
    replace (js_length (Studio.User.password alice)) with 64%nat
      by (symmetry; exact Hlen).
    reflexivity. }
  split; [exact Hlogin |].
  split; [intros st user username typed; apply login_compares_digest |].
  split.
  - apply (login_compares_digest registered alice "alice" "pw124" Hfound Hlen).
    vm_compute. discriminate.
  - apply (login_compares_digest registered alice "alice" _ Hfound Hlen).
    vm_compute. discriminate.
Qed.

(** The scenario on the identifiers of the examples: the wrong
    password and the stored credential typed as the password are both
    turned down, by the general rule applied to alice. *)
Lemma C4_register_then_login_alice_witness :
  let alice :=
    Studio.User.mk "_n1" "alice"
      "23d47445adfb8991789b459b6ba1b974d727d310aa9d80b7c2875b9430c0ba25"
      "client" "" "" "" no_goals (num_of_Z 2) None [] [] [] [] in
  let registered :=
    Studio.setUsers (Studio.users Sample.seeded ++ [alice]) Sample.seeded in
  Studio.inputPass alice "hunter2" = hashPassword "hunter2"
  /\ Studio.handleLogin registered "alice" "pw123"
     = ({[ "success" := VBool true ]},
        Studio.setActivePage "dashboard"
          (Studio.setCurrentUser (Some alice) registered))
  /\ Studio.handleLogin registered "alice" "hunter2"
     = ({[ "success" := VBool false; "message" := VStr Studio.MSG_WRONG_PASSWORD ]},
        registered).
Proof.
  cbv zeta.
  pose proof (C4_register_then_login_alice sample_ids 0 "_n1") as Hc4.
  cbv zeta in Hc4.
  destruct Hc4 as [_ [_ [_ [_ [_ [_ [_ [_ [Hrule _]]]]]]]]].
  destruct (Hrule
              (Studio.setUsers
                 (Studio.users Sample.seeded
                  ++ [Studio.User.mk "_n1" "alice"
                        "23d47445adfb8991789b459b6ba1b974d727d310aa9d80b7c2875b9430c0ba25"
                        "client" "" "" "" no_goals (num_of_Z 2) None [] [] [] []])
                 Sample.seeded)
              (Studio.User.mk "_n1" "alice"
                 "23d47445adfb8991789b459b6ba1b974d727d310aa9d80b7c2875b9430c0ba25"
                 "client" "" "" "" no_goals (num_of_Z 2) None [] [] [] [])
              "alice" "hunter2" eq_refl eq_refl) as [Hin [_ Hbad]].
  destruct (Hrule
              (Studio.setUsers
                 (Studio.users Sample.seeded
                  ++ [Studio.User.mk "_n1" "alice"
                        "23d47445adfb8991789b459b6ba1b974d727d310aa9d80b7c2875b9430c0ba25"
                        "client" "" "" "" no_goals (num_of_Z 2) None [] [] [] []])
                 Sample.seeded)
              (Studio.User.mk "_n1" "alice"
                 "23d47445adfb8991789b459b6ba1b974d727d310aa9d80b7c2875b9430c0ba25"
                 "client" "" "" "" no_goals (num_of_Z 2) None [] [] [] [])
              "alice" "pw123" eq_refl eq_refl) as [_ [Hok _]].
  split; [exact Hin |]. split.
  - apply Hok. vm_compute. reflexivity.
  - apply Hbad. vm_compute. discriminate.
Defined.

(** ** Login *)

(** C5, as the code has it. When no stored user has the username,
    login returns [success: false] with the user-not-found message;
    when the first user with that username is found and the
    credential comparison fails, it returns [success: false] with the
    wrong-password message; when the comparison succeeds it returns
    the object [{ success: true }], which carries no user, and makes
    the matched user the current user, on the dashboard page.  In
    every case the five collections are unchanged. *)
Theorem C5_login_outcomes (st : Studio.State) (username password : string) :
  let r := Studio.handleLogin st username password in
  ((forall u, In u (Studio.users st) -> Studio.User.username u <> username) ->
   r = ({[ "success" := VBool false;
           "message" := VStr Studio.MSG_USER_NOT_FOUND ]}, st))
  /\ (forall user,
        Studio.find_by_username username (Studio.users st) = Some user ->
        Studio.inputPass user password <> Studio.User.password user ->
        r = ({[ "success" := VBool false;
                "message" := VStr Studio.MSG_WRONG_PASSWORD ]}, st))
  /\ (forall user,
        Studio.find_by_username username (Studio.users st) = Some user ->
        Studio.inputPass user password = Studio.User.password user ->
        r = ({[ "success" := VBool true ]},
             Studio.setActivePage "dashboard"
               (Studio.setCurrentUser (Some user) st))
        /\ fst r !! "user" = None
        /\ Studio.currentUser (snd r) = Some user)
  /\ (Studio.users (snd r) = Studio.users st
      /\ Studio.programs (snd r) = Studio.programs st
      /\ Studio.sessions (snd r) = Studio.sessions st
      /\ Studio.groups (snd r) = Studio.groups st
      /\ Studio.products (snd r) = Studio.products st).
Proof.
  intros r. subst r. unfold Studio.handleLogin.
  split; [| split; [| split]].
  - intros Hno. rewrite (find_by_username_none _ _ Hno). reflexivity.
  - intros user -> Hbad. apply String.eqb_neq in Hbad. rewrite Hbad. reflexivity.
  - intros user -> Hok. apply String.eqb_eq in Hok. rewrite Hok.
    repeat split; reflexivity.
  - destruct (Studio.find_by_username username (Studio.users st)) as [user|].
    + destruct (negb _); repeat split; reflexivity.
    + repeat split; reflexivity.
Qed.

Lemma C5_login_outcomes_witness :
  Studio.handleLogin Sample.seeded "nobody" "x"
  = ({[ "success" := VBool false;
        "message" := VStr Studio.MSG_USER_NOT_FOUND ]}, Sample.seeded)
  /\ Studio.handleLogin Sample.seeded "demo" "admin"
     = ({[ "success" := VBool false;
           "message" := VStr Studio.MSG_WRONG_PASSWORD ]}, Sample.seeded)
  /\ Studio.currentUser (snd (Studio.handleLogin Sample.seeded "demo" "demo"))
     = Some (Studio.default_user "_id1" "demo" "demo" "client" "מתאמן דמו").
Proof.
  split; [| split].
  - apply (C5_login_outcomes Sample.seeded "nobody" "x").
    intros u [<- | [<- | []]]; discriminate.
  - apply (proj1 (proj2 (C5_login_outcomes Sample.seeded "demo" "admin"))
             (Studio.default_user "_id1" "demo" "demo" "client" "מתאמן דמו")).
    + reflexivity.
    + discriminate.
  - apply (proj1 (proj2 (proj2 (C5_login_outcomes Sample.seeded "demo" "demo")))
             (Studio.default_user "_id1" "demo" "demo" "client" "מתאמן דמו")).
    + reflexivity.
    + reflexivity.
Defined.

(** C5 as stated fails on the returned value: a successful login of
    the seeded trainer returns exactly [{ success: true }], an object
    without a [user] property; the matched user goes to the
    current-user state instead. *)
Lemma C5_login_returns_no_user :
  Studio.handleLogin Sample.seeded "admin" "admin"
  = ({[ "success" := VBool true ]},
     Studio.setActivePage "dashboard"
       (Studio.setCurrentUser
          (Some (Studio.default_user "_id0" "admin" "admin" "trainer" "מנהל סטודיו"))
          Sample.seeded))
  /\ fst (Studio.handleLogin Sample.seeded "admin" "admin") !! "user" = None.
Proof. split; reflexivity. Qed.

(** ** Enrolment and purchase *)

(** [map] with a function that returns its argument on every element
    of the list returns the list. *)
Lemma map_unchanged {A : Type} (f : A -> A) (l : list A) :
  (forall x, In x l -> f x = x) -> List.map f l = l.
Proof.
  induction l as [|x l IH]; intros Hf; simpl.
  - reflexivity.
  - rewrite Hf by (left; reflexivity).
    rewrite IH by (intros y Hy; apply Hf; right; exact Hy).
    reflexivity.
Qed.

(** The session side of a booking is gated: a session whose
    participants hold the current user already, or whose participants
    have reached the capacity, is left as it is, and so is the
    sessions collection. *)
Lemma bookSession_sessions_gated (st : Studio.State) (cu : Studio.User.t) sessionId :
  Studio.currentUser st = Some cu ->
  (forall s, In s (Studio.sessions st) -> Studio.Session.id s = sessionId ->
     includes (Studio.User.id cu) (Studio.Session.participants s) = true
     \/ length_ge (length (Studio.Session.participants s))
                  (Studio.Session.capacity s) = true) ->
  Studio.sessions (Studio.bookSession st sessionId) = Studio.sessions st.
Proof.
  intros Hcu Hgate. unfold Studio.bookSession. rewrite Hcu. simpl.
  apply map_unchanged. intros s Hs.
  destruct (String.eqb_spec (Studio.Session.id s) sessionId) as [Hid|_]; [| reflexivity].
  destruct (Hgate s Hs Hid) as [-> | Hfull]; [reflexivity |].
  rewrite Hfull. destruct (includes _ _); reflexivity.
Qed.

(** The user side of a booking is not gated: every record that has
    the current user's id gains the session id. *)
Lemma bookSession_users (st : Studio.State) (cu : Studio.User.t) sessionId :
  Studio.currentUser st = Some cu ->
  Studio.users (Studio.bookSession st sessionId)
  = List.map
      (fun u =>
         if String.eqb (Studio.User.id u) (Studio.User.id cu)
         then Studio.User.with_joinedSessions u
                (Studio.User.joinedSessions u ++ [sessionId])
         else u)
      (Studio.users st).
Proof. intros Hcu. unfold Studio.bookSession. rewrite Hcu. reflexivity. Qed.

(** The same on the group side. *)
Lemma joinGroup_groups_gated (st : Studio.State) (cu : Studio.User.t) groupId :
  Studio.currentUser st = Some cu ->
  (forall g, In g (Studio.groups st) -> Studio.Group.id g = groupId ->
     includes (Studio.User.id cu) (Studio.Group.members g) = true
     \/ length_ge (length (Studio.Group.members g)) (Studio.Group.capacity g) = true) ->
  Studio.groups (Studio.joinGroup st groupId) = Studio.groups st.
Proof.
  intros Hcu Hgate. unfold Studio.joinGroup. rewrite Hcu. simpl.
  apply map_unchanged. intros g Hg.
  destruct (String.eqb_spec (Studio.Group.id g) groupId) as [Hid|_]; [| reflexivity].
  destruct (Hgate g Hg Hid) as [-> | ->]; [reflexivity |].
  rewrite orb_true_r. reflexivity.
Qed.

Lemma joinGroup_users (st : Studio.State) (cu : Studio.User.t) groupId :
  Studio.currentUser st = Some cu ->
  Studio.users (Studio.joinGroup st groupId)
  = List.map
      (fun u =>
         if String.eqb (Studio.User.id u) (Studio.User.id cu)
         then Studio.User.with_joinedGroups u
                (Studio.User.joinedGroups u ++ [groupId])
         else u)
      (Studio.users st).
Proof. intros Hcu. unfold Studio.joinGroup. rewrite Hcu. reflexivity. Qed.

(** C1, evaluated: a session of capacity 2 booked by three clients in
    turn.  The third booking leaves the two participants in place,
    and it does append the session id to the third user's joined
    sessions. *)
Theorem C1_third_booking :
  List.map Studio.Session.participants (Studio.sessions Sample.booked_twice)
  = [["_u1"; "_u2"]]
  /\ List.map Studio.Session.capacity (Studio.sessions Sample.booked_twice)
     = [num_of_Z 2]
  /\ Studio.sessions Sample.booked_thrice = Studio.sessions Sample.booked_twice
  /\ List.map Studio.User.joinedSessions
       (List.filter (fun u => String.eqb (Studio.User.id u) "_u3")
               (Studio.users Sample.booked_twice))
     = [[]]
  /\ List.map Studio.User.joinedSessions
       (List.filter (fun u => String.eqb (Studio.User.id u) "_u3")
               (Studio.users Sample.booked_thrice))
     = [["_s1"]].
Proof. repeat split; vm_compute; reflexivity. Qed.

(** C3, evaluated: a client who is a participant of the session books
    it again, and a client who is a member of the group joins it
    again.  The sessions and groups collections are unchanged; the
    user's joined lists gain a second copy of the id. *)
Theorem C3_second_enrolment :
  Studio.sessions Sample.rebooked = Studio.sessions Sample.booked_once
  /\ List.map Studio.Session.participants (Studio.sessions Sample.booked_once)
     = [["_u1"]]
  /\ List.map Studio.User.joinedSessions
       (List.filter (fun u => String.eqb (Studio.User.id u) "_u1")
               (Studio.users Sample.booked_once))
     = [["_s1"]]
  /\ List.map Studio.User.joinedSessions
       (List.filter (fun u => String.eqb (Studio.User.id u) "_u1")
               (Studio.users Sample.rebooked))
     = [["_s1"; "_s1"]]
  /\ Studio.groups Sample.joined_again = Studio.groups Sample.joined_once
  /\ List.map Studio.Group.members (Studio.groups Sample.joined_once)
     = [["_u1"]]
  /\ List.map Studio.User.joinedGroups
       (List.filter (fun u => String.eqb (Studio.User.id u) "_u1")
               (Studio.users Sample.joined_again))
     = [["_g1"; "_g1"]].
Proof. repeat split; vm_compute; reflexivity. Qed.

(** C8. When the record of the current user in the users collection,
    the one [users.find] returns for the current user's id, has the
    product in its purchased list, the purchase returns and the state
    is the same: the users collection and that purchased list keep
    their length and contents. *)
Theorem C8_purchase_twice
    (st : Studio.State) (cu user : Studio.User.t) (productId : string) :
  Studio.currentUser st = Some cu ->
  Studio.find_by_id (Studio.User.id cu) (Studio.users st) = Some user ->
  In productId (Studio.User.purchasedProducts user) ->
  Studio.purchaseProduct st productId = Returned st.
Proof.
  intros Hcu Hfind Hin. unfold Studio.purchaseProduct. rewrite Hcu, Hfind.
  assert (Hinc : includes productId (Studio.User.purchasedProducts user) = true).
  { unfold includes. apply existsb_exists. exists productId.
    split; [exact Hin | apply String.eqb_refl]. }
  rewrite Hinc. reflexivity.
Qed.

Lemma C8_purchase_twice_witness :
  Studio.purchaseProduct Sample.purchased_once "_p1" = Returned Sample.purchased_once.
Proof.
  apply (C8_purchase_twice Sample.purchased_once
           Sample.dana
           (Studio.User.with_purchasedProducts Sample.dana ["_p1"])
           "_p1").
  - reflexivity.
  - reflexivity.
  - left. reflexivity.
Defined.

(** With identifiers unique within the users collection, the record
    [users.find] returns is the record of the collection that has the
    current user's id. *)
Lemma find_by_id_unique (us : list Studio.User.t) (u : Studio.User.t) :
  NoDup (List.map Studio.User.id us) -> In u us ->
  Studio.find_by_id (Studio.User.id u) us = Some u.
Proof.
  unfold Studio.find_by_id. induction us as [|v us IH]; intros Hnd Hin.
  - destruct Hin.
  - simpl in Hnd. apply NoDup_cons in Hnd as [Hnotin Hnd].
    simpl. destruct Hin as [-> | Hin].
    + rewrite String.eqb_refl. reflexivity.
    + destruct (String.eqb_spec (Studio.User.id v) (Studio.User.id u)) as [Heq|_].
      * exfalso. apply Hnotin. rewrite Heq.
        apply list_elem_of_In, in_map, Hin.
      * apply IH; [exact Hnd | exact Hin].
Qed.

(** C10. With no current user, booking a session and joining a group
    return the state they were given, and purchasing a product
    returns, without throwing, the state it was given: no collection
    changes. *)
Theorem C10_no_user_no_effect (st : Studio.State) (sessionId groupId productId : string) :
  Studio.currentUser st = None ->
  Studio.bookSession st sessionId = st
  /\ Studio.joinGroup st groupId = st
  /\ Studio.purchaseProduct st productId = Returned st.
Proof.
  intros Hnone.
  unfold Studio.bookSession, Studio.joinGroup, Studio.purchaseProduct.
  rewrite Hnone. repeat split.
Qed.

Lemma C10_no_user_no_effect_witness :
  Studio.bookSession Sample.studio "_s1" = Sample.studio
  /\ Studio.joinGroup Sample.studio "_g1" = Sample.studio
  /\ Studio.purchaseProduct Sample.studio "_p1" = Returned Sample.studio.
Proof.
  apply (C10_no_user_no_effect Sample.studio "_s1" "_g1" "_p1").
  reflexivity.
Defined.

(** ** Workout completion *)

Lemma Forall2_map_graph {A B : Type} (f : A -> B) (l : list A) :
  Forall2 (fun x y => y = f x) l (List.map f l).
Proof. induction l as [|x l IH]; simpl; constructor; [reflexivity | exact IH]. Qed.

(** C9. With a current user, [completeWorkout] returns a state whose
    workout log is the old one followed by exactly one entry, which
    carries the new identifier, the current user's id, the program
    id, the results, the notes and the current timestamp; every
    stored user with the current user's id has the new entry's id
    appended to the completed workouts and every other user is
    unchanged.  With no current user it does not return: it throws
    the [TypeError] of reading [id] on [null]. *)
Theorem C9_completeWorkout
    (st : Workouts.State) (programId : string)
    (results : list Workouts.ExerciseResult.t) (notes newId now : string) :
  (forall cu, Workouts.currentUser st = Some cu ->
     exists st' entry,
       Workouts.completeWorkout st programId results notes newId now = Returned st'
       /\ Workouts.workouts st' = Workouts.workouts st ++ [entry]
       /\ length (Workouts.workouts st') = S (length (Workouts.workouts st))
       /\ entry = Workouts.Workout.mk newId (Workouts.User.id cu) programId now
                    results notes (num_of_Z 0)
       /\ Forall2
            (fun u u' =>
               u' = if String.eqb (Workouts.User.id u) (Workouts.User.id cu)
                    then Workouts.User.with_completedWorkouts u
                           (Workouts.User.completedWorkouts u ++ [newId])
                    else u)
            (Workouts.users st) (Workouts.users st')
       /\ Workouts.programs st' = Workouts.programs st
       /\ Workouts.exercises st' = Workouts.exercises st
       /\ Workouts.currentUser st' = Workouts.currentUser st)
  /\ (Workouts.currentUser st = None ->
      Workouts.completeWorkout st programId results notes newId now
      = Threw TypeError).
Proof.
  unfold Workouts.completeWorkout. split.
  - intros cu Hcu. rewrite Hcu. eexists. eexists.
    split; [reflexivity |]. simpl.
    split; [reflexivity |].
    split; [rewrite length_app; simpl; lia |].
    split; [reflexivity |].
    split; [apply Forall2_map_graph |].
    repeat split. exact Hcu.
  - intros ->. reflexivity.
Qed.

Lemma C9_completeWorkout_witness :
  (exists st' entry,
     Workouts.completeWorkout (Sample.gym (Some (Sample.gym_user "_u1" "dana" "pw1" "client")))
       "_p1" [Sample.squats] "felt good" "_w1" "2026-01-05T18:00:00.000Z"
     = Returned st'
     /\ Workouts.workouts st' = [entry]
     /\ Workouts.Workout.userId entry = "_u1"
     /\ Workouts.Workout.date entry = "2026-01-05T18:00:00.000Z"
     /\ List.map Workouts.User.completedWorkouts (Workouts.users st')
        = [[]; ["_w1"]; []])
  /\ Workouts.completeWorkout (Sample.gym None)
       "_p1" [Sample.squats] "felt good" "_w1" "2026-01-05T18:00:00.000Z"
     = Threw TypeError.
Proof.
  pose proof (C9_completeWorkout
                (Sample.gym (Some (Sample.gym_user "_u1" "dana" "pw1" "client")))
                "_p1" [Sample.squats] "felt good" "_w1" "2026-01-05T18:00:00.000Z")
    as [Hsome _].
  pose proof (C9_completeWorkout (Sample.gym None)
                "_p1" [Sample.squats] "felt good" "_w1" "2026-01-05T18:00:00.000Z")
    as [_ Hnone].
  split; [| exact (Hnone eq_refl)].
  destruct (Hsome _ eq_refl) as [st' [entry [Hret [Hlog [_ [Hentry _]]]]]].
  exists st', entry.
  split; [exact Hret |].
  split; [exact Hlog |].
  rewrite Hentry.
  split; [reflexivity |].
  split; [reflexivity |].
  injection Hret as <-. reflexivity.
Defined.

(** ** Loading and seeding *)

Lemma load_collection_eq {A : Type} `{Codec A} (key : string) (w : World) :
  load_collection key w = (stored w key, w).
Proof. reflexivity. Qed.


Section StudioLoad.

Context {SU : Codec Studio.User.t} {SP : Codec Studio.Program.t}
        {SS : Codec Studio.Session.t} {SG : Codec Studio.Group.t}
        {SR : Codec Studio.Product.t}.
Variable ids : nat -> string.


(** The users block seeds exactly when the stored users are empty. *)
Lemma studio_load_users_cases w :
  (fst (Studio.read_users w) = [] ->
   fst (Studio.load_users ids w)
   = Studio.default_users (ids (drawn w)) (ids (S (drawn w))))
  /\ (fst (Studio.read_users w) <> [] ->
      Studio.load_users ids w = (fst (Studio.read_users w), w)).
Proof.
  unfold Studio.load_users, bind.
  destruct (Studio.read_users w) as [us w'] eqn:Hread.
  assert (Hw : w' = w).
  { unfold Studio.read_users, bind, getItem, ret in Hread. congruence. }
  subst w'. simpl fst. split.
  - intros ->. reflexivity.
  - intros Hne. destruct us as [|u us]; [congruence | reflexivity].
Qed.

(** The users block writes the users key only. *)
Lemma studio_load_users_other w key :
  key <> Studio.USERS_KEY ->
  localStorage (snd (Studio.load_users ids w)) !! key = localStorage w !! key.
Proof.
  intros Hkey. unfold Studio.load_users, bind.
  destruct (Studio.read_users w) as [us w'] eqn:Hread.
  assert (Hw : w' = w).
  { unfold Studio.read_users, bind, getItem, ret in Hread. congruence. }
  subst w'. destruct us as [|u us]; simpl.
  - apply lookup_insert_ne. congruence.
  - reflexivity.
Qed.

(** The programs block seeds exactly when the stored programs are
    empty, and writes the programs key only. *)
Lemma studio_load_programs_cases w :
  (stored (A := Studio.Program.t) w Studio.PROGRAMS_KEY = [] ->
   fst (Studio.load_programs ids w) = [Studio.default_program (ids (drawn w))])
  /\ (stored (A := Studio.Program.t) w Studio.PROGRAMS_KEY <> [] ->
      Studio.load_programs ids w = (stored (A := Studio.Program.t) w Studio.PROGRAMS_KEY, w)).
Proof.
  unfold Studio.load_programs, bind. rewrite load_collection_eq. split.
  - intros ->. reflexivity.
  - intros Hne. destruct (stored (A := Studio.Program.t) w Studio.PROGRAMS_KEY) as [|p ps];
      [congruence | reflexivity].
Qed.

Lemma studio_load_programs_other w key :
  key <> Studio.PROGRAMS_KEY ->
  localStorage (snd (Studio.load_programs ids w)) !! key = localStorage w !! key.
Proof.
  intros Hkey. unfold Studio.load_programs, bind. rewrite load_collection_eq.
  destruct (stored w _) as [|p ps]; simpl.
  - apply lookup_insert_ne. congruence.
  - reflexivity.
Qed.

(** [loadData], block by block. *)
Lemma studio_loadData_eq w :
  let w1 := snd (Studio.load_users ids w) in
  let w2 := snd (Studio.load_programs ids w1) in
  Studio.loadData ids w
  = (Studio.Data.mk (fst (Studio.load_users ids w))
                    (fst (Studio.load_programs ids w1))
                    (stored w2 Studio.SESSIONS_KEY)
                    (stored w2 Studio.GROUPS_KEY)
                    (stored w2 Studio.PRODUCTS_KEY),
     w2).
Proof.
  intros w1 w2. subst w2 w1. unfold Studio.loadData, bind.
  destruct (Studio.load_users ids w) as [us w1]. cbn [fst snd].
  destruct (Studio.load_programs ids w1) as [ps w2]. cbn [fst snd].
  rewrite !load_collection_eq. reflexivity.
Qed.

(** The blobs of the collections without defaults are those of the
    initial store when [loadData] reads them. *)
Lemma studio_plain_key_kept w key :
  key <> Studio.USERS_KEY -> key <> Studio.PROGRAMS_KEY ->
  localStorage (snd (Studio.load_programs ids (snd (Studio.load_users ids w)))) !! key
  = localStorage w !! key.
Proof.
  intros Hu Hp.
  rewrite studio_load_programs_other, studio_load_users_other by assumption.
  reflexivity.
Qed.

End StudioLoad.

Section WorkoutsLoad.

Context {WU : Codec Workouts.User.t} {WP : Codec Workouts.Program.t}
        {WW : Codec Workouts.Workout.t} {WE : Codec Workouts.Exercise.t}.
Variable ids : nat -> string.

Lemma workouts_read_users_eq w :
  Workouts.read_users w = (fst (Workouts.read_users w), w).
Proof. reflexivity. Qed.


Lemma workouts_load_users_cases w :
  (fst (Workouts.read_users w) = [] ->
   fst (Workouts.load_users ids w)
   = Workouts.default_users (ids (drawn w)) (ids (S (drawn w))))
  /\ (fst (Workouts.read_users w) <> [] ->
      Workouts.load_users ids w = (fst (Workouts.read_users w), w)).
Proof.
  unfold Workouts.load_users, bind.
  destruct (Workouts.read_users w) as [us w'] eqn:Hread.
  rewrite workouts_read_users_eq in Hread. injection Hread as _ <-.
  simpl fst. split.
  - intros ->. reflexivity.
  - intros Hne. destruct us as [|u us]; [congruence | reflexivity].
Qed.

Lemma workouts_load_users_other w key :
  key <> Workouts.USERS_KEY ->
  localStorage (snd (Workouts.load_users ids w)) !! key = localStorage w !! key.
Proof.
  intros Hkey. unfold Workouts.load_users, bind.
  destruct (Workouts.read_users w) as [us w'] eqn:Hread.
  rewrite workouts_read_users_eq in Hread. injection Hread as _ <-.
  destruct us as [|u us]; simpl.
  - apply lookup_insert_ne. congruence.
  - reflexivity.
Qed.

Lemma workouts_load_programs_cases w :
  (stored (A := Workouts.Program.t) w Workouts.PROGRAMS_KEY = [] ->
   fst (Workouts.load_programs ids w)
   = [Workouts.default_program (ids (drawn w)) (ids (S (drawn w)))
        (ids (S (S (drawn w))))])
  /\ (stored (A := Workouts.Program.t) w Workouts.PROGRAMS_KEY <> [] ->
      Workouts.load_programs ids w = (stored (A := Workouts.Program.t) w Workouts.PROGRAMS_KEY, w)).
Proof.
  unfold Workouts.load_programs, bind. rewrite load_collection_eq. split.
  - intros ->. reflexivity.
  - intros Hne. destruct (stored (A := Workouts.Program.t) w Workouts.PROGRAMS_KEY) as [|p ps];
      [congruence | reflexivity].
Qed.

Lemma workouts_load_programs_other w key :
  key <> Workouts.PROGRAMS_KEY ->
  localStorage (snd (Workouts.load_programs ids w)) !! key = localStorage w !! key.
Proof.
  intros Hkey. unfold Workouts.load_programs, bind. rewrite load_collection_eq.
  destruct (stored w _) as [|p ps]; simpl.
  - apply lookup_insert_ne. congruence.
  - reflexivity.
Qed.

(** The exercise library block seeds exactly when the stored library
    is empty; the six identifiers are the next six of the sequence. *)
Lemma workouts_load_exercises_cases w :
  let d := drawn w in
  (stored (A := Workouts.Exercise.t) w Workouts.EXERCISES_KEY = [] ->
   fst (Workouts.load_exercises ids w)
   = Workouts.default_exercises (ids d) (ids (1 + d)%nat) (ids (2 + d)%nat)
       (ids (3 + d)%nat) (ids (4 + d)%nat) (ids (5 + d)%nat))
  /\ (stored (A := Workouts.Exercise.t) w Workouts.EXERCISES_KEY <> [] ->
      Workouts.load_exercises ids w = (stored (A := Workouts.Exercise.t) w Workouts.EXERCISES_KEY, w)).
Proof.
  intros d. unfold Workouts.load_exercises, bind. rewrite load_collection_eq. split.
  - intros ->. reflexivity.
  - intros Hne. destruct (stored (A := Workouts.Exercise.t) w Workouts.EXERCISES_KEY) as [|e es];
      [congruence | reflexivity].
Qed.

(** [loadData], block by block. *)
Lemma workouts_loadData_eq w :
  let w1 := snd (Workouts.load_users ids w) in
  let w2 := snd (Workouts.load_programs ids w1) in
  Workouts.loadData ids w
  = (Workouts.Data.mk
       (fst (Workouts.load_users ids w))
       (fst (Workouts.load_programs ids w1))
       (stored w2 Workouts.WORKOUTS_KEY)
       (fst (Workouts.load_exercises ids w2)),
     snd (Workouts.load_exercises ids w2)).
Proof.
  intros w1 w2. subst w2 w1. unfold Workouts.loadData, bind.
  destruct (Workouts.load_users ids w) as [us w1]. cbn [fst snd].
  destruct (Workouts.load_programs ids w1) as [ps w2]. cbn [fst snd].
  rewrite load_collection_eq.
  destruct (Workouts.load_exercises ids w2) as [es w3]. reflexivity.
Qed.

Lemma workouts_plain_key_kept w key :
  key <> Workouts.USERS_KEY -> key <> Workouts.PROGRAMS_KEY ->
  localStorage (snd (Workouts.load_programs ids (snd (Workouts.load_users ids w)))) !! key
  = localStorage w !! key.
Proof.
  intros Hu Hp.
  rewrite workouts_load_programs_other, workouts_load_users_other by assumption.
  reflexivity.
Qed.

End WorkoutsLoad.


Lemma stored_same_text {A : Type} `{Codec A} (w w' : World) (key : string) :
  localStorage w' !! key = localStorage w !! key ->
  stored (A := A) w' key = stored w key.
Proof. unfold stored. intros ->. reflexivity. Qed.

(** ** Loading on a storage that can refuse a write *)

Lemma run_eq {A : Type} (m : IO A) (w : World) :
  run m w = (Returned (fst (m w)), snd (m w)).
Proof. unfold run. destruct (m w). reflexivity. Qed.

Section StudioBounded.

Context {SU : Codec Studio.User.t} {SP : Codec Studio.Program.t}
        {SS : Codec Studio.Session.t} {SG : Codec Studio.Group.t}
        {SR : Codec Studio.Product.t}.
Variable room : Room.
Variable ids : nat -> string.

(** The users block throws exactly when it seeds and the write of the
    seeds is refused; otherwise it is the block of the storage with
    room. *)
Lemma studio_bounded_load_users w :
  Studio.Bounded.load_users room ids w
  = if (length (fst (Studio.read_users w)) =? 0)%nat
       && negb (room (localStorage w) Studio.USERS_KEY
                  (JSON_stringify
                     (Studio.default_users (ids (drawn w)) (ids (S (drawn w))))))
    then (Threw QuotaExceededError, mkWorld (localStorage w) (S (S (drawn w))))
    else run (Studio.load_users ids) w.
Proof.
  unfold Studio.Bounded.load_users, Studio.load_users, and_then, bind.
  rewrite !run_eq.
  assert (Hw : snd (Studio.read_users w) = w) by reflexivity.
  destruct (Studio.read_users w) as [us w0]. simpl in Hw. subst w0. cbn [fst snd].
  destruct us as [|u us]; [| reflexivity].
  cbn. unfold setItem_bounded. cbn.
  destruct (room _ _ _); reflexivity.
Qed.

Lemma studio_bounded_load_programs w :
  Studio.Bounded.load_programs room ids w
  = if (length (stored (A := Studio.Program.t) w Studio.PROGRAMS_KEY) =? 0)%nat
       && negb (room (localStorage w) Studio.PROGRAMS_KEY
                  (JSON_stringify [Studio.default_program (ids (drawn w))]))
    then (Threw QuotaExceededError, mkWorld (localStorage w) (S (drawn w)))
    else run (Studio.load_programs ids) w.
Proof.
  unfold Studio.Bounded.load_programs, Studio.load_programs, and_then, bind.
  rewrite !run_eq, !load_collection_eq. cbn [fst snd].
  destruct (stored (A := Studio.Program.t) w Studio.PROGRAMS_KEY) as [|p ps];
    [| reflexivity].
  cbn. unfold setItem_bounded. cbn.
  destruct (room _ _ _); reflexivity.
Qed.

(** A block that returns has done what the block of the storage with
    room does; a block that throws throws [QuotaExceededError]. *)
Lemma studio_bounded_users_outcome w :
  (exists w', Studio.Bounded.load_users room ids w = (Threw QuotaExceededError, w'))
  \/ Studio.Bounded.load_users room ids w = run (Studio.load_users ids) w.
Proof.
  rewrite studio_bounded_load_users.
  destruct (_ && _); [left; eexists; reflexivity | right; reflexivity].
Qed.

Lemma studio_bounded_programs_outcome w :
  (exists w', Studio.Bounded.load_programs room ids w = (Threw QuotaExceededError, w'))
  \/ Studio.Bounded.load_programs room ids w = run (Studio.load_programs ids) w.
Proof.
  rewrite studio_bounded_load_programs.
  destruct (_ && _); [left; eexists; reflexivity | right; reflexivity].
Qed.

(** [loadData] on the bounded storage either throws
    [QuotaExceededError] or returns what [loadData] returns on the
    storage with room. *)
Lemma studio_bounded_loadData_outcome w :
  (exists w', Studio.Bounded.loadData room ids w = (Threw QuotaExceededError, w'))
  \/ Studio.Bounded.loadData room ids w = run (Studio.loadData ids) w.
Proof.
  unfold Studio.Bounded.loadData, Studio.loadData, and_then, bind.
  destruct (studio_bounded_users_outcome w) as [[w' ->] | ->];
    [left; eexists; reflexivity |].
  rewrite !run_eq. cbn [fst snd].
  destruct (Studio.load_users ids w) as [us w1]. cbn [fst snd].
  destruct (studio_bounded_programs_outcome w1) as [[w' ->] | ->];
    [left; eexists; reflexivity |].
  rewrite !run_eq. cbn [fst snd].
  destruct (Studio.load_programs ids w1) as [ps w2]. cbn [fst snd].
  rewrite !load_collection_eq. right. reflexivity.
Qed.





End StudioBounded.

Section WorkoutsBounded.

Context {WU : Codec Workouts.User.t} {WP : Codec Workouts.Program.t}
        {WW : Codec Workouts.Workout.t} {WE : Codec Workouts.Exercise.t}.
Variable room : Room.
Variable ids : nat -> string.

Lemma workouts_bounded_load_users w :
  Workouts.Bounded.load_users room ids w
  = if (length (fst (Workouts.read_users w)) =? 0)%nat
       && negb (room (localStorage w) Workouts.USERS_KEY
                  (JSON_stringify
                     (Workouts.default_users (ids (drawn w)) (ids (S (drawn w))))))
    then (Threw QuotaExceededError, mkWorld (localStorage w) (S (S (drawn w))))
    else run (Workouts.load_users ids) w.
Proof.
  unfold Workouts.Bounded.load_users, Workouts.load_users, and_then, bind.
  rewrite !run_eq.
  assert (Hw : snd (Workouts.read_users w) = w) by reflexivity.
  destruct (Workouts.read_users w) as [us w0]. simpl in Hw. subst w0. cbn [fst snd].
  destruct us as [|u us]; [| reflexivity].
  cbn. unfold setItem_bounded. cbn.
  destruct (room _ _ _); reflexivity.
Qed.

Lemma workouts_bounded_load_programs w :
  Workouts.Bounded.load_programs room ids w
  = if (length (stored (A := Workouts.Program.t) w Workouts.PROGRAMS_KEY) =? 0)%nat
       && negb (room (localStorage w) Workouts.PROGRAMS_KEY
                  (JSON_stringify
                     [Workouts.default_program (ids (drawn w)) (ids (S (drawn w)))
                        (ids (S (S (drawn w))))]))
    then (Threw QuotaExceededError, mkWorld (localStorage w) (S (S (S (drawn w)))))
    else run (Workouts.load_programs ids) w.
Proof.
  unfold Workouts.Bounded.load_programs, Workouts.load_programs, and_then, bind.
  rewrite !run_eq, !load_collection_eq. cbn [fst snd].
  destruct (stored (A := Workouts.Program.t) w Workouts.PROGRAMS_KEY) as [|p ps];
    [| reflexivity].
  cbn. unfold setItem_bounded. cbn.
  destruct (room _ _ _); reflexivity.
Qed.

Lemma workouts_bounded_load_exercises w :
  let d := drawn w in
  Workouts.Bounded.load_exercises room ids w
  = if (length (stored (A := Workouts.Exercise.t) w Workouts.EXERCISES_KEY) =? 0)%nat
       && negb (room (localStorage w) Workouts.EXERCISES_KEY
                  (JSON_stringify
                     (Workouts.default_exercises (ids d) (ids (1 + d)%nat)
                        (ids (2 + d)%nat) (ids (3 + d)%nat) (ids (4 + d)%nat)
                        (ids (5 + d)%nat))))
    then (Threw QuotaExceededError, mkWorld (localStorage w) (6 + d)%nat)
    else run (Workouts.load_exercises ids) w.
Proof.
  intros d. subst d.
  unfold Workouts.Bounded.load_exercises, Workouts.load_exercises, and_then, bind.
  rewrite !run_eq, !load_collection_eq. cbn [fst snd].
  destruct (stored (A := Workouts.Exercise.t) w Workouts.EXERCISES_KEY) as [|e es];
    [| reflexivity].
  cbn. unfold setItem_bounded. cbn.
  destruct (room _ _ _); reflexivity.
Qed.

Lemma workouts_bounded_users_outcome w :
  (exists w', Workouts.Bounded.load_users room ids w = (Threw QuotaExceededError, w'))
  \/ Workouts.Bounded.load_users room ids w = run (Workouts.load_users ids) w.
Proof.
  rewrite workouts_bounded_load_users.
  destruct (_ && _); [left; eexists; reflexivity | right; reflexivity].
Qed.

Lemma workouts_bounded_programs_outcome w :
  (exists w', Workouts.Bounded.load_programs room ids w = (Threw QuotaExceededError, w'))
  \/ Workouts.Bounded.load_programs room ids w = run (Workouts.load_programs ids) w.
Proof.
  rewrite workouts_bounded_load_programs.
  destruct (_ && _); [left; eexists; reflexivity | right; reflexivity].
Qed.

Lemma workouts_bounded_exercises_outcome w :
  (exists w', Workouts.Bounded.load_exercises room ids w = (Threw QuotaExceededError, w'))
  \/ Workouts.Bounded.load_exercises room ids w = run (Workouts.load_exercises ids) w.
Proof.
  rewrite workouts_bounded_load_exercises. cbv zeta.
  destruct (_ && _); [left; eexists; reflexivity | right; reflexivity].
Qed.

Lemma workouts_bounded_loadData_outcome w :
  (exists w', Workouts.Bounded.loadData room ids w = (Threw QuotaExceededError, w'))
  \/ Workouts.Bounded.loadData room ids w = run (Workouts.loadData ids) w.
Proof.
  unfold Workouts.Bounded.loadData, Workouts.loadData, and_then, bind.
  destruct (workouts_bounded_users_outcome w) as [[w' ->] | ->];
    [left; eexists; reflexivity |].
  rewrite !run_eq. cbn [fst snd].
  destruct (Workouts.load_users ids w) as [us w1]. cbn [fst snd].
  destruct (workouts_bounded_programs_outcome w1) as [[w' ->] | ->];
    [left; eexists; reflexivity |].
  rewrite !run_eq. cbn [fst snd].
  destruct (Workouts.load_programs ids w1) as [ps w2]. cbn [fst snd].
  rewrite !load_collection_eq. cbn [fst snd].
  destruct (workouts_bounded_exercises_outcome w2) as [[w' ->] | ->];
    [left; eexists; reflexivity |].
  rewrite !run_eq. cbn [fst snd].
  destruct (Workouts.load_exercises ids w2) as [es w3]. right. reflexivity.
Qed.






End WorkoutsBounded.


(** What [loadData] returned on the bounded storage is what it
    returns on the storage with room. *)
Lemma studio_bounded_returned
    {SU : Codec Studio.User.t} {SP : Codec Studio.Program.t}
    {SS : Codec Studio.Session.t} {SG : Codec Studio.Group.t}
    {SR : Codec Studio.Product.t}
    (room : Room) (ids : nat -> string) (w : World) (d : Studio.Data.t) :
  fst (Studio.Bounded.loadData room ids w) = Returned d ->
  d = fst (Studio.loadData ids w).
Proof.
  destruct (studio_bounded_loadData_outcome room ids w) as [[w' ->] | ->].
  - discriminate.
  - rewrite run_eq. cbn [fst]. congruence.
Qed.

Lemma workouts_bounded_returned
    {WU : Codec Workouts.User.t} {WP : Codec Workouts.Program.t}
    {WW : Codec Workouts.Workout.t} {WE : Codec Workouts.Exercise.t}
    (room : Room) (ids : nat -> string) (w : World) (g : Workouts.Data.t) :
  fst (Workouts.Bounded.loadData room ids w) = Returned g ->
  g = fst (Workouts.loadData ids w).
Proof.
  destruct (workouts_bounded_loadData_outcome room ids w) as [[w' ->] | ->].
  - discriminate.
  - rewrite run_eq. cbn [fst]. congruence.
Qed.




(** ** Seeding *)

(** C6, as the code has it.  Each collection that has defaults is
    seeded exactly when what was read from the store for it is empty,
    and is returned as read otherwise: the users and the programs of
    both variants and the exercise library.  The seeded users are one
    trainer and one client with fixed credentials.  The seeded
    exercise library has six fixed entries, which span five muscle
    groups: the first and the last entry share one. *)
Theorem C6_seeding
    {SU : Codec Studio.User.t} {SP : Codec Studio.Program.t}
    {SS : Codec Studio.Session.t} {SG : Codec Studio.Group.t}
    {SR : Codec Studio.Product.t}
    {WU : Codec Workouts.User.t} {WP : Codec Workouts.Program.t}
    {WW : Codec Workouts.Workout.t} {WE : Codec Workouts.Exercise.t}
    (ids : nat -> string) (w : World) :
  let studio := fst (Studio.loadData ids w) in
  let gym := fst (Workouts.loadData ids w) in
  ((fst (Studio.read_users w) = [] ->
    Studio.Data.users studio
    = Studio.default_users (ids (drawn w)) (ids (S (drawn w))))
   /\ (fst (Studio.read_users w) <> [] ->
       Studio.Data.users studio = fst (Studio.read_users w)))
  /\ ((fst (Workouts.read_users w) = [] ->
       Workouts.Data.users gym
       = Workouts.default_users (ids (drawn w)) (ids (S (drawn w))))
      /\ (fst (Workouts.read_users w) <> [] ->
          Workouts.Data.users gym = fst (Workouts.read_users w)))
  /\ ((stored (A := Studio.Program.t) w Studio.PROGRAMS_KEY = [] ->
       exists pid, Studio.Data.programs studio = [Studio.default_program pid])
      /\ (stored (A := Studio.Program.t) w Studio.PROGRAMS_KEY <> [] ->
          Studio.Data.programs studio = stored w Studio.PROGRAMS_KEY))
  /\ ((stored (A := Workouts.Program.t) w Workouts.PROGRAMS_KEY = [] ->
       exists pid e1 e2,
         Workouts.Data.programs gym = [Workouts.default_program pid e1 e2])
      /\ (stored (A := Workouts.Program.t) w Workouts.PROGRAMS_KEY <> [] ->
          Workouts.Data.programs gym = stored w Workouts.PROGRAMS_KEY))
  /\ ((stored (A := Workouts.Exercise.t) w Workouts.EXERCISES_KEY = [] ->
       exists i1 i2 i3 i4 i5 i6,
         Workouts.Data.exercises gym
         = Workouts.default_exercises i1 i2 i3 i4 i5 i6)
      /\ (stored (A := Workouts.Exercise.t) w Workouts.EXERCISES_KEY <> [] ->
          Workouts.Data.exercises gym = stored w Workouts.EXERCISES_KEY))
  /\ (forall id1 id2,
        List.map (fun u => (Studio.User.username u, Studio.User.password u,
                            Studio.User.role u))
                 (Studio.default_users id1 id2)
        = [("admin", "admin", "trainer"); ("demo", "demo", "client")])
  /\ (forall i1 i2 i3 i4 i5 i6,
        let library := Workouts.default_exercises i1 i2 i3 i4 i5 i6 in
        length library = 6%nat
        /\ List.map Workouts.Exercise.name library
           = ["סקוואט"; "לחיצת חזה"; "משיכת גב"; "לחיצת כתפיים"; "סיבובי בטן"; "דדליפט"]
        /\ List.map Workouts.Exercise.muscleGroup library
           = ["רגליים"; "חזה"; "גב"; "כתפיים"; "בטן"; "רגליים"]
        /\ length (nodup string_dec (List.map Workouts.Exercise.muscleGroup library))
           = 5%nat).
Proof.
  intros studio gym. subst studio gym.
  rewrite studio_loadData_eq, workouts_loadData_eq. cbv zeta. cbn [fst].
  cbn [Studio.Data.users Studio.Data.programs Workouts.Data.users
       Workouts.Data.programs Workouts.Data.exercises].
  split; [| split; [| split; [| split; [| split; [| split]]]]].
  - split.
    + apply studio_load_users_cases.
    + intros Hne. rewrite (proj2 (studio_load_users_cases ids w) Hne). reflexivity.
  - split.
    + apply workouts_load_users_cases.
    + intros Hne. rewrite (proj2 (workouts_load_users_cases ids w) Hne). reflexivity.
  - rewrite <- (stored_same_text w (snd (Studio.load_users ids w)))
      by (apply studio_load_users_other; discriminate).
    split.
    + intros Hnil. eexists. apply studio_load_programs_cases, Hnil.
    + intros Hne. rewrite (proj2 (studio_load_programs_cases ids _) Hne). reflexivity.
  - rewrite <- (stored_same_text w (snd (Workouts.load_users ids w)))
      by (apply workouts_load_users_other; discriminate).
    split.
    + intros Hnil. do 3 eexists. apply workouts_load_programs_cases, Hnil.
    + intros Hne. rewrite (proj2 (workouts_load_programs_cases ids _) Hne). reflexivity.
  - rewrite <- (stored_same_text w
                  (snd (Workouts.load_programs ids (snd (Workouts.load_users ids w)))))
      by (apply workouts_plain_key_kept; discriminate).
    split.
    + intros Hnil. do 6 eexists. apply workouts_load_exercises_cases, Hnil.
    + intros Hne. rewrite (proj2 (workouts_load_exercises_cases ids _) Hne). reflexivity.
  - intros id1 id2. reflexivity.
  - intros i1 i2 i3 i4 i5 i6. repeat split.
Qed.

Lemma C6_seeding_witness :
  let studio := fst (Studio.loadData sample_ids empty_world) in
  let gym := fst (Workouts.loadData sample_ids empty_world) in
  let studio' :=
    fst (Studio.loadData (SU := Sample.studio_users_codec)
           (SP := Sample.studio_programs_codec) sample_ids Sample.kept_world) in
  let gym' :=
    fst (Workouts.loadData (WU := Sample.gym_users_codec)
           (WP := Sample.gym_programs_codec) (WE := Sample.exercises_codec)
           sample_ids Sample.kept_world) in
  (Studio.Data.users studio = Studio.default_users "_id0" "_id1"
   /\ Workouts.Data.users gym = Workouts.default_users "_id0" "_id1"
   /\ (exists pid, Studio.Data.programs studio = [Studio.default_program pid])
   /\ (exists pid e1 e2,
         Workouts.Data.programs gym = [Workouts.default_program pid e1 e2])
   /\ (exists i1 i2 i3 i4 i5 i6,
         Workouts.Data.exercises gym
         = Workouts.default_exercises i1 i2 i3 i4 i5 i6))
  /\ (Studio.Data.users studio' = [Sample.dana]
      /\ Workouts.Data.users gym' = [Sample.gym_user "_u1" "dana" "pw1" "client"]
      /\ Studio.Data.programs studio' = [Sample.studio_program]
      /\ Workouts.Data.programs gym' = [Sample.gym_program]
      /\ Workouts.Data.exercises gym' = [Sample.one_exercise]).
Proof.
  pose proof (C6_seeding sample_ids empty_world)
    as [[Hsu _] [[Hwu _] [[Hsp _] [[Hwp _] [[Hwe _] _]]]]].
  pose proof (C6_seeding (SU := Sample.studio_users_codec)
                (SP := Sample.studio_programs_codec)
                (WU := Sample.gym_users_codec)
                (WP := Sample.gym_programs_codec)
                (WE := Sample.exercises_codec) sample_ids Sample.kept_world)
    as [[_ Hsu'] [[_ Hwu'] [[_ Hsp'] [[_ Hwp'] [[_ Hwe'] _]]]]].
  cbv zeta.
  split; repeat match goal with |- _ /\ _ => split end.
  - apply Hsu. reflexivity.
  - apply Hwu. reflexivity.
  - apply Hsp. reflexivity.
  - apply Hwp. reflexivity.
  - apply Hwe. reflexivity.
  - apply Hsu'. discriminate.
  - apply Hwu'. discriminate.
  - apply Hsp'. discriminate.
  - apply Hwp'. discriminate.
  - apply Hwe'. discriminate.
Defined.

(** C6 as stated fails on the muscle groups: in the library seeded on
    an empty store the squat and the deadlift, the first and the last
    of the six entries, have the same muscle group, so the muscle
    groups of the six entries are not distinct. *)
Lemma C6_library_repeats_a_muscle_group :
  let library :=
    Workouts.Data.exercises (fst (Workouts.loadData sample_ids empty_world)) in
  length library = 6%nat
  /\ List.map Workouts.Exercise.muscleGroup library
     = ["רגליים"; "חזה"; "גב"; "כתפיים"; "בטן"; "רגליים"]
  /\ (exists first last,
        library !! 0%nat = Some first /\ library !! 5%nat = Some last
        /\ Workouts.Exercise.name first = "סקוואט"
        /\ Workouts.Exercise.name last = "דדליפט"
        /\ Workouts.Exercise.muscleGroup first = Workouts.Exercise.muscleGroup last)
  /\ (NoDup (List.map Workouts.Exercise.muscleGroup library) -> False).
Proof.
  split; [reflexivity |]. split; [reflexivity |]. split.
  - eexists. eexists. repeat split.
  - intros Hnd. apply NoDup_cons in Hnd as [Hnotin _].
    apply Hnotin. do 4 right. left.
Qed.

(** * Further properties of the handlers *)

(** ** The text of a digest *)

Lemma list_ascii_of_string_app (a b : string) :
  list_ascii_of_string (a ++ b) = list_ascii_of_string a ++ list_ascii_of_string b.
Proof. induction a as [|c a IH]; simpl; [reflexivity | f_equal; exact IH]. Qed.

Lemma forallb_concat_chars (P : ascii -> bool) (l : list string) :
  (forall s, In s l -> forallb P (list_ascii_of_string s) = true) ->
  forallb P (list_ascii_of_string (String.concat "" l)) = true.
Proof.
  induction l as [|s l IH]; intros Hall.
  - reflexivity.
  - assert (Hs : forallb P (list_ascii_of_string s) = true)
      by (apply Hall; left; reflexivity).
    assert (Hl : forallb P (list_ascii_of_string (String.concat "" l)) = true)
      by (apply IH; intros s' Hs'; apply Hall; right; exact Hs').
    destruct l as [|s' l'].
    + exact Hs.
    + change (String.concat "" (s :: s' :: l'))
        with (s ++ "" ++ String.concat "" (s' :: l'))%string.
      rewrite !list_ascii_of_string_app, !forallb_app, Hs, Hl. reflexivity.
Qed.

Lemma hex_pair_chars_table :
  forallb (fun n => forallb is_lower_hex
                      (list_ascii_of_string (padStart0 2 (toString16 (Z.of_nat n)))))
          (seq 0 256) = true.
Proof. vm_compute. reflexivity. Qed.

Lemma hex_pair_chars b :
  0 <= b < 256 ->
  forallb is_lower_hex (list_ascii_of_string (padStart0 2 (toString16 b))) = true.
Proof.
  intros Hb.
  pose proof (proj1 (forallb_forall _ _) hex_pair_chars_table (Z.to_nat b)) as Ht.
  cbv beta in Ht. rewrite Z2Nat.id in Ht by lia.
  apply Ht, in_seq. lia.
Qed.

(** X1. Whatever the password, [hashPassword] returns a text of 64
    characters, each one of [0-9a-f]. *)
Theorem hashPassword_is_hex64 (password : string) :
  js_length (hashPassword password) = 64%nat
  /\ forallb is_lower_hex (list_ascii_of_string (hashPassword password)) = true.
Proof.
  split; [apply hashPassword_length |].
  unfold hashPassword. apply forallb_concat_chars.
  intros s. rewrite in_map_iff. intros [b [<- Hb]].
  apply hex_pair_chars. eapply digest_range, Hb.
Qed.

(** ** Registration followed by login *)

(** X2. A registration with a non-empty username that no stored user
    has, and a non-empty password, appends one user whose credential
    is the digest of the password; afterwards a login with that
    password makes the new user the current user, and a login with a
    password of another digest is refused as a wrong password. *)
Theorem register_login_roundtrip
    (st : Studio.State) (username password role newId other : string) :
  username <> "" -> password <> "" ->
  (forall u, In u (Studio.users st) -> Studio.User.username u <> username) ->
  hashPassword other <> hashPassword password ->
  let registered := snd (Studio.handleRegister st username password role newId) in
  let newUser :=
    Studio.User.mk newId username (hashPassword password) role "" "" ""
                   no_goals (num_of_Z 2) None [] [] [] [] in
  fst (Studio.handleRegister st username password role newId) !! "success"
  = Some (VBool true)
  /\ Studio.users registered = Studio.users st ++ [newUser]
  /\ Studio.handleLogin registered username password
     = ({[ "success" := VBool true ]},
        Studio.setActivePage "dashboard"
          (Studio.setCurrentUser (Some newUser) registered))
  /\ Studio.handleLogin registered username other
     = ({[ "success" := VBool false;
           "message" := VStr Studio.MSG_WRONG_PASSWORD ]}, registered).
Proof.
  intros Hu Hp Hfree Hother registered newUser.
  pose proof (find_by_username_none _ _ Hfree) as Hnone.
  destruct (register_then_login st username password role newId Hu Hp Hnone)
    as [Hreg [Hlen Hlogin]].
  cbv zeta in Hreg, Hlen, Hlogin.
  subst registered newUser. rewrite Hreg. cbn [fst snd].
  split; [reflexivity |]. split; [reflexivity |]. split; [exact Hlogin |].
  unfold Studio.handleLogin. simpl Studio.users.
  erewrite find_by_username_last; [| exact Hnone | reflexivity].
  unfold Studio.inputPass. simpl Studio.User.password.
  rewrite hashPassword_length, Nat.eqb_refl.
  apply String.eqb_neq in Hother. rewrite Hother. reflexivity.
Qed.

Lemma register_login_roundtrip_witness :
  let registered :=
    snd (Studio.handleRegister Sample.seeded "alice" "pw123" "client" "_n1") in
  let alice :=
    Studio.User.mk "_n1" "alice" (hashPassword "pw123") "client" "" "" ""
                   no_goals (num_of_Z 2) None [] [] [] [] in
  fst (Studio.handleRegister Sample.seeded "alice" "pw123" "client" "_n1") !! "success"
  = Some (VBool true)
  /\ Studio.users registered = Studio.users Sample.seeded ++ [alice]
  /\ Studio.handleLogin registered "alice" "pw123"
     = ({[ "success" := VBool true ]},
        Studio.setActivePage "dashboard"
          (Studio.setCurrentUser (Some alice) registered))
  /\ Studio.handleLogin registered "alice" "abc"
     = ({[ "success" := VBool false;
           "message" := VStr Studio.MSG_WRONG_PASSWORD ]}, registered).
Proof.
  apply (register_login_roundtrip Sample.seeded "alice" "pw123" "client" "_n1" "abc").
  - discriminate.
  - discriminate.
  - intros u [<- | [<- | []]]; discriminate.
  - rewrite sha_abc, hash_pw123. discriminate.
Defined.

(** ** Purchases, metrics, assignments *)

Lemma find_map_same_test {A : Type} (p : A -> bool) (f : A -> A) (l : list A) :
  (forall x, p (f x) = p x) ->
  List.find p (List.map f l) = option_map f (List.find p l).
Proof.
  intros Hp. induction l as [|x l IH]; simpl.
  - reflexivity.
  - rewrite Hp. destruct (p x); [reflexivity | exact IH].
Qed.

Lemma includes_last (x : string) (l : list string) : includes x (l ++ [x]) = true.
Proof.
  unfold includes. rewrite existsb_app. simpl.
  rewrite String.eqb_refl. apply orb_true_iff. right. reflexivity.
Qed.

Lemma setUsers_same (st : Studio.State) : Studio.setUsers (Studio.users st) st = st.
Proof. destruct st. reflexivity. Qed.

(** X3. A purchase that returns can be repeated at once, from the
    state it returned, and changes nothing: the second call returns
    the same state, whether or not the first one added the product. *)
Theorem purchaseProduct_idempotent (st st1 : Studio.State) (productId : string) :
  Studio.purchaseProduct st productId = Returned st1 ->
  Studio.purchaseProduct st1 productId = Returned st1.
Proof.
  unfold Studio.purchaseProduct.
  destruct (Studio.currentUser st) as [cu|] eqn:Hcu.
  - destruct (Studio.find_by_id (Studio.User.id cu) (Studio.users st))
      as [user|] eqn:Hfind; [| discriminate].
    destruct (includes productId (Studio.User.purchasedProducts user)) eqn:Hinc.
    + intros [= <-]. rewrite Hcu, Hfind, Hinc. reflexivity.
    + intros [= <-]. simpl Studio.currentUser. rewrite Hcu.
      simpl Studio.users. unfold Studio.find_by_id in *.
      rewrite find_map_same_test.
      * rewrite Hfind. simpl option_map.
        apply find_some in Hfind as [_ Hid]. rewrite Hid.
        simpl Studio.User.purchasedProducts. rewrite includes_last. reflexivity.
      * intros u.
        destruct (String.eqb (Studio.User.id u) (Studio.User.id cu)) eqn:Hu;
          simpl; rewrite ?Hu; reflexivity.
  - intros [= <-]. rewrite Hcu. reflexivity.
Qed.

Lemma purchaseProduct_idempotent_witness :
  Studio.purchaseProduct Sample.purchased_once "_p1" = Returned Sample.purchased_once.
Proof.
  apply (purchaseProduct_idempotent
           (Sample.login_as Sample.studio "dana" "pw1") Sample.purchased_once "_p1").
  reflexivity.
Defined.

(** X4. Two metric entries added in turn for a user id are, in that
    order, the last two entries of the history of every stored user
    with that id, behind the entries that were there; the dashboard's
    last metric of such a user is the second entry.  The other users
    are unchanged, and so is everything when no user has the id. *)
Theorem addMetric_twice (st : Studio.State) (userId : string) (e1 e2 : Metric) :
  let st2 := Studio.addMetric (Studio.addMetric st userId e1) userId e2 in
  Forall2
    (fun u u' =>
       if String.eqb (Studio.User.id u) userId
       then u' = Studio.user_with_metrics u (Studio.User.metrics u ++ [e1; e2])
            /\ Studio.lastMetric u' = Some e2
       else u' = u)
    (Studio.users st) (Studio.users st2)
  /\ ((forall u, In u (Studio.users st) -> Studio.User.id u <> userId) -> st2 = st)
  /\ Studio.currentUser st2 = Studio.currentUser st.
Proof.
  intros st2. subst st2. unfold Studio.addMetric. simpl.
  split; [| split; [| reflexivity]].
  - rewrite List.map_map.
    induction (Studio.users st) as [|u us IH]; simpl; constructor; [| exact IH].
    destruct (String.eqb (Studio.User.id u) userId) eqn:Hid.
    + simpl. rewrite Hid. split.
      * unfold Studio.user_with_metrics. simpl. rewrite <- app_assoc. reflexivity.
      * unfold Studio.lastMetric. simpl Studio.User.metrics.
        rewrite !length_app. simpl length.
        replace (length (Studio.User.metrics u) + 1 + 1 =? 0)%nat with false
          by (symmetry; apply Nat.eqb_neq; lia).
        rewrite nth_error_app2 by (rewrite length_app; simpl; lia).
        rewrite length_app. simpl length.
        replace (length (Studio.User.metrics u) + 1 + 1 - 1
                 - (length (Studio.User.metrics u) + 1))%nat with 0%nat by lia.
        reflexivity.
    + rewrite Hid. reflexivity.
  - intros Hno. rewrite List.map_map.
    rewrite map_unchanged; [destruct st; reflexivity |].
    intros u Hu. apply Hno in Hu. apply String.eqb_neq in Hu.
    rewrite Hu, Hu. reflexivity.
Qed.

Lemma addMetric_twice_witness :
  Studio.addMetric (Studio.addMetric Sample.studio "_zz" Sample.first_metric)
    "_zz" Sample.second_metric
  = Sample.studio
  /\ List.map Studio.lastMetric
       (Studio.users
          (Studio.addMetric (Studio.addMetric Sample.studio "_u1" Sample.first_metric)
             "_u1" Sample.second_metric))
     = [None; Some Sample.second_metric; None; None].
Proof.
  split.
  - apply (addMetric_twice Sample.studio "_zz" Sample.first_metric Sample.second_metric).
    intros u [<- | [<- | [<- | [<- | []]]]]; discriminate.
  - reflexivity.
Defined.

Lemma Forall2_map_rel {A B : Type} (R : A -> B -> Prop) (f : A -> B) (l : list A) :
  (forall x, In x l -> R x (f x)) -> Forall2 R l (List.map f l).
Proof.
  induction l as [|x l IH]; intros HR; simpl; constructor.
  - apply HR. left. reflexivity.
  - apply IH. intros y Hy. apply HR. right. exact Hy.
Qed.

Lemma find_is_Some {A : Type} (p : A -> bool) (l : list A) :
  is_Some (List.find p l) <-> exists x, In x l /\ p x = true.
Proof.
  split.
  - intros [x Hx]. exists x. apply find_some, Hx.
  - intros [x [Hin Hp]]. destruct (List.find p l) as [y|] eqn:Hfind.
    + exists y. reflexivity.
    + rewrite (find_none _ _ Hfind x Hin) in Hp. discriminate.
Qed.

(** X5. Assigning a program to a username twice leaves the state of
    the second assignment alone.  Every stored user with that
    username gets the program id, whether or not a program has it:
    afterwards the dashboard finds an assigned program for such a
    user exactly when some program has that id.  The other users and
    the programs are unchanged. *)
Theorem assignProgram_last_wins (st : Studio.State) (username p1 p2 : string) :
  let st2 :=
    Studio.assignProgramToUser (Studio.assignProgramToUser st username p1) username p2 in
  st2 = Studio.assignProgramToUser st username p2
  /\ Forall2
       (fun u u' =>
          if String.eqb (Studio.User.username u) username
          then u' = Studio.user_with_assignedProgramId u (Some p2)
               /\ (is_Some (Studio.assignedProgram u' (Studio.programs st2))
                   <-> exists q, In q (Studio.programs st) /\ Studio.Program.id q = p2)
          else u' = u)
       (Studio.users st) (Studio.users st2)
  /\ Studio.programs st2 = Studio.programs st.
Proof.
  intros st2. subst st2. unfold Studio.assignProgramToUser. simpl.
  rewrite List.map_map.
  assert (Hmap :
    List.map
      (fun u =>
         if String.eqb
              (Studio.User.username
                 (if String.eqb (Studio.User.username u) username
                  then Studio.user_with_assignedProgramId u (Some p1) else u))
              username
         then Studio.user_with_assignedProgramId
                (if String.eqb (Studio.User.username u) username
                 then Studio.user_with_assignedProgramId u (Some p1) else u)
                (Some p2)
         else if String.eqb (Studio.User.username u) username
              then Studio.user_with_assignedProgramId u (Some p1) else u)
      (Studio.users st)
    = List.map
        (fun u =>
           if String.eqb (Studio.User.username u) username
           then Studio.user_with_assignedProgramId u (Some p2) else u)
        (Studio.users st)).
  { apply map_ext. intros u.
    destruct (String.eqb (Studio.User.username u) username) eqn:Hu; simpl;
      rewrite Hu; reflexivity. }
  rewrite Hmap. split; [reflexivity |]. split; [| reflexivity].
  apply Forall2_map_rel. intros u _.
  destruct (String.eqb (Studio.User.username u) username); [| reflexivity].
  split; [reflexivity |].
  unfold Studio.assignedProgram. simpl Studio.User.assignedProgramId.
  rewrite find_is_Some. split.
  - intros [q [Hin Hq]]. exists q. apply String.eqb_eq in Hq. auto.
  - intros [q [Hin Hq]]. exists q. apply String.eqb_eq in Hq. auto.
Qed.

(** ** Capacities *)

Lemma includes_In (x : string) (l : list string) : includes x l = true <-> In x l.
Proof.
  unfold includes. rewrite existsb_exists. split.
  - intros [y [Hin Heq]]. apply String.eqb_eq in Heq. subst y. exact Hin.
  - intros Hin. exists x. split; [exact Hin | apply String.eqb_refl].
Qed.

Lemma length_ge_int (len : nat) (c : Z) :
  length_ge len (num_of_Z c) = true <-> c <= Z.of_nat len.
Proof.
  unfold length_ge, num_of_Z. rewrite Qle_bool_iff, <- Zle_Qle. reflexivity.
Qed.

(** One more enrolled id keeps a list of enrolled ids in order when
    the id was not enrolled and the capacity test let it in. *)
Lemma enrolment_ok_add (capacity : number) (enrolled : list string) (x : string) :
  Studio.enrolment_ok capacity enrolled ->
  includes x enrolled = false ->
  length_ge (length enrolled) capacity = false ->
  Studio.enrolment_ok capacity (enrolled ++ [x]).
Proof.
  intros [Hnd Hbound] Hnew Hroom. split.
  - apply NoDup_app. split; [exact Hnd |]. split.
    + intros y Hy Hk. apply list_elem_of_In in Hk. destruct Hk as [<- | []].
      apply list_elem_of_In, includes_In in Hy. congruence.
    + apply NoDup_singleton.
  - intros c ->. rewrite length_app. simpl length.
    assert (Hlt : ~ c <= Z.of_nat (length enrolled)).
    { intros Hle. apply length_ge_int in Hle. congruence. }
    lia.
Qed.

Lemma enrolment_ok_empty (capacity : number) : Studio.enrolment_ok capacity [].
Proof.
  split; [apply NoDup_nil; exact I |]. intros c _. simpl. lia.
Qed.

Lemma bookSession_keeps_capacities (st : Studio.State) (sessionId : string) :
  Studio.capacities_kept st -> Studio.capacities_kept (Studio.bookSession st sessionId).
Proof.
  intros [Hs Hg]. unfold Studio.bookSession.
  destruct (Studio.currentUser st) as [cu|]; [| split; assumption].
  split; [| exact Hg]. simpl Studio.sessions.
  intros s' Hs'. apply in_map_iff in Hs' as [s [<- Hin]].
  specialize (Hs s Hin).
  destruct (String.eqb (Studio.Session.id s) sessionId); [| exact Hs].
  destruct (includes (Studio.User.id cu) (Studio.Session.participants s)) eqn:Hinc;
    [exact Hs |].
  destruct (length_ge (length (Studio.Session.participants s))
                      (Studio.Session.capacity s)) eqn:Hroom; [exact Hs |].
  apply enrolment_ok_add; assumption.
Qed.

Lemma joinGroup_keeps_capacities (st : Studio.State) (groupId : string) :
  Studio.capacities_kept st -> Studio.capacities_kept (Studio.joinGroup st groupId).
Proof.
  intros [Hs Hg]. unfold Studio.joinGroup.
  destruct (Studio.currentUser st) as [cu|]; [| split; assumption].
  split; [exact Hs |]. simpl Studio.groups.
  intros g' Hg'. apply in_map_iff in Hg' as [g [<- Hin]].
  specialize (Hg g Hin).
  destruct (String.eqb (Studio.Group.id g) groupId); [| exact Hg].
  destruct (includes (Studio.User.id cu) (Studio.Group.members g)) eqn:Hinc;
    [exact Hg |].
  destruct (length_ge (length (Studio.Group.members g))
                      (Studio.Group.capacity g)) eqn:Hroom; [exact Hg |].
  apply enrolment_ok_add; assumption.
Qed.

Lemma capacities_kept_frame (st st' : Studio.State) :
  Studio.sessions st' = Studio.sessions st ->
  Studio.groups st' = Studio.groups st ->
  Studio.capacities_kept st -> Studio.capacities_kept st'.
Proof. unfold Studio.capacities_kept. intros -> ->. exact id. Qed.

(** ** What one transition changes *)

Lemma handleLogin_frame (st : Studio.State) (username password : string) :
  let st' := snd (Studio.handleLogin st username password) in
  Studio.users st' = Studio.users st
  /\ Studio.programs st' = Studio.programs st
  /\ Studio.sessions st' = Studio.sessions st
  /\ Studio.groups st' = Studio.groups st
  /\ Studio.products st' = Studio.products st
  /\ (Studio.currentUser st' = Studio.currentUser st
      \/ exists u, Studio.currentUser st' = Some u /\ In u (Studio.users st)).
Proof.
  unfold Studio.handleLogin.
  destruct (Studio.find_by_username username (Studio.users st)) as [user|] eqn:Hfind.
  - destruct (negb _); simpl; repeat split; auto.
    right. exists user. split; [reflexivity |].
    apply find_some in Hfind. tauto.
  - simpl. repeat split; auto.
Qed.

Lemma handleRegister_frame (st : Studio.State) (username password role newId : string) :
  let st' := snd (Studio.handleRegister st username password role newId) in
  Studio.programs st' = Studio.programs st
  /\ Studio.sessions st' = Studio.sessions st
  /\ Studio.groups st' = Studio.groups st
  /\ Studio.products st' = Studio.products st
  /\ Studio.currentUser st' = Studio.currentUser st
  /\ (Studio.users st' = Studio.users st
      \/ exists new, Studio.users st' = Studio.users st ++ [new]
                     /\ Studio.User.username new = username
                     /\ Studio.find_by_username username (Studio.users st) = None).
Proof.
  unfold Studio.handleRegister.
  destruct (falsy username || falsy password); [simpl; repeat split; auto |].
  destruct (Studio.find_by_username username (Studio.users st)) eqn:Hfind;
    simpl; repeat split; auto.
  right. eexists. repeat split.
Qed.

Lemma purchaseProduct_frame (st st' : Studio.State) (productId : string) :
  Studio.purchaseProduct st productId = Returned st' ->
  Studio.programs st' = Studio.programs st
  /\ Studio.sessions st' = Studio.sessions st
  /\ Studio.groups st' = Studio.groups st
  /\ Studio.products st' = Studio.products st
  /\ Studio.currentUser st' = Studio.currentUser st
  /\ exists added : list string,
       Studio.users st'
       = List.map
           (fun u =>
              if String.eqb (Studio.User.id u)
                   (match Studio.currentUser st with
                    | Some cu => Studio.User.id cu
                    | None => ""
                    end)
              then Studio.User.with_purchasedProducts u
                     (Studio.User.purchasedProducts u ++ added)
              else u)
           (Studio.users st).
Proof.
  unfold Studio.purchaseProduct.
  assert (Hsame : forall key,
            List.map
              (fun u =>
                 if String.eqb (Studio.User.id u) key
                 then Studio.User.with_purchasedProducts u
                        (Studio.User.purchasedProducts u ++ [])
                 else u)
              (Studio.users st)
            = Studio.users st).
  { intros key. apply map_unchanged. intros u _.
    destruct (String.eqb (Studio.User.id u) key); [| reflexivity].
    rewrite app_nil_r. destruct u. reflexivity. }
  destruct (Studio.currentUser st) as [cu|] eqn:Hcu.
  - destruct (Studio.find_by_id _ _) as [user|]; [| discriminate].
    destruct (includes _ _); intros [= <-]; simpl;
      do 5 (split; [first [reflexivity | exact Hcu] |]).
    + exists []. symmetry. apply Hsame.
    + exists [productId]. reflexivity.
  - intros [= <-]. do 5 (split; [first [reflexivity | exact Hcu] |]).
    exists []. symmetry. apply Hsame.
Qed.

Lemma saveProfile_frame (st st' : Studio.State) (data : Studio.ProfileData.t) :
  Studio.saveProfile st data = Studio.ProfileSaved st' ->
  exists cu,
    Studio.currentUser st = Some cu
    /\ Studio.currentUser st' = Some (Studio.merge_profile cu data)
    /\ Studio.users st'
       = List.map
           (fun u =>
              if String.eqb (Studio.User.id u) (Studio.User.id cu)
              then Studio.merge_profile u data
              else u)
           (Studio.users st)
    /\ Studio.programs st' = Studio.programs st
    /\ Studio.sessions st' = Studio.sessions st
    /\ Studio.groups st' = Studio.groups st
    /\ Studio.products st' = Studio.products st.
Proof.
  unfold Studio.saveProfile.
  destruct (Studio.currentUser st) as [cu|].
  - intros [= <-]. exists cu. repeat split.
  - destruct (Studio.users st); discriminate.
Qed.

Lemma prefix_refl_list {A : Type} (l : list A) : prefix l l.
Proof. exists []. symmetry. apply app_nil_r. Qed.

Lemma account_grown_refl (u : Studio.User.t) : Studio.account_grown u u.
Proof. unfold Studio.account_grown. repeat split; apply prefix_refl_list. Qed.

Lemma account_grown_trans (u v w : Studio.User.t) :
  Studio.account_grown u v -> Studio.account_grown v w -> Studio.account_grown u w.
Proof.
  unfold Studio.account_grown.
  intros [Hi [Hn [Hp [Hr [Hm [Hs [Hg Hb]]]]]]] [Hi' [Hn' [Hp' [Hr' [Hm' [Hs' [Hg' Hb']]]]]]].
  repeat split; try congruence; etrans; eassumption.
Qed.

(** ** Invariants of the transitions *)

Section Reachable.

Variable parseFloat : string -> number.

Lemma step_keeps_capacities (st st' : Studio.State) :
  Studio.step parseFloat st st' ->
  Studio.capacities_kept st -> Studio.capacities_kept st'.
Proof.
  intros Hstep Hinv. destruct Hstep.
  - destruct (handleLogin_frame st username password) as [_ [_ [Hs [Hg _]]]].
    eapply capacities_kept_frame; eassumption.
  - destruct (handleRegister_frame st username password role newId)
      as [_ [Hs [Hg _]]].
    eapply capacities_kept_frame; eassumption.
  - exact Hinv.
  - exact Hinv.
  - exact Hinv.
  - exact Hinv.
  - exact Hinv.
  - destruct Hinv as [Hs Hg]. split; [| exact Hg].
    unfold Studio.createSession. simpl Studio.sessions.
    intros s [Hin | [<- | []]]%in_app_iff; [apply Hs, Hin |].
    apply enrolment_ok_empty.
  - apply bookSession_keeps_capacities, Hinv.
  - destruct Hinv as [Hs Hg]. split; [exact Hs |].
    unfold Studio.createGroup. simpl Studio.groups.
    intros g [Hin | [<- | []]]%in_app_iff; [apply Hg, Hin |].
    apply enrolment_ok_empty.
  - apply joinGroup_keeps_capacities, Hinv.
  - exact Hinv.
  - destruct (purchaseProduct_frame _ _ _ H) as [_ [Hs [Hg _]]].
    eapply capacities_kept_frame; eassumption.
  - destruct (saveProfile_frame _ _ _ H) as [cu [_ [_ [_ [_ [Hs [Hg _]]]]]]].
    eapply capacities_kept_frame; eassumption.
Qed.

(** X6. Along any sequence of handler calls, from a state in which
    every session and group with an integer capacity [c] holds at
    most [max 0 c] ids and holds no id twice, this stays so: no
    sequence of bookings, by whichever users, overfills a session or
    a group or enrols an id twice.  A capacity that is not a number
    bounds nothing. *)
Theorem capacity_never_exceeded (st st' : Studio.State) :
  Studio.capacities_kept st ->
  rtc (Studio.step parseFloat) st st' ->
  Studio.capacities_kept st'.
Proof.
  intros Hinv Hrtc. induction Hrtc as [st | st mid st' Hstep _ IH].
  - exact Hinv.
  - apply IH. eapply step_keeps_capacities; eassumption.
Qed.

End Reachable.

(** The sample run: the coach logs in and creates a session and a
    group, then three clients log in and book the session in turn. *)
Lemma sample_run (parseFloat : string -> number) :
  rtc (Studio.step parseFloat) Sample.studio Sample.booked_thrice.
Proof.
  unfold Sample.booked_thrice, Sample.booked_twice, Sample.booked_once,
         Sample.with_session, Sample.login_as.
  eapply rtc_r; [| apply Studio.step_bookSession].
  eapply rtc_r; [| apply Studio.step_login].
  eapply rtc_r; [| apply Studio.step_bookSession].
  eapply rtc_r; [| apply Studio.step_login].
  eapply rtc_r; [| apply Studio.step_bookSession].
  eapply rtc_r; [| apply Studio.step_login].
  eapply rtc_r; [| apply Studio.step_createGroup].
  eapply rtc_r; [| apply Studio.step_createSession].
  eapply rtc_r; [| apply Studio.step_login].
  apply rtc_refl.
Defined.

Lemma capacity_never_exceeded_witness : Studio.capacities_kept Sample.booked_thrice.
Proof.
  apply (capacity_never_exceeded (fun _ => NaN) Sample.studio Sample.booked_thrice).
  - split; intros x [].
  - apply sample_run.
Defined.

(** X7. The two odd capacities.  A session whose capacity is [NaN],
    which is what [createSession] stores for a capacity text without
    a leading number, refuses nobody: after a booking the current
    user is a participant, however many there are.  A session whose
    capacity is an integer not above 0 admits nobody: a booking
    leaves it as it was. *)
Theorem odd_capacities (st : Studio.State) (sessionId : string) :
  (forall cu s',
     Studio.currentUser st = Some cu ->
     In s' (Studio.sessions (Studio.bookSession st sessionId)) ->
     Studio.Session.id s' = sessionId ->
     Studio.Session.capacity s' = NaN ->
     In (Studio.User.id cu) (Studio.Session.participants s'))
  /\ (forall s' c,
        In s' (Studio.sessions (Studio.bookSession st sessionId)) ->
        Studio.Session.capacity s' = num_of_Z c -> c <= 0 ->
        In s' (Studio.sessions st)).
Proof.
  unfold Studio.bookSession. split.
  - intros cu s' Hcu. rewrite Hcu. simpl Studio.sessions.
    rewrite in_map_iff. intros [s [<- Hin]].
    destruct (String.eqb (Studio.Session.id s) sessionId) eqn:Hid.
    + destruct (includes (Studio.User.id cu) (Studio.Session.participants s)) eqn:Hinc.
      * intros _ _. apply includes_In, Hinc.
      * destruct (length_ge _ (Studio.Session.capacity s)) eqn:Hroom.
        -- intros _ Hnan. rewrite Hnan in Hroom. discriminate.
        -- intros _ _. simpl. apply in_app_iff. right. left. reflexivity.
    + intros Hs'. apply String.eqb_neq in Hid. contradiction.
  - intros s' c. destruct (Studio.currentUser st) as [cu|]; [| auto].
    simpl Studio.sessions. rewrite in_map_iff. intros [s [<- Hin]].
    destruct (String.eqb (Studio.Session.id s) sessionId); [| auto].
    destruct (includes _ _); [auto |].
    destruct (length_ge _ (Studio.Session.capacity s)) eqn:Hroom; [auto |].
    simpl. intros Hcap Hc. exfalso.
    rewrite Hcap in Hroom.
    assert (Hge : length_ge (length (Studio.Session.participants s)) (num_of_Z c) = true)
      by (apply length_ge_int; lia).
    congruence.
Qed.

Lemma odd_capacities_witness :
  List.map Studio.Session.capacity (Studio.sessions Sample.odd_sessions)
  = [NaN; num_of_Z 0]
  /\ In "_u3"
       (Studio.Session.participants
          (Studio.Session.mk "_s2" "Open gym" "2026-01-07" "09:00" NaN ""
             ["_u1"; "_u2"; "_u3"]))
  /\ In (Studio.Session.mk "_s3" "Closed" "2026-01-08" "09:00" (num_of_Z 0) "" [])
        (Studio.sessions Sample.odd_sessions).
Proof.
  split; [reflexivity |]. split.
  - apply (proj1 (odd_capacities
                    (Sample.login_as Sample.open_booked_twice "gil" "pw3") "_s2")
             Sample.gil).
    + reflexivity.
    + left. reflexivity.
    + reflexivity.
    + reflexivity.
  - apply (proj2 (odd_capacities (Sample.login_as Sample.odd_sessions "dana" "pw1") "_s3")
             _ 0).
    + right. left. reflexivity.
    + reflexivity.
    + lia.
Defined.

(** ** Accounts along the transitions *)

Ltac account_grown_tac :=
  unfold Studio.account_grown; simpl;
  repeat split;
  first [ apply prefix_refl_list | eexists; reflexivity ].

Lemma map_id_list {A : Type} (l : list A) : List.map (fun x => x) l = l.
Proof. apply map_unchanged. reflexivity. Qed.

Section Accounts.

Variable parseFloat : string -> number.

(** One transition applies one growing function to every account and
    adds at most one account, whose username no stored user had. *)
Lemma step_users (st st' : Studio.State) :
  Studio.step parseFloat st st' ->
  exists (f : Studio.User.t -> Studio.User.t) (added : list Studio.User.t),
    Studio.users st' = List.map f (Studio.users st) ++ added
    /\ (forall u, Studio.account_grown u (f u))
    /\ (added = []
        \/ exists new, added = [new]
                       /\ Studio.find_by_username (Studio.User.username new)
                            (Studio.users st) = None).
Proof.
  assert (Hsame : forall us : list Studio.User.t,
            exists (f : Studio.User.t -> Studio.User.t) (added : list Studio.User.t),
              us = List.map f us ++ added
              /\ (forall u, Studio.account_grown u (f u))
              /\ (added = []
                  \/ exists new, added = [new]
                       /\ Studio.find_by_username (Studio.User.username new) us
                          = None)).
  { intros us. exists (fun u => u), [].
    rewrite map_id_list, app_nil_r.
    split; [reflexivity |]. split; [apply account_grown_refl | left; reflexivity]. }
  assert (Hmap : forall (us : list Studio.User.t) (f : Studio.User.t -> Studio.User.t),
            (forall u, Studio.account_grown u (f u)) ->
            exists (f' : Studio.User.t -> Studio.User.t) (added : list Studio.User.t),
              List.map f us = List.map f' us ++ added
              /\ (forall u, Studio.account_grown u (f' u))
              /\ (added = []
                  \/ exists new, added = [new]
                       /\ Studio.find_by_username (Studio.User.username new) us = None)).
  { intros us f Hf. exists f, []. rewrite app_nil_r.
    split; [reflexivity |]. split; [exact Hf | left; reflexivity]. }
  intros Hstep. destruct Hstep.
  - destruct (handleLogin_frame st username password) as [-> _]. exact (Hsame (Studio.users st)).
  - destruct (handleRegister_frame st username password role newId)
      as [_ [_ [_ [_ [_ [-> | [new [-> [Hname Hfree]]]]]]]]].
    + exact (Hsame (Studio.users st)).
    + exists (fun u => u), [new]. rewrite map_id_list.
      split; [reflexivity |]. split; [apply account_grown_refl |].
      right. exists new. rewrite Hname. auto.
  - exact (Hsame (Studio.users st)).
  - exact (Hsame (Studio.users st)).
  - exact (Hsame (Studio.users st)).
  - apply Hmap. intros u.
    destruct (String.eqb (Studio.User.username u) username);
      [account_grown_tac | apply account_grown_refl].
  - apply Hmap. intros u.
    destruct (String.eqb (Studio.User.id u) userId);
      [account_grown_tac | apply account_grown_refl].
  - exact (Hsame (Studio.users st)).
  - unfold Studio.bookSession.
    destruct (Studio.currentUser st) as [cu|]; [| exact (Hsame (Studio.users st))].
    apply Hmap. intros u.
    destruct (String.eqb (Studio.User.id u) (Studio.User.id cu));
      [account_grown_tac | apply account_grown_refl].
  - exact (Hsame (Studio.users st)).
  - unfold Studio.joinGroup.
    destruct (Studio.currentUser st) as [cu|]; [| exact (Hsame (Studio.users st))].
    apply Hmap. intros u.
    destruct (String.eqb (Studio.User.id u) (Studio.User.id cu));
      [account_grown_tac | apply account_grown_refl].
  - exact (Hsame (Studio.users st)).
  - destruct (purchaseProduct_frame _ _ _ H) as [_ [_ [_ [_ [_ [added ->]]]]]].
    apply Hmap. intros u.
    destruct (String.eqb (Studio.User.id u) _);
      [account_grown_tac | apply account_grown_refl].
  - destruct (saveProfile_frame _ _ _ H) as [cu [_ [_ [-> _]]]].
    apply Hmap. intros u.
    destruct (String.eqb (Studio.User.id u) (Studio.User.id cu));
      [account_grown_tac | apply account_grown_refl].
Qed.

End Accounts.

Lemma Forall2_compose {A : Type} (R : A -> A -> Prop) (l1 l2 l3 : list A) :
  (forall x y z, R x y -> R y z -> R x z) ->
  Forall2 R l1 l2 -> Forall2 R l2 l3 -> Forall2 R l1 l3.
Proof.
  intros Htrans H12. revert l3.
  induction H12 as [|x y l1 l2 Hxy _ IH]; intros l3 H23; inversion H23; subst.
  - constructor.
  - constructor; [eapply Htrans; eassumption | apply IH; assumption].
Qed.

Lemma accounts_grown_refl (us : list Studio.User.t) : Studio.accounts_grown us us.
Proof.
  exists us, []. split; [symmetry; apply app_nil_r |].
  rewrite <- (map_id_list us) at 2.
  apply Forall2_map_rel. intros u _. apply account_grown_refl.
Qed.

Lemma accounts_grown_trans (us1 us2 us3 : list Studio.User.t) :
  Studio.accounts_grown us1 us2 -> Studio.accounts_grown us2 us3 ->
  Studio.accounts_grown us1 us3.
Proof.
  intros [l2 [a2 [-> H12]]] [l3 [a3 [-> H23]]].
  apply Forall2_app_inv_l in H23 as [k1 [k2 [Hk1 [Hk2 ->]]]].
  exists k1, (k2 ++ a3). split; [symmetry; apply app_assoc |].
  eapply Forall2_compose; [apply account_grown_trans | eassumption | eassumption].
Qed.

Section AccountInvariants.

Variable parseFloat : string -> number.

Lemma step_accounts_grown (st st' : Studio.State) :
  Studio.step parseFloat st st' ->
  Studio.accounts_grown (Studio.users st) (Studio.users st').
Proof.
  intros Hstep. destruct (step_users parseFloat st st' Hstep) as [f [added [-> [Hf _]]]].
  exists (List.map f (Studio.users st)), added. split; [reflexivity |].
  apply Forall2_map_rel. intros u _. apply Hf.
Qed.

Lemma reachable_accounts_grown (st st' : Studio.State) :
  rtc (Studio.step parseFloat) st st' ->
  Studio.accounts_grown (Studio.users st) (Studio.users st').
Proof.
  intros Hrtc. induction Hrtc as [st | st mid st' Hstep _ IH].
  - apply accounts_grown_refl.
  - eapply accounts_grown_trans; [apply step_accounts_grown, Hstep | exact IH].
Qed.

(** X8. Along any sequence of handler calls no account is removed or
    moved, and no id, username, stored credential or role changes:
    the accounts of the start are the first accounts afterwards, in
    the same order, each with histories (metrics, joined sessions,
    joined groups, purchased products) that extend the old ones. *)
Theorem accounts_only_grow (st st' : Studio.State) :
  rtc (Studio.step parseFloat) st st' ->
  Studio.accounts_grown (Studio.users st) (Studio.users st')
  /\ (length (Studio.users st) <= length (Studio.users st'))%nat
  /\ forall i u, nth_error (Studio.users st) i = Some u ->
       exists u', nth_error (Studio.users st') i = Some u'
                  /\ Studio.account_grown u u'.
Proof.
  intros Hrtc.
  pose proof (reachable_accounts_grown st st' Hrtc) as Hgrown.
  split; [exact Hgrown |].
  destruct Hgrown as [later [added [-> Hall]]].
  pose proof (Forall2_length _ _ _ Hall) as Hlen.
  split; [rewrite length_app; lia |].
  intros i u Hi.
  assert (Hlt : (i < length later)%nat).
  { rewrite <- Hlen. apply nth_error_Some. congruence. }
  destruct (nth_error later i) as [u'|] eqn:Hi';
    [| apply nth_error_None in Hi'; lia].
  exists u'. split.
  - rewrite nth_error_app1 by exact Hlt. exact Hi'.
  - clear Hlen Hlt. revert i Hi Hi'.
    induction Hall as [|x y l l' Hxy _ IH]; intros [|i] Hi Hi'; simpl in *;
      try discriminate.
    + congruence.
    + eapply IH; eassumption.
Qed.

(** X9. Usernames stay distinct: from a state whose stored usernames
    are pairwise distinct, every sequence of handler calls leads to
    such a state; a registration is the only call that adds a
    username, and it refuses one that is stored. *)
Theorem usernames_stay_distinct (st st' : Studio.State) :
  NoDup (List.map Studio.User.username (Studio.users st)) ->
  rtc (Studio.step parseFloat) st st' ->
  NoDup (List.map Studio.User.username (Studio.users st')).
Proof.
  intros Hnd Hrtc. induction Hrtc as [st | st mid st' Hstep _ IH]; [exact Hnd |].
  apply IH. clear IH.
  destruct (step_users parseFloat st mid Hstep) as [f [added [-> [Hf Hadded]]]].
  rewrite List.map_app, List.map_map.
  assert (Hnames : List.map (fun u => Studio.User.username (f u)) (Studio.users st)
                   = List.map Studio.User.username (Studio.users st)).
  { apply map_ext. intros u. apply Hf. }
  rewrite Hnames.
  destruct Hadded as [-> | [new [-> Hfree]]].
  - simpl. rewrite app_nil_r. exact Hnd.
  - simpl. apply NoDup_app. split; [exact Hnd |]. split; [| apply NoDup_singleton].
    intros name Hname Hnew. apply list_elem_of_In in Hnew. destruct Hnew as [<- | []].
    apply list_elem_of_In, in_map_iff in Hname as [u [Hu Hin]].
    unfold Studio.find_by_username in Hfree.
    pose proof (find_none _ _ Hfree u Hin) as Hne. cbv beta in Hne.
    apply String.eqb_neq in Hne. congruence.
Qed.

End AccountInvariants.

Lemma accounts_only_grow_witness :
  Studio.accounts_grown (Studio.users Sample.studio) (Studio.users Sample.booked_thrice)
  /\ (length (Studio.users Sample.studio)
      <= length (Studio.users Sample.booked_thrice))%nat
  /\ forall i u, nth_error (Studio.users Sample.studio) i = Some u ->
       exists u', nth_error (Studio.users Sample.booked_thrice) i = Some u'
                  /\ Studio.account_grown u u'.
Proof.
  apply (accounts_only_grow (fun _ => NaN) Sample.studio Sample.booked_thrice).
  apply sample_run.
Defined.

Lemma usernames_stay_distinct_witness :
  NoDup (List.map Studio.User.username (Studio.users Sample.booked_thrice)).
Proof.
  apply (usernames_stay_distinct (fun _ => NaN) Sample.studio Sample.booked_thrice).
  - simpl. repeat (apply NoDup_cons; split; [intros Hin; repeat (apply elem_of_cons in Hin as [Hin | Hin]; [discriminate |]); apply elem_of_nil in Hin; exact Hin |]).
    apply NoDup_nil. exact I.
  - apply sample_run.
Defined.

(** ** The current user *)

Section CurrentUser.

Variable parseFloat : string -> number.

Lemma current_stored_mapped (st st' : Studio.State)
    (f : Studio.User.t -> Studio.User.t) (added : list Studio.User.t) :
  Studio.users st' = List.map f (Studio.users st) ++ added ->
  (forall u, Studio.account_grown u (f u)) ->
  (forall cu', Studio.currentUser st' = Some cu' ->
     exists cu, Studio.currentUser st = Some cu
                /\ Studio.User.id cu' = Studio.User.id cu
                /\ Studio.User.username cu' = Studio.User.username cu) ->
  Studio.current_user_stored st -> Studio.current_user_stored st'.
Proof.
  intros Husers Hf Hcur Hinv cu' Hcu'.
  destruct (Hcur cu' Hcu') as [cu [Hcu [Hid Hname]]].
  destruct (Hinv cu Hcu) as [u [Hin [Huid Huname]]].
  exists (f u). destruct (Hf u) as [Hfi [Hfn _]].
  split; [| split; congruence].
  rewrite Husers. apply in_app_iff. left. apply in_map, Hin.
Qed.

Lemma step_keeps_current_stored (st st' : Studio.State) :
  Studio.step parseFloat st st' ->
  Studio.current_user_stored st -> Studio.current_user_stored st'.
Proof.
  intros Hstep Hinv.
  destruct (step_users parseFloat st st' Hstep) as [f [added [Husers [Hf _]]]].
  assert (Hkeep : Studio.currentUser st' = Studio.currentUser st ->
                  Studio.current_user_stored st').
  { intros Hsame. eapply current_stored_mapped; try eassumption.
    intros cu' Hcu'. exists cu'. rewrite <- Hsame. auto. }
  destruct Hstep; try (apply Hkeep; reflexivity).
  - destruct (handleLogin_frame st username password)
      as [Hu [_ [_ [_ [_ [Hsame | [u [Hcu Hin]]]]]]]].
    + apply Hkeep, Hsame.
    + intros cu' Hcu'. rewrite Hcu in Hcu'. injection Hcu' as <-.
      exists u. rewrite Hu. auto.
  - apply Hkeep. apply (handleRegister_frame st username password role newId).
  - intros cu' Hcu'. discriminate.
  - apply Hkeep. unfold Studio.bookSession.
    destruct (Studio.currentUser st) eqn:Hcu; [simpl; exact Hcu | exact Hcu].
  - apply Hkeep. unfold Studio.joinGroup.
    destruct (Studio.currentUser st) eqn:Hcu; [simpl; exact Hcu | exact Hcu].
  - apply Hkeep. apply (purchaseProduct_frame _ _ _ H).
  - destruct (saveProfile_frame _ _ _ H) as [cu [Hcu [Hcu' _]]].
    eapply current_stored_mapped; try eassumption.
    intros cu'' Hcu''. rewrite Hcu' in Hcu''. injection Hcu'' as <-.
    exists cu. auto.
Qed.

(** A stored user stays: the users of a later state are not fewer. *)
Lemma reachable_users_remain (st st' : Studio.State) :
  rtc (Studio.step parseFloat) st st' ->
  Studio.users st <> [] -> Studio.users st' <> [].
Proof.
  intros Hrtc Hsome Hnil.
  destruct (reachable_accounts_grown parseFloat st st' Hrtc)
    as [later [added [Heq Hall]]].
  rewrite Hnil in Heq. destruct later; [| discriminate].
  inversion Hall. congruence.
Qed.

(** X10. From a state with a stored user in which the current user,
    if any, has the id and username of a stored user (so from every
    state that [loadData] has filled, before anybody logs in), every
    sequence of handler calls leads to such a state.  There a
    purchase never throws, and a profile save either saves, and is a
    transition, or throws because nobody is logged in: it never
    replaces the current user by the bare profile data, which is the
    one returning call the transitions leave out. *)
Theorem current_user_always_stored (st st' : Studio.State) :
  Studio.users st <> [] ->
  Studio.current_user_stored st ->
  rtc (Studio.step parseFloat) st st' ->
  Studio.users st' <> []
  /\ Studio.current_user_stored st'
  /\ (forall productId,
        exists st'', Studio.purchaseProduct st' productId = Returned st'')
  /\ (forall data,
        (exists st'', Studio.saveProfile st' data = Studio.ProfileSaved st''
                      /\ Studio.step parseFloat st' st'')
        \/ (Studio.currentUser st' = None
            /\ Studio.saveProfile st' data = Studio.ProfileThrew TypeError)).
Proof.
  intros Hsome Hinv Hrtc.
  assert (Hstored : Studio.current_user_stored st').
  { induction Hrtc as [st | st mid st' Hstep _ IH]; [exact Hinv |].
    apply IH.
    - apply (reachable_users_remain st mid); [| exact Hsome].
      apply rtc_once, Hstep.
    - eapply step_keeps_current_stored; eassumption. }
  pose proof (reachable_users_remain st st' Hrtc Hsome) as Hsome'.
  split; [exact Hsome' |]. split; [exact Hstored |]. split.
  - intros productId. unfold Studio.purchaseProduct.
    destruct (Studio.currentUser st') as [cu|] eqn:Hcu; [| eexists; reflexivity].
    destruct (Hstored cu Hcu) as [u [Hin [Hid _]]].
    destruct (Studio.find_by_id (Studio.User.id cu) (Studio.users st'))
      as [user|] eqn:Hfind.
    + destruct (includes _ _); eexists; reflexivity.
    + exfalso. unfold Studio.find_by_id in Hfind.
      pose proof (find_none _ _ Hfind u Hin) as Hne. cbv beta in Hne.
      apply String.eqb_neq in Hne. congruence.
  - intros data.
    destruct (Studio.saveProfile st' data) as [saved | e | detached] eqn:Hsave.
    + left. exists saved. split; [reflexivity |].
      eapply Studio.step_saveProfile, Hsave.
    + right. unfold Studio.saveProfile in Hsave.
      destruct (Studio.currentUser st'); [discriminate |].
      destruct (Studio.users st'); [discriminate |].
      injection Hsave as <-. split; reflexivity.
    + exfalso. unfold Studio.saveProfile in Hsave.
      destruct (Studio.currentUser st'); [discriminate |].
      destruct (Studio.users st'); [congruence | discriminate].
Qed.

End CurrentUser.

Lemma current_user_always_stored_witness :
  Studio.users Sample.booked_thrice <> []
  /\ Studio.current_user_stored Sample.booked_thrice
  /\ (forall productId,
        exists st'', Studio.purchaseProduct Sample.booked_thrice productId
                     = Returned st'')
  /\ (forall data,
        (exists st'', Studio.saveProfile Sample.booked_thrice data
                      = Studio.ProfileSaved st''
                      /\ Studio.step (fun _ => NaN) Sample.booked_thrice st'')
        \/ (Studio.currentUser Sample.booked_thrice = None
            /\ Studio.saveProfile Sample.booked_thrice data
               = Studio.ProfileThrew TypeError)).
Proof.
  apply (current_user_always_stored (fun _ => NaN) Sample.studio Sample.booked_thrice).
  - discriminate.
  - intros cu Hcu. discriminate.
  - apply sample_run.
Defined.

(** ** More on loading *)

Section StudioStore.

Context {SU : Codec Studio.User.t} {SP : Codec Studio.Program.t}
        {SS : Codec Studio.Session.t} {SG : Codec Studio.Group.t}
        {SR : Codec Studio.Product.t}.
Variable ids : nat -> string.

(** The users read depend on the text of the users key only. *)
Lemma studio_read_users_text (w : World) :
  fst (Studio.read_users w)
  = match localStorage w !! Studio.USERS_KEY with
    | Some text => if falsy text then [] else parse_or_empty text
    | None => []
    end.
Proof. reflexivity. Qed.

Lemma studio_read_users_same_text (w w' : World) :
  localStorage w' !! Studio.USERS_KEY = localStorage w !! Studio.USERS_KEY ->
  fst (Studio.read_users w') = fst (Studio.read_users w).
Proof. rewrite !studio_read_users_text. intros ->. reflexivity. Qed.

Lemma studio_load_users_seeded (w : World) :
  fst (Studio.read_users w) = [] ->
  let seeds := Studio.default_users (ids (drawn w)) (ids (S (drawn w))) in
  Studio.load_users ids w
  = (seeds,
     mkWorld (<[Studio.USERS_KEY := JSON_stringify seeds]> (localStorage w))
             (S (S (drawn w)))).
Proof.
  intros Hnil. unfold Studio.load_users, bind.
  destruct (Studio.read_users w) as [us w'] eqn:Hread.
  assert (Hw : w' = w).
  { unfold Studio.read_users, bind, getItem, ret in Hread. congruence. }
  subst w'. simpl in Hnil. subst us. reflexivity.
Qed.

Lemma studio_load_programs_seeded (w : World) :
  stored (A := Studio.Program.t) w Studio.PROGRAMS_KEY = [] ->
  let seeds := [Studio.default_program (ids (drawn w))] in
  Studio.load_programs ids w
  = (seeds,
     mkWorld (<[Studio.PROGRAMS_KEY := JSON_stringify seeds]> (localStorage w))
             (S (drawn w))).
Proof.
  intros Hnil. unfold Studio.load_programs, bind. rewrite load_collection_eq, Hnil.
  reflexivity.
Qed.

(** The text a collection is read back from. *)
Lemma stored_written {A : Type} `{Codec A} (w : World) (key : string) (v : list A) :
  localStorage w !! key = Some (JSON_stringify v) ->
  JSON_parse (JSON_stringify v) = Some v ->
  falsy (JSON_stringify v) = false ->
  stored w key = v.
Proof.
  intros Htext Hparse Hfalsy. unfold stored, parse_or_empty, or_empty_array.
  rewrite Htext, Hfalsy, Hparse. reflexivity.
Qed.


End StudioStore.


Section StudioReload.

Context {SU : Codec Studio.User.t} {SP : Codec Studio.Program.t}
        {SS : Codec Studio.Session.t} {SG : Codec Studio.Group.t}
        {SR : Codec Studio.Product.t}.

(** X12. Loading again.  When the codec reads back the users and the
    programs that a first [loadData] returned from the texts it
    writes for them, a second [loadData] on the store the first one
    left returns the same data, draws no identifier and writes
    nothing: a collection is seeded once. *)
Theorem loadData_again (ids ids' : nat -> string) (w : World) :
  let first := Studio.loadData ids w in
  let users := Studio.Data.users (fst first) in
  let programs := Studio.Data.programs (fst first) in
  JSON_parse (JSON_stringify users) = Some users ->
  falsy (JSON_stringify users) = false ->
  JSON_parse (JSON_stringify programs) = Some programs ->
  falsy (JSON_stringify programs) = false ->
  Studio.loadData ids' (snd first) = first.
Proof.
  intros first users programs. subst users programs first.
  rewrite (studio_loadData_eq ids w). cbv zeta. cbn [fst snd Studio.Data.users
    Studio.Data.programs].
  set (w1 := snd (Studio.load_users ids w)).
  set (w2 := snd (Studio.load_programs ids w1)).
  intros Hup Huf Hpp Hpf.
  assert (Husers : Studio.load_users ids' w2 = (fst (Studio.load_users ids w), w2)).
  { assert (Hread : fst (Studio.read_users w2) = fst (Studio.load_users ids w)
                    /\ fst (Studio.load_users ids w) <> []).
    { assert (Htext : localStorage w2 !! Studio.USERS_KEY
                      = localStorage w1 !! Studio.USERS_KEY)
        by (apply studio_load_programs_other; discriminate).
      destruct (fst (Studio.read_users w)) as [|u us] eqn:Hw.
      - pose proof (studio_load_users_seeded ids w Hw) as Hseed. cbv zeta in Hseed.
        subst w1. rewrite Hseed in *. cbn [fst snd localStorage] in *.
        rewrite lookup_insert_eq in Htext.
        rewrite studio_read_users_text, Htext, Huf.
        unfold parse_or_empty. rewrite Hup. split; [reflexivity | discriminate].
      - assert (Hne : fst (Studio.read_users w) <> []) by (rewrite Hw; discriminate).
        pose proof (proj2 (studio_load_users_cases ids w) Hne) as Hkeep.
        subst w1. rewrite Hkeep in *. cbn [fst snd] in *.
        split; [| exact Hne]. apply studio_read_users_same_text, Htext. }
    destruct Hread as [Hread Hne]. rewrite <- Hread in Hne.
    rewrite (proj2 (studio_load_users_cases ids' w2) Hne), Hread. reflexivity. }
  assert (Hprograms : Studio.load_programs ids' w2
                      = (fst (Studio.load_programs ids w1), w2)).
  { assert (Hread : stored (A := Studio.Program.t) w2 Studio.PROGRAMS_KEY
                    = fst (Studio.load_programs ids w1)
                    /\ fst (Studio.load_programs ids w1) <> []).
    { destruct (stored (A := Studio.Program.t) w1 Studio.PROGRAMS_KEY)
        as [|p ps] eqn:Hw.
      - pose proof (studio_load_programs_seeded ids w1 Hw) as Hseed.
        cbv zeta in Hseed. subst w2. rewrite Hseed in *. cbn [fst snd] in *.
        split; [| discriminate].
        apply stored_written; [apply lookup_insert_eq | assumption | assumption].
      - assert (Hne : stored (A := Studio.Program.t) w1 Studio.PROGRAMS_KEY <> [])
          by (rewrite Hw; discriminate).
        pose proof (proj2 (studio_load_programs_cases ids w1) Hne) as Hkeep.
        subst w2. rewrite Hkeep. cbn [fst snd]. rewrite Hw.
        split; [reflexivity | discriminate]. }
    destruct Hread as [Hread Hne]. rewrite <- Hread in Hne.
    rewrite (proj2 (studio_load_programs_cases ids' w2) Hne), Hread. reflexivity. }
  rewrite (studio_loadData_eq ids' w2). cbv zeta.
  rewrite Husers. cbn [fst snd]. rewrite Hprograms. reflexivity.
Qed.

End StudioReload.

Lemma loadData_again_witness :
  let first :=
    Studio.loadData (SU := Sample.seeds_users_codec) (SP := Sample.seeds_programs_codec)
      sample_ids empty_world in
  Studio.Data.users (fst first) = Studio.default_users "_id0" "_id1"
  /\ drawn (snd first) = 3%nat
  /\ Studio.loadData (SU := Sample.seeds_users_codec) (SP := Sample.seeds_programs_codec)
       (fun _ => "_other") (snd first)
     = first.
Proof.
  cbv zeta. split; [reflexivity |]. split; [reflexivity |].
  apply (loadData_again (SU := Sample.seeds_users_codec)
           (SP := Sample.seeds_programs_codec) sample_ids (fun _ => "_other") empty_world);
    reflexivity.
Defined.

(** ** Saving, then loading *)

Section StudioSaveLoad.

Context {SU : Codec Studio.User.t} {SP : Codec Studio.Program.t}
        {SS : Codec Studio.Session.t} {SG : Codec Studio.Group.t}
        {SR : Codec Studio.Product.t}.
Variable ids : nat -> string.

(** X13. Sessions, groups and products that are saved come back from
    [loadData] as they were, provided the codec reads back the text
    it writes for each of them and that text is not empty. *)
Theorem save_then_load
    (w : World) (vs : list Studio.Session.t) (vg : list Studio.Group.t)
    (vp : list Studio.Product.t) :
  JSON_parse (JSON_stringify vs) = Some vs -> falsy (JSON_stringify vs) = false ->
  JSON_parse (JSON_stringify vg) = Some vg -> falsy (JSON_stringify vg) = false ->
  JSON_parse (JSON_stringify vp) = Some vp -> falsy (JSON_stringify vp) = false ->
  let saved :=
    snd (Studio.saveProducts vp
           (snd (Studio.saveGroups vg (snd (Studio.saveSessions vs w))))) in
  let loaded := fst (Studio.loadData ids saved) in
  Studio.Data.sessions loaded = vs
  /\ Studio.Data.groups loaded = vg
  /\ Studio.Data.products loaded = vp.
Proof.
  intros Hsp Hsf Hgp Hgf Hpp Hpf saved loaded. subst loaded.
  rewrite studio_loadData_eq. cbv zeta.
  cbn [fst Studio.Data.sessions Studio.Data.groups Studio.Data.products].
  repeat split; (apply stored_written; [| assumption | assumption]);
    rewrite studio_plain_key_kept by discriminate; subst saved;
    unfold Studio.saveProducts, Studio.saveGroups, Studio.saveSessions, setItem;
    cbn [snd localStorage].
  - rewrite lookup_insert_ne by discriminate.
    rewrite lookup_insert_ne by discriminate.
    apply lookup_insert_eq.
  - rewrite lookup_insert_ne by discriminate.
    apply lookup_insert_eq.
  - apply lookup_insert_eq.
Qed.

(** X14. Users that are saved come back from [loadData] as they were
    when there is at least one; an empty users collection that is
    saved comes back as the seeded users: the users loaded are never
    the empty collection that was saved. *)
Theorem save_users_then_load (w : World) (v : list Studio.User.t) :
  JSON_parse (JSON_stringify v) = Some v -> falsy (JSON_stringify v) = false ->
  let saved := snd (Studio.saveUsers v w) in
  Studio.Data.users (fst (Studio.loadData ids saved))
  = match v with
    | [] => Studio.default_users (ids (drawn w)) (ids (S (drawn w)))
    | _ :: _ => v
    end.
Proof.
  intros Hparse Hfalsy saved.
  rewrite studio_loadData_eq. cbv zeta. cbn [fst Studio.Data.users].
  assert (Hread : fst (Studio.read_users saved) = v).
  { rewrite studio_read_users_text. subst saved.
    unfold Studio.saveUsers, setItem. cbn [snd localStorage].
    rewrite lookup_insert_eq, Hfalsy. unfold parse_or_empty.
    rewrite Hparse. reflexivity. }
  destruct v as [|u us].
  - rewrite (proj1 (studio_load_users_cases ids saved) Hread). reflexivity.
  - assert (Hne : fst (Studio.read_users saved) <> [])
      by (rewrite Hread; discriminate).
    rewrite (proj2 (studio_load_users_cases ids saved) Hne). exact Hread.
Qed.

End StudioSaveLoad.

Lemma save_then_load_witness :
  let saved :=
    snd (Studio.saveProducts (SR := Sample.saved_products_codec) [Sample.bottle]
           (snd (Studio.saveGroups (SG := Sample.saved_groups_codec) [Sample.runners]
                   (snd (Studio.saveSessions (SS := Sample.saved_sessions_codec)
                           [Sample.yoga] Sample.broken_world))))) in
  let loaded :=
    fst (Studio.loadData (SS := Sample.saved_sessions_codec)
           (SG := Sample.saved_groups_codec) (SR := Sample.saved_products_codec)
           sample_ids saved) in
  Studio.Data.sessions loaded = [Sample.yoga]
  /\ Studio.Data.groups loaded = [Sample.runners]
  /\ Studio.Data.products loaded = [Sample.bottle].
Proof.
  apply (save_then_load (SS := Sample.saved_sessions_codec)
           (SG := Sample.saved_groups_codec) (SR := Sample.saved_products_codec)
           sample_ids Sample.broken_world [Sample.yoga] [Sample.runners] [Sample.bottle]);
    reflexivity.
Defined.

Lemma save_users_then_load_witness :
  Studio.Data.users
    (fst (Studio.loadData (SU := Sample.saved_users_codec) sample_ids
            (snd (Studio.saveUsers (SU := Sample.saved_users_codec)
                    [Sample.dana; Sample.erez] empty_world))))
  = [Sample.dana; Sample.erez]
  /\ Studio.Data.users
       (fst (Studio.loadData sample_ids (snd (Studio.saveUsers [] empty_world))))
     = Studio.default_users "_id0" "_id1".
Proof.
  split.
  - apply (save_users_then_load (SU := Sample.saved_users_codec) sample_ids
             empty_world [Sample.dana; Sample.erez]); reflexivity.
  - apply (save_users_then_load sample_ids empty_world []); reflexivity.
Defined.

(** ** The program editor of the workouts variant *)

Lemma updateProgram_twice (st : Workouts.State) (programId : string)
    (a b : Workouts.Program.t) :
  Workouts.Program.id a = programId ->
  Workouts.updateProgram (Workouts.updateProgram st programId a) programId b
  = Workouts.updateProgram st programId b.
Proof.
  intros Ha. unfold Workouts.updateProgram, Workouts.setPrograms. simpl.
  rewrite List.map_map. f_equal. apply map_ext. intros p.
  destruct (String.eqb (Workouts.Program.id p) programId) eqn:Hp.
  - rewrite Ha, String.eqb_refl. reflexivity.
  - rewrite Hp. reflexivity.
Qed.

(** After [updateProgram], a stored program with the id that was
    updated is the program that was passed. *)
Lemma updated_program_stored (st : Workouts.State) (programId : string)
    (b s : Workouts.Program.t) :
  In s (Workouts.programs (Workouts.updateProgram st programId b)) ->
  Workouts.Program.id s = programId ->
  Workouts.Program.id b = programId -> s = b.
Proof.
  intros Hin Hid Hb. unfold Workouts.updateProgram in Hin. simpl in Hin.
  apply in_map_iff in Hin as [r [Hr _]].
  destruct (String.eqb (Workouts.Program.id r) programId) eqn:Hrid.
  - congruence.
  - subst s. apply String.eqb_neq in Hrid. contradiction.
Qed.

(** One edit leaves the other exercises of the opened program as
    they were when the editor was opened. *)
Lemma remove_keeps_other (st : Workouts.State) (program s : Workouts.Program.t)
    (y : string) (e : Workouts.ProgramExercise.t) :
  In e (Workouts.Program.exercises program) ->
  Workouts.ProgramExercise.id e <> y ->
  In s (Workouts.programs (Workouts.removeExerciseFromProgram st program y)) ->
  Workouts.Program.id s = Workouts.Program.id program ->
  In e (Workouts.Program.exercises s).
Proof.
  intros Hin Hne Hs Hid. unfold Workouts.removeExerciseFromProgram in Hs.
  rewrite (updated_program_stored _ _ _ s Hs Hid eq_refl). simpl.
  rewrite filter_In. split; [exact Hin |].
  apply negb_true_iff, String.eqb_neq, Hne.
Qed.

Lemma update_keeps_other (st : Workouts.State) (program s : Workouts.Program.t)
    (y : string) (q : Workouts.exercise_patch) (e : Workouts.ProgramExercise.t) :
  In e (Workouts.Program.exercises program) ->
  Workouts.ProgramExercise.id e <> y ->
  In s (Workouts.programs (Workouts.updateExerciseInProgram st program y q)) ->
  Workouts.Program.id s = Workouts.Program.id program ->
  In e (Workouts.Program.exercises s).
Proof.
  intros Hin Hne Hs Hid. unfold Workouts.updateExerciseInProgram in Hs.
  rewrite (updated_program_stored _ _ _ s Hs Hid eq_refl). simpl.
  apply in_map_iff. exists e. split; [| exact Hin].
  apply String.eqb_neq in Hne. rewrite Hne. reflexivity.
Qed.

(** X15. The remove and the update control of the editor work on the
    program as it was when the editor was opened.  So of two such
    edits made in one editor, in each of the four orders, the second
    undoes the first: the state after both is the state the second
    edit alone gives.  In particular, for an exercise [e] of the
    opened program and a second edit of another exercise: after [e]
    is removed no stored program with the opened program's id has
    it, after [e] is updated such a program has the updated exercise,
    and after the second edit, whichever the two edits were, such a
    program has [e] again exactly as it was when the editor was
    opened. *)
Theorem editor_last_edit_wins
    (st : Workouts.State) (program : Workouts.Program.t) (x y : string)
    (p q : Workouts.exercise_patch) :
  let remove := fun s i => Workouts.removeExerciseFromProgram s program i in
  let update := fun s i v => Workouts.updateExerciseInProgram s program i v in
  let opened := fun s => Workouts.Program.id s = Workouts.Program.id program in
  (remove (remove st x) y = remove st y
   /\ update (remove st x) y q = update st y q
   /\ remove (update st x p) y = remove st y
   /\ update (update st x p) y q = update st y q)
  /\ (forall e : Workouts.ProgramExercise.t,
        In e (Workouts.Program.exercises program) ->
        Workouts.ProgramExercise.id e = x -> x <> y ->
        (forall s, In s (Workouts.programs (remove st x)) -> opened s ->
           ~ In e (Workouts.Program.exercises s))
        /\ (forall s, In s (Workouts.programs (update st x p)) -> opened s ->
              In (Workouts.patch_exercise e p) (Workouts.Program.exercises s))
        /\ (forall second s,
              In second [remove (remove st x) y; update (remove st x) y q;
                         remove (update st x p) y; update (update st x p) y q] ->
              In s (Workouts.programs second) -> opened s ->
              In e (Workouts.Program.exercises s))).
Proof.
  intros remove update opened. subst remove update opened. cbv beta.
  assert (Hrr : Workouts.removeExerciseFromProgram
                  (Workouts.removeExerciseFromProgram st program x) program y
                = Workouts.removeExerciseFromProgram st program y)
    by (apply updateProgram_twice; reflexivity).
  assert (Hru : Workouts.updateExerciseInProgram
                  (Workouts.removeExerciseFromProgram st program x) program y q
                = Workouts.updateExerciseInProgram st program y q)
    by (apply updateProgram_twice; reflexivity).
  assert (Hur : Workouts.removeExerciseFromProgram
                  (Workouts.updateExerciseInProgram st program x p) program y
                = Workouts.removeExerciseFromProgram st program y)
    by (apply updateProgram_twice; reflexivity).
  assert (Huu : Workouts.updateExerciseInProgram
                  (Workouts.updateExerciseInProgram st program x p) program y q
                = Workouts.updateExerciseInProgram st program y q)
    by (apply updateProgram_twice; reflexivity).
  split; [repeat split; assumption |].
  intros e Hin Hx Hxy. split; [| split].
  - intros s Hs Hid. unfold Workouts.removeExerciseFromProgram in Hs.
    rewrite (updated_program_stored _ _ _ s Hs Hid eq_refl). simpl.
    rewrite filter_In, Hx, String.eqb_refl. intros [_ Hfalse]. discriminate.
  - intros s Hs Hid. unfold Workouts.updateExerciseInProgram in Hs.
    rewrite (updated_program_stored _ _ _ s Hs Hid eq_refl). simpl.
    apply in_map_iff. exists e. split; [| exact Hin].
    rewrite Hx, String.eqb_refl. reflexivity.
  - assert (Hey : Workouts.ProgramExercise.id e <> y) by congruence.
    intros second s Hsecond Hs Hid.
    rewrite Hrr, Hru, Hur, Huu in Hsecond.
    destruct Hsecond as [<- | [<- | [<- | [<- | []]]]].
    + eapply remove_keeps_other; eassumption.
    + eapply update_keeps_other; eassumption.
    + eapply remove_keeps_other; eassumption.
    + eapply update_keeps_other; eassumption.
Qed.

Lemma editor_last_edit_wins_witness :
  let squat := Workouts.ProgramExercise.mk "_e1" "סקוואט" (num_of_Z 3) (num_of_Z 12)
                 (num_of_Z 0) (num_of_Z 60) "שמור על גב ישר" "רגליים" "" false in
  let ids_stored := fun s : Workouts.State =>
    List.map (fun p => List.map Workouts.ProgramExercise.id (Workouts.Program.exercises p))
             (Workouts.programs s) in
  let sets_stored := fun s : Workouts.State =>
    List.map (fun p => List.map Workouts.ProgramExercise.sets (Workouts.Program.exercises p))
             (Workouts.programs s) in
  let removed_x :=
    Workouts.removeExerciseFromProgram Sample.gym_with_program
      Sample.edited_program "_e1" in
  let removed_both :=
    Workouts.removeExerciseFromProgram removed_x Sample.edited_program "_e2" in
  let updated_x :=
    Workouts.updateExerciseInProgram Sample.gym_with_program
      Sample.edited_program "_e1" (Workouts.PatchSets (num_of_Z 5)) in
  let updated_both :=
    Workouts.updateExerciseInProgram updated_x Sample.edited_program "_e2"
      (Workouts.PatchSets (num_of_Z 4)) in
  (ids_stored removed_x = [["_e2"]] /\ ids_stored removed_both = [["_e1"]]
   /\ sets_stored updated_x = [[num_of_Z 5; num_of_Z 3]]
   /\ sets_stored updated_both = [[num_of_Z 3; num_of_Z 4]])
  /\ removed_both
     = Workouts.removeExerciseFromProgram Sample.gym_with_program
         Sample.edited_program "_e2"
  /\ updated_both
     = Workouts.updateExerciseInProgram Sample.gym_with_program
         Sample.edited_program "_e2" (Workouts.PatchSets (num_of_Z 4))
  /\ (forall s, In s (Workouts.programs removed_both) ->
        Workouts.Program.id s = Workouts.Program.id Sample.edited_program ->
        In squat (Workouts.Program.exercises s))
  /\ (forall s, In s (Workouts.programs updated_both) ->
        Workouts.Program.id s = Workouts.Program.id Sample.edited_program ->
        In squat (Workouts.Program.exercises s)).
Proof.
  cbv zeta. split; [repeat split |].
  destruct (editor_last_edit_wins Sample.gym_with_program Sample.edited_program
              "_e1" "_e2" (Workouts.PatchSets (num_of_Z 5))
              (Workouts.PatchSets (num_of_Z 4)))
    as [[Hrr [_ [_ Huu]]] Hback].
  destruct (Hback
              (Workouts.ProgramExercise.mk "_e1" "סקוואט" (num_of_Z 3) (num_of_Z 12)
                 (num_of_Z 0) (num_of_Z 60) "שמור על גב ישר" "רגליים" "" false))
    as [_ [_ Hstored]].
  - left. reflexivity.
  - reflexivity.
  - discriminate.
  - split; [exact Hrr |]. split; [exact Huu |]. split.
    + intros s Hs Hid. apply (Hstored _ s (or_introl eq_refl) Hs Hid).
    + intros s Hs Hid.
      apply (Hstored _ s (or_intror (or_intror (or_intror (or_introl eq_refl)))) Hs Hid).
Defined.

(** ** The workout log per user *)

(** X16. A completed workout enters the list of workouts of the user
    who completed it, as its last entry, and the list of no user
    with another id. *)
Theorem completeWorkout_userWorkouts
    (st st' : Workouts.State) (programId : string)
    (results : list Workouts.ExerciseResult.t) (notes newId now : string) :
  Workouts.completeWorkout st programId results notes newId now = Returned st' ->
  exists cu,
    Workouts.currentUser st = Some cu
    /\ Workouts.userWorkouts (Workouts.workouts st') cu
       = Workouts.userWorkouts (Workouts.workouts st) cu
         ++ [Workouts.Workout.mk newId (Workouts.User.id cu) programId now
               results notes (num_of_Z 0)]
    /\ forall other,
         Workouts.User.id other <> Workouts.User.id cu ->
         Workouts.userWorkouts (Workouts.workouts st') other
         = Workouts.userWorkouts (Workouts.workouts st) other.
Proof.
  unfold Workouts.completeWorkout.
  destruct (Workouts.currentUser st) as [cu|]; [| discriminate].
  intros [= <-]. exists cu. split; [reflexivity |].
  unfold Workouts.userWorkouts. simpl Workouts.workouts.
  split.
  - rewrite List.filter_app. simpl. rewrite String.eqb_refl. reflexivity.
  - intros other Hother. rewrite List.filter_app. simpl.
    assert (Hne : String.eqb (Workouts.User.id cu) (Workouts.User.id other) = false)
      by (apply String.eqb_neq; congruence).
    rewrite Hne. apply app_nil_r.
Qed.

Lemma completeWorkout_userWorkouts_witness :
  exists cu,
    Workouts.currentUser Sample.gym_dana = Some cu
    /\ Workouts.userWorkouts (Workouts.workouts Sample.gym_completed) cu
       = Workouts.userWorkouts (Workouts.workouts Sample.gym_dana) cu
         ++ [Workouts.Workout.mk "_w1" (Workouts.User.id cu) "_p1"
               "2026-01-05T18:00:00.000Z" [Sample.squats] "" (num_of_Z 0)]
    /\ forall other,
         Workouts.User.id other <> Workouts.User.id cu ->
         Workouts.userWorkouts (Workouts.workouts Sample.gym_completed) other
         = Workouts.userWorkouts (Workouts.workouts Sample.gym_dana) other.
Proof.
  apply (completeWorkout_userWorkouts Sample.gym_dana Sample.gym_completed
           "_p1" [Sample.squats] "" "_w1" "2026-01-05T18:00:00.000Z").
  reflexivity.
Defined.

(** ** Never an empty application *)

(** On the storage with room. *)
Lemma loadData_with_seeds
    {SU : Codec Studio.User.t} {SP : Codec Studio.Program.t}
    {SS : Codec Studio.Session.t} {SG : Codec Studio.Group.t}
    {SR : Codec Studio.Product.t}
    {WU : Codec Workouts.User.t} {WP : Codec Workouts.Program.t}
    {WW : Codec Workouts.Workout.t} {WE : Codec Workouts.Exercise.t}
    (ids : nat -> string) (w : World) :
  Studio.Data.users (fst (Studio.loadData ids w)) <> []
  /\ Studio.Data.programs (fst (Studio.loadData ids w)) <> []
  /\ Workouts.Data.users (fst (Workouts.loadData ids w)) <> []
  /\ Workouts.Data.programs (fst (Workouts.loadData ids w)) <> []
  /\ Workouts.Data.exercises (fst (Workouts.loadData ids w)) <> [].
Proof.
  rewrite studio_loadData_eq, workouts_loadData_eq. cbv zeta. cbn [fst].
  cbn [Studio.Data.users Studio.Data.programs Workouts.Data.users
       Workouts.Data.programs Workouts.Data.exercises].
  split; [| split; [| split; [| split]]].
  - destruct (studio_load_users_cases ids w) as [Hnil Hne].
    destruct (fst (Studio.read_users w)) as [|u us].
    + rewrite Hnil by reflexivity. discriminate.
    + rewrite Hne by discriminate. discriminate.
  - destruct (studio_load_programs_cases ids (snd (Studio.load_users ids w)))
      as [Hnil Hne].
    destruct (stored (snd (Studio.load_users ids w)) Studio.PROGRAMS_KEY) as [|p ps].
    + rewrite Hnil by reflexivity. discriminate.
    + rewrite Hne by discriminate. discriminate.
  - destruct (workouts_load_users_cases ids w) as [Hnil Hne].
    destruct (fst (Workouts.read_users w)) as [|u us].
    + rewrite Hnil by reflexivity. discriminate.
    + rewrite Hne by discriminate. discriminate.
  - destruct (workouts_load_programs_cases ids (snd (Workouts.load_users ids w)))
      as [Hnil Hne].
    destruct (stored (snd (Workouts.load_users ids w)) Workouts.PROGRAMS_KEY)
      as [|p ps].
    + rewrite Hnil by reflexivity. discriminate.
    + rewrite Hne by discriminate. discriminate.
  - destruct (workouts_load_exercises_cases ids
                (snd (Workouts.load_programs ids (snd (Workouts.load_users ids w)))))
      as [Hnil Hne].
    destruct (stored
                (snd (Workouts.load_programs ids (snd (Workouts.load_users ids w))))
                Workouts.EXERCISES_KEY) as [|e es].
    + rewrite Hnil by reflexivity. discriminate.
    + rewrite Hne by discriminate. discriminate.
Qed.

(** X17. On a store each of whose texts either fails to parse or
    is an array of records, what [loadData] returns has at least one
    user and one program, and in the workouts variant at least one
    library exercise: there is always an account to log in with.
    This holds on the storage with room, where [loadData] always
    returns, and on a storage that can refuse a write, whenever
    [loadData] returns there. *)
Theorem loadData_never_empty
    {SU : Codec Studio.User.t} {SP : Codec Studio.Program.t}
    {SS : Codec Studio.Session.t} {SG : Codec Studio.Group.t}
    {SR : Codec Studio.Product.t}
    {WU : Codec Workouts.User.t} {WP : Codec Workouts.Program.t}
    {WW : Codec Workouts.Workout.t} {WE : Codec Workouts.Exercise.t}
    (room : Room) (ids : nat -> string) (w : World) :
  (Studio.Data.users (fst (Studio.loadData ids w)) <> []
   /\ Studio.Data.programs (fst (Studio.loadData ids w)) <> []
   /\ Workouts.Data.users (fst (Workouts.loadData ids w)) <> []
   /\ Workouts.Data.programs (fst (Workouts.loadData ids w)) <> []
   /\ Workouts.Data.exercises (fst (Workouts.loadData ids w)) <> [])
  /\ (forall d, fst (Studio.Bounded.loadData room ids w) = Returned d ->
        Studio.Data.users d <> [] /\ Studio.Data.programs d <> [])
  /\ (forall g, fst (Workouts.Bounded.loadData room ids w) = Returned g ->
        Workouts.Data.users g <> [] /\ Workouts.Data.programs g <> []
        /\ Workouts.Data.exercises g <> []).
Proof.
  pose proof (loadData_with_seeds ids w) as [Hsu [Hsp [Hwu [Hwp Hwe]]]].
  split; [repeat split; assumption |]. split.
  - intros d Hd. apply studio_bounded_returned in Hd. subst d. split; assumption.
  - intros g Hg. apply workouts_bounded_returned in Hg. subst g.
    repeat split; assumption.
Qed.

(** Two loads of an empty store, one on each kind of storage. *)
Lemma loadData_never_empty_witness :
  exists d g,
    fst (Studio.Bounded.loadData roomy sample_ids empty_world) = Returned d
    /\ fst (Workouts.Bounded.loadData roomy sample_ids empty_world) = Returned g
    /\ (Studio.Data.users d <> [] /\ Studio.Data.programs d <> [])
    /\ (Workouts.Data.users g <> [] /\ Workouts.Data.programs g <> []
        /\ Workouts.Data.exercises g <> []).
Proof.
  destruct (loadData_never_empty roomy sample_ids empty_world) as [_ [Hd Hg]].
  eexists. eexists.
  split; [reflexivity |]. split; [reflexivity |].
  split; [apply Hd; reflexivity | apply Hg; reflexivity].
Defined.

(** ** The workout log of the workouts variant *)

(** What one transition does to the users and to the log: the users
    are mapped by a function that keeps ids, new users have completed
    nothing, the log gains entries at its end, and a user's completed
    list either stays or gains the id of one new entry made for that
    user's id. *)
Definition log_step_shape (st st' : Workouts.State) : Prop :=
  exists (f : Workouts.User.t -> Workouts.User.t) (added : list Workouts.User.t)
         (entries : list Workouts.Workout.t),
    Workouts.users st' = List.map f (Workouts.users st) ++ added
    /\ Workouts.workouts st' = Workouts.workouts st ++ entries
    /\ (forall n, In n added -> Workouts.User.completedWorkouts n = [])
    /\ forall u,
         Workouts.User.id (f u) = Workouts.User.id u
         /\ (Workouts.User.completedWorkouts (f u) = Workouts.User.completedWorkouts u
             \/ exists w, In w entries
                  /\ Workouts.User.completedWorkouts (f u)
                     = Workouts.User.completedWorkouts u ++ [Workouts.Workout.id w]
                  /\ Workouts.Workout.userId w = Workouts.User.id u).

Lemma log_shape_mapped (st st' : Workouts.State) (f : Workouts.User.t -> Workouts.User.t) :
  Workouts.users st' = List.map f (Workouts.users st) ->
  Workouts.workouts st' = Workouts.workouts st ->
  (forall u, Workouts.User.id (f u) = Workouts.User.id u
             /\ Workouts.User.completedWorkouts (f u)
                = Workouts.User.completedWorkouts u) ->
  log_step_shape st st'.
Proof.
  intros Hu Hw Hf. exists f, [], []. rewrite !app_nil_r.
  split; [exact Hu |]. split; [exact Hw |]. split; [intros n [] |].
  intros u. destruct (Hf u) as [Hid Hcw]. split; [exact Hid | left; exact Hcw].
Qed.

Lemma log_shape_same (st st' : Workouts.State) :
  Workouts.users st' = Workouts.users st ->
  Workouts.workouts st' = Workouts.workouts st ->
  log_step_shape st st'.
Proof.
  intros Hu Hw. apply (log_shape_mapped st st' (fun u => u)).
  - rewrite map_id_list. exact Hu.
  - exact Hw.
  - intros u. split; reflexivity.
Qed.

Lemma workouts_step_shape (st st' : Workouts.State) :
  Workouts.step st st' -> log_step_shape st st'.
Proof.
  intros Hstep. destruct Hstep.
  - apply log_shape_same; unfold Workouts.handleLogin;
      destruct (Workouts.find_by_username _ _); [destruct (negb _) | |
                                                  destruct (negb _) |];
      reflexivity.
  - unfold Workouts.handleRegister.
    destruct (falsy username || falsy password);
      [apply log_shape_same; reflexivity |].
    destruct (Workouts.find_by_username _ _);
      [apply log_shape_same; reflexivity |].
    cbn [snd]. eexists (fun u => u), [_], [].
    rewrite map_id_list, app_nil_r.
    split; [reflexivity |]. split; [reflexivity |]. split.
    + intros n [<- | []]. reflexivity.
    + intros u. split; [reflexivity | left; reflexivity].
  - apply log_shape_same; reflexivity.
  - apply log_shape_same; reflexivity.
  - apply log_shape_same; reflexivity.
  - apply log_shape_same; reflexivity.
  - apply log_shape_same; reflexivity.
  - apply log_shape_same; reflexivity.
  - eapply log_shape_mapped; [reflexivity | reflexivity |].
    intros u. cbv beta.
    destruct (String.eqb (Workouts.User.username u) username); split; reflexivity.
  - eapply log_shape_mapped; [reflexivity | reflexivity |].
    intros u. cbv beta.
    destruct (String.eqb (Workouts.User.id u) userId); split; reflexivity.
  - unfold Workouts.completeWorkout in H.
    destruct (Workouts.currentUser st) as [cu|]; [| discriminate].
    injection H as <-.
    eexists _, [], [_]. rewrite app_nil_r.
    split; [reflexivity |]. split; [reflexivity |]. split; [intros n [] |].
    intros u. cbv beta.
    destruct (String.eqb (Workouts.User.id u) (Workouts.User.id cu)) eqn:Hid.
    + split; [reflexivity |]. right. eexists. split; [left; reflexivity |].
      split; [reflexivity |]. simpl. apply String.eqb_eq in Hid. congruence.
    + split; [reflexivity | left; reflexivity].
  - apply log_shape_same; reflexivity.
  - unfold Workouts.saveProfile in H.
    destruct (Workouts.currentUser st) as [cu|];
      [| destruct (Workouts.users st); discriminate].
    injection H as <-.
    eapply log_shape_mapped; [reflexivity | reflexivity |].
    intros u. cbv beta.
    destruct (String.eqb (Workouts.User.id u) (Workouts.User.id cu)); split; reflexivity.
Qed.

Lemma step_keeps_log_consistent (st st' : Workouts.State) :
  Workouts.step st st' ->
  Workouts.log_consistent st -> Workouts.log_consistent st'.
Proof.
  intros Hstep Hinv.
  destruct (workouts_step_shape st st' Hstep)
    as [f [added [entries [Hu [Hw [Hadded Hf]]]]]].
  intros u' wid Hin Hwid. rewrite Hu in Hin. rewrite Hw.
  apply in_app_iff in Hin as [Hin | Hin].
  - apply in_map_iff in Hin as [u [<- Hin]].
    destruct (Hf u) as [Hid [Hcw | [w [Hw_in [Hcw Huser]]]]].
    + rewrite Hcw in Hwid. destruct (Hinv u wid Hin Hwid) as [w [Hw_in [Hwi Hwu]]].
      exists w. split; [apply in_app_iff; left; exact Hw_in |].
      split; congruence.
    + rewrite Hcw in Hwid. apply in_app_iff in Hwid as [Hold | [<- | []]].
      * destruct (Hinv u wid Hin Hold) as [w0 [Hw0 [Hwi Hwu]]].
        exists w0. split; [apply in_app_iff; left; exact Hw0 |].
        split; congruence.
      * exists w. split; [apply in_app_iff; right; exact Hw_in |].
        split; congruence.
  - rewrite (Hadded u' Hin) in Hwid. destruct Hwid.
Qed.

(** X18. In the workouts variant, along any sequence of calls of the
    handlers (login, register, logout, navigation, addProgram,
    updateProgram, the editor's remove and update of an exercise,
    assignProgramToUser, addMetric, completeWorkout, addExercise,
    saveProfile), the log only grows at its end, and the completed
    lists never dangle: if every workout id in the completed list of
    a stored user is the id of a log entry made for that user's id,
    this remains so. *)
Theorem workout_log_consistent (st st' : Workouts.State) :
  Workouts.log_consistent st ->
  rtc Workouts.step st st' ->
  Workouts.log_consistent st'
  /\ prefix (Workouts.workouts st) (Workouts.workouts st').
Proof.
  intros Hinv Hrtc. induction Hrtc as [st | st mid st' Hstep _ IH].
  - split; [exact Hinv | apply prefix_refl_list].
  - destruct (IH (step_keeps_log_consistent st mid Hstep Hinv)) as [Hcons Hpre].
    split; [exact Hcons |].
    destruct (workouts_step_shape st mid Hstep) as [f [added [entries [_ [Hw _]]]]].
    destruct Hpre as [k Hk]. exists (entries ++ k).
    rewrite Hk, Hw, app_assoc. reflexivity.
Qed.

Lemma workout_log_consistent_witness :
  Workouts.log_consistent Sample.gym_logged_completed
  /\ prefix (Workouts.workouts (Sample.gym None))
            (Workouts.workouts Sample.gym_logged_completed).
Proof.
  apply (workout_log_consistent (Sample.gym None) Sample.gym_logged_completed).
  - intros u wid [<- | [<- | [<- | []]]] [].
  - eapply rtc_l.
    + apply (Workouts.step_login (Sample.gym None) "dana" "pw1").
    + eapply rtc_l; [| apply rtc_refl].
      apply (Workouts.step_completeWorkout _ "_p1" [Sample.squats] ""
               "_w1" "2026-01-05T18:00:00.000Z").
      reflexivity.
Defined.
